(** * Staged query-lifecycle orchestrator of the research-assistant page

    Shallow embedding of the chat page component ([HomePage], the second
    document of [src/unnamed/part_001]), of the search form
    ([src/frontend/components/SearchForm.tsx]) and of the record shapes of
    [src/frontend/types.ts].

    The component is a React function component: its state lives in
    [useState] cells, its handlers are [async] functions.  The embedding
    follows that shape:

    - the [useState] cells are the fields of one record [State]; every
      [setX(v)] is the function [setX v], every [setX(prev => f prev)] reads
      the live state;
    - a handler reads the cells through the closure of the render in which it
      was created.  Each handler therefore takes a snapshot [snap : State]
      (what the closure sees) next to the live state [st] (what the setters
      write to);
    - an [async] handler is cut at each [await] of a network or store call:
      one function per segment, the answer of the awaited call being an
      argument of the next segment;
    - the remote store and the two HTTP services are the environment: their
      answers are inputs.  A small model of the two tables is given to run
      whole executions.

    Embedded as well: the thinking display ([ThinkingProcessDisplay] of
    [src/frontend/components], with the item-by-item reveal of
    [src/unnamed/part_004]), the final answer ([FinalAnswerDisplay] of
    [src/unnamed/part_005], the citation links and the source list of
    [src/unnamed/part_006], and the citation callback of
    [src/unnamed/part_007]), the render logic of the page, and the earlier
    version of the page (the first document of [src/unnamed/part_001]).

    Left out: the authentication effect and [fetchChatSessions] (the runs
    start from a signed-in page), [handleLogout], the scroll effect with its
    ref, the styling of the markup, the regular expressions that find a URL
    in a source and a citation block in the answer, and the login page. *)

From Stdlib Require Import List String Ascii Bool Arith NArith Lia PeanoNat.
From Stdlib Require Import DecimalString DecimalNat.
Import ListNotations.
Open Scope string_scope.
Open Scope list_scope.

(** ** JavaScript values used by the page *)

(** Truthiness of a string: only the empty string is falsy. *)
Definition truthy (s : string) : bool := negb (s =? "").

(** Truthiness of a [string | null | undefined] value. *)
Definition truthyOpt (o : option string) : bool :=
  match o with
  | Some s => truthy s
  | None => false
  end.

(** [a || b] on [string | null | undefined] operands. *)
Definition orElse (a b : option string) : option string :=
  if truthyOpt a then a else b.

(** [a === b] where [a : string | undefined] and [b : string | null]: the
    absent values on the two sides are different JavaScript values
    ([undefined] and [null]), so two absent operands are not equal. *)
Definition strictEq (a b : option string) : bool :=
  match a, b with
  | Some x, Some y => x =? y
  | _, _ => false
  end.

(** White space removed by [String.prototype.trim].  A string is a sequence
    of code units below 256; the white space and the line terminators of
    JavaScript among them are TAB, LF, VT, FF, CR (units 9 to 13), the space
    (32) and the no-break space (160). *)
Definition isWhiteSpace (c : ascii) : bool :=
  let n := nat_of_ascii c in
  ((9 <=? n)%nat && (n <=? 13)%nat) || (n =? 32)%nat || (n =? 160)%nat.

Fixpoint trimStart (s : string) : string :=
  match s with
  | EmptyString => EmptyString
  | String c r => if isWhiteSpace c then trimStart r else s
  end.

Fixpoint trimEnd (s : string) : string :=
  match s with
  | EmptyString => EmptyString
  | String c r =>
      let r' := trimEnd r in
      if isWhiteSpace c && (r' =? "") then EmptyString else String c r'
  end.

Definition trim (s : string) : string := trimEnd (trimStart s).

(** Decimal rendering of a number inside a template literal. *)
Definition numberToString (n : nat) : string :=
  NilZero.string_of_uint (Nat.to_uint n).

(** ** Record shapes ([src/frontend/types.ts]) *)

Module SearchResultItem.
Record t := mk { title : string; url : string; content : option string }.
End SearchResultItem.

Module FetchedLinksResponse.
Record t := mk {
  query : string;
  results : list SearchResultItem.t;
  total_results : option nat }.
End FetchedLinksResponse.

Module AnalysisItem.
Record t := mk { question : string; analysis_content : string }.
End AnalysisItem.

Module AiResponse.
Record t := mk {
  sub_questions : list string;
  analysis : list AnalysisItem.t;
  synthesis : list string;
  final_answer : list string;
  sources : list string }.
End AiResponse.

Module DisplayStage.
Inductive t :=
| idle | fetchingLinks | gatheringLinks | fetchingAiAnalysis
| subquestions | analysis | synthesis | final | error.

Definition eqb (a b : t) : bool :=
  match a, b with
  | idle, idle | fetchingLinks, fetchingLinks | gatheringLinks, gatheringLinks
  | fetchingAiAnalysis, fetchingAiAnalysis | subquestions, subquestions
  | analysis, analysis | synthesis, synthesis | final, final | error, error => true
  | _, _ => false
  end.

(** The two stages after which a message never changes again. *)
Definition terminal (s : t) : bool :=
  match s with
  | final | error => true
  | _ => false
  end.
End DisplayStage.

Module ChatMessage.
Record t := mk {
  id : option string;
  session_id : option string;
  user_id : option string;
  query : string;
  response : option AiResponse.t;
  fetchedLinks : option FetchedLinksResponse.t;
  error : option string;
  stage : DisplayStage.t;
  created_at : option string }.
End ChatMessage.

(** [Partial<ChatMessage>], the argument of [saveChatMessage]. *)
Module PartialChatMessage.
Record t := mk {
  query : option string;
  response : option AiResponse.t;
  error : option string;
  stage : option DisplayStage.t;
  session_id : option string;
  user_id : option string }.
End PartialChatMessage.

Module ChatSession.
Record t := mk {
  id : string;
  user_id : string;
  created_at : string;
  session_name : option string }.
End ChatSession.

(** A row of the [chat_messages] table as the page selects it. *)
Module MessageRow.
Record t := mk {
  id : string;
  query_text : string;
  response_data : option AiResponse.t;
  created_at : string;
  session_id : string;
  user_id : string }.
End MessageRow.

(** The authenticated user; the page reads its [id] only. *)
Module User.
Record t := mk { id : string }.
End User.

Definition SESSION_NAME_MAX_LENGTH : nat := 35.
Definition DEFAULT_NEW_CHAT_NAME : string := "New Chat".
Definition STAGE_DELAY : N := 11000%N.
Definition LINK_DISPLAY_DELAY : N := 700%N.

(** ** The component state: one field per [useState] cell *)

Record State := mkState {
  user : option User.t;
  isLoadingAuth : bool;
  chatHistory : list ChatMessage.t;
  currentSessionId : option string;
  chatSessionsList : list ChatSession.t;
  isLoadingSessions : bool;
  isLoadingMessages : bool;
  currentPendingMessageId : option string;
  currentQuery : string;
  fetchedLinksData : option FetchedLinksResponse.t;
  aiAnalysisData : option AiResponse.t;
  isLoading : bool;
  error : option string;
  currentDisplayStage : DisplayStage.t;
  currentLinkIndex : nat;
  loadingMessage : string;
  selectedAiModel : string }.

(** The values the [useState] calls start from. *)
Definition initialState : State :=
  {| user := None; isLoadingAuth := true; chatHistory := [];
     currentSessionId := None; chatSessionsList := []; isLoadingSessions := false;
     isLoadingMessages := false; currentPendingMessageId := None; currentQuery := "";
     fetchedLinksData := None; aiAnalysisData := None; isLoading := false;
     error := None; currentDisplayStage := DisplayStage.idle; currentLinkIndex := 0;
     loadingMessage := ""; selectedAiModel := "gemini" |}.

(** The state setters. *)

Definition setUser (v : option User.t) (st : State) : State :=
  {| user := v; isLoadingAuth := isLoadingAuth st; chatHistory := chatHistory st;
     currentSessionId := currentSessionId st; chatSessionsList := chatSessionsList st;
     isLoadingSessions := isLoadingSessions st; isLoadingMessages := isLoadingMessages st;
     currentPendingMessageId := currentPendingMessageId st; currentQuery := currentQuery st;
     fetchedLinksData := fetchedLinksData st; aiAnalysisData := aiAnalysisData st;
     isLoading := isLoading st; error := error st;
     currentDisplayStage := currentDisplayStage st; currentLinkIndex := currentLinkIndex st;
     loadingMessage := loadingMessage st; selectedAiModel := selectedAiModel st |}.

Definition setIsLoadingAuth (v : bool) (st : State) : State :=
  {| user := user st; isLoadingAuth := v; chatHistory := chatHistory st;
     currentSessionId := currentSessionId st; chatSessionsList := chatSessionsList st;
     isLoadingSessions := isLoadingSessions st; isLoadingMessages := isLoadingMessages st;
     currentPendingMessageId := currentPendingMessageId st; currentQuery := currentQuery st;
     fetchedLinksData := fetchedLinksData st; aiAnalysisData := aiAnalysisData st;
     isLoading := isLoading st; error := error st;
     currentDisplayStage := currentDisplayStage st; currentLinkIndex := currentLinkIndex st;
     loadingMessage := loadingMessage st; selectedAiModel := selectedAiModel st |}.

Definition setChatHistory (v : list ChatMessage.t) (st : State) : State :=
  {| user := user st; isLoadingAuth := isLoadingAuth st; chatHistory := v;
     currentSessionId := currentSessionId st; chatSessionsList := chatSessionsList st;
     isLoadingSessions := isLoadingSessions st; isLoadingMessages := isLoadingMessages st;
     currentPendingMessageId := currentPendingMessageId st; currentQuery := currentQuery st;
     fetchedLinksData := fetchedLinksData st; aiAnalysisData := aiAnalysisData st;
     isLoading := isLoading st; error := error st;
     currentDisplayStage := currentDisplayStage st; currentLinkIndex := currentLinkIndex st;
     loadingMessage := loadingMessage st; selectedAiModel := selectedAiModel st |}.

Definition setCurrentSessionId (v : option string) (st : State) : State :=
  {| user := user st; isLoadingAuth := isLoadingAuth st; chatHistory := chatHistory st;
     currentSessionId := v; chatSessionsList := chatSessionsList st;
     isLoadingSessions := isLoadingSessions st; isLoadingMessages := isLoadingMessages st;
     currentPendingMessageId := currentPendingMessageId st; currentQuery := currentQuery st;
     fetchedLinksData := fetchedLinksData st; aiAnalysisData := aiAnalysisData st;
     isLoading := isLoading st; error := error st;
     currentDisplayStage := currentDisplayStage st; currentLinkIndex := currentLinkIndex st;
     loadingMessage := loadingMessage st; selectedAiModel := selectedAiModel st |}.

Definition setChatSessionsList (v : list ChatSession.t) (st : State) : State :=
  {| user := user st; isLoadingAuth := isLoadingAuth st; chatHistory := chatHistory st;
     currentSessionId := currentSessionId st; chatSessionsList := v;
     isLoadingSessions := isLoadingSessions st; isLoadingMessages := isLoadingMessages st;
     currentPendingMessageId := currentPendingMessageId st; currentQuery := currentQuery st;
     fetchedLinksData := fetchedLinksData st; aiAnalysisData := aiAnalysisData st;
     isLoading := isLoading st; error := error st;
     currentDisplayStage := currentDisplayStage st; currentLinkIndex := currentLinkIndex st;
     loadingMessage := loadingMessage st; selectedAiModel := selectedAiModel st |}.

Definition setIsLoadingSessions (v : bool) (st : State) : State :=
  {| user := user st; isLoadingAuth := isLoadingAuth st; chatHistory := chatHistory st;
     currentSessionId := currentSessionId st; chatSessionsList := chatSessionsList st;
     isLoadingSessions := v; isLoadingMessages := isLoadingMessages st;
     currentPendingMessageId := currentPendingMessageId st; currentQuery := currentQuery st;
     fetchedLinksData := fetchedLinksData st; aiAnalysisData := aiAnalysisData st;
     isLoading := isLoading st; error := error st;
     currentDisplayStage := currentDisplayStage st; currentLinkIndex := currentLinkIndex st;
     loadingMessage := loadingMessage st; selectedAiModel := selectedAiModel st |}.

Definition setIsLoadingMessages (v : bool) (st : State) : State :=
  {| user := user st; isLoadingAuth := isLoadingAuth st; chatHistory := chatHistory st;
     currentSessionId := currentSessionId st; chatSessionsList := chatSessionsList st;
     isLoadingSessions := isLoadingSessions st; isLoadingMessages := v;
     currentPendingMessageId := currentPendingMessageId st; currentQuery := currentQuery st;
     fetchedLinksData := fetchedLinksData st; aiAnalysisData := aiAnalysisData st;
     isLoading := isLoading st; error := error st;
     currentDisplayStage := currentDisplayStage st; currentLinkIndex := currentLinkIndex st;
     loadingMessage := loadingMessage st; selectedAiModel := selectedAiModel st |}.

Definition setCurrentPendingMessageId (v : option string) (st : State) : State :=
  {| user := user st; isLoadingAuth := isLoadingAuth st; chatHistory := chatHistory st;
     currentSessionId := currentSessionId st; chatSessionsList := chatSessionsList st;
     isLoadingSessions := isLoadingSessions st; isLoadingMessages := isLoadingMessages st;
     currentPendingMessageId := v; currentQuery := currentQuery st;
     fetchedLinksData := fetchedLinksData st; aiAnalysisData := aiAnalysisData st;
     isLoading := isLoading st; error := error st;
     currentDisplayStage := currentDisplayStage st; currentLinkIndex := currentLinkIndex st;
     loadingMessage := loadingMessage st; selectedAiModel := selectedAiModel st |}.

Definition setCurrentQuery (v : string) (st : State) : State :=
  {| user := user st; isLoadingAuth := isLoadingAuth st; chatHistory := chatHistory st;
     currentSessionId := currentSessionId st; chatSessionsList := chatSessionsList st;
     isLoadingSessions := isLoadingSessions st; isLoadingMessages := isLoadingMessages st;
     currentPendingMessageId := currentPendingMessageId st; currentQuery := v;
     fetchedLinksData := fetchedLinksData st; aiAnalysisData := aiAnalysisData st;
     isLoading := isLoading st; error := error st;
     currentDisplayStage := currentDisplayStage st; currentLinkIndex := currentLinkIndex st;
     loadingMessage := loadingMessage st; selectedAiModel := selectedAiModel st |}.

Definition setFetchedLinksData (v : option FetchedLinksResponse.t) (st : State) : State :=
  {| user := user st; isLoadingAuth := isLoadingAuth st; chatHistory := chatHistory st;
     currentSessionId := currentSessionId st; chatSessionsList := chatSessionsList st;
     isLoadingSessions := isLoadingSessions st; isLoadingMessages := isLoadingMessages st;
     currentPendingMessageId := currentPendingMessageId st; currentQuery := currentQuery st;
     fetchedLinksData := v; aiAnalysisData := aiAnalysisData st; isLoading := isLoading st;
     error := error st; currentDisplayStage := currentDisplayStage st;
     currentLinkIndex := currentLinkIndex st; loadingMessage := loadingMessage st;
     selectedAiModel := selectedAiModel st |}.

Definition setAiAnalysisData (v : option AiResponse.t) (st : State) : State :=
  {| user := user st; isLoadingAuth := isLoadingAuth st; chatHistory := chatHistory st;
     currentSessionId := currentSessionId st; chatSessionsList := chatSessionsList st;
     isLoadingSessions := isLoadingSessions st; isLoadingMessages := isLoadingMessages st;
     currentPendingMessageId := currentPendingMessageId st; currentQuery := currentQuery st;
     fetchedLinksData := fetchedLinksData st; aiAnalysisData := v; isLoading := isLoading st;
     error := error st; currentDisplayStage := currentDisplayStage st;
     currentLinkIndex := currentLinkIndex st; loadingMessage := loadingMessage st;
     selectedAiModel := selectedAiModel st |}.

Definition setIsLoading (v : bool) (st : State) : State :=
  {| user := user st; isLoadingAuth := isLoadingAuth st; chatHistory := chatHistory st;
     currentSessionId := currentSessionId st; chatSessionsList := chatSessionsList st;
     isLoadingSessions := isLoadingSessions st; isLoadingMessages := isLoadingMessages st;
     currentPendingMessageId := currentPendingMessageId st; currentQuery := currentQuery st;
     fetchedLinksData := fetchedLinksData st; aiAnalysisData := aiAnalysisData st;
     isLoading := v; error := error st; currentDisplayStage := currentDisplayStage st;
     currentLinkIndex := currentLinkIndex st; loadingMessage := loadingMessage st;
     selectedAiModel := selectedAiModel st |}.

Definition setError (v : option string) (st : State) : State :=
  {| user := user st; isLoadingAuth := isLoadingAuth st; chatHistory := chatHistory st;
     currentSessionId := currentSessionId st; chatSessionsList := chatSessionsList st;
     isLoadingSessions := isLoadingSessions st; isLoadingMessages := isLoadingMessages st;
     currentPendingMessageId := currentPendingMessageId st; currentQuery := currentQuery st;
     fetchedLinksData := fetchedLinksData st; aiAnalysisData := aiAnalysisData st;
     isLoading := isLoading st; error := v; currentDisplayStage := currentDisplayStage st;
     currentLinkIndex := currentLinkIndex st; loadingMessage := loadingMessage st;
     selectedAiModel := selectedAiModel st |}.

Definition setCurrentDisplayStage (v : DisplayStage.t) (st : State) : State :=
  {| user := user st; isLoadingAuth := isLoadingAuth st; chatHistory := chatHistory st;
     currentSessionId := currentSessionId st; chatSessionsList := chatSessionsList st;
     isLoadingSessions := isLoadingSessions st; isLoadingMessages := isLoadingMessages st;
     currentPendingMessageId := currentPendingMessageId st; currentQuery := currentQuery st;
     fetchedLinksData := fetchedLinksData st; aiAnalysisData := aiAnalysisData st;
     isLoading := isLoading st; error := error st; currentDisplayStage := v;
     currentLinkIndex := currentLinkIndex st; loadingMessage := loadingMessage st;
     selectedAiModel := selectedAiModel st |}.

Definition setCurrentLinkIndex (v : nat) (st : State) : State :=
  {| user := user st; isLoadingAuth := isLoadingAuth st; chatHistory := chatHistory st;
     currentSessionId := currentSessionId st; chatSessionsList := chatSessionsList st;
     isLoadingSessions := isLoadingSessions st; isLoadingMessages := isLoadingMessages st;
     currentPendingMessageId := currentPendingMessageId st; currentQuery := currentQuery st;
     fetchedLinksData := fetchedLinksData st; aiAnalysisData := aiAnalysisData st;
     isLoading := isLoading st; error := error st;
     currentDisplayStage := currentDisplayStage st; currentLinkIndex := v;
     loadingMessage := loadingMessage st; selectedAiModel := selectedAiModel st |}.

Definition setLoadingMessage (v : string) (st : State) : State :=
  {| user := user st; isLoadingAuth := isLoadingAuth st; chatHistory := chatHistory st;
     currentSessionId := currentSessionId st; chatSessionsList := chatSessionsList st;
     isLoadingSessions := isLoadingSessions st; isLoadingMessages := isLoadingMessages st;
     currentPendingMessageId := currentPendingMessageId st; currentQuery := currentQuery st;
     fetchedLinksData := fetchedLinksData st; aiAnalysisData := aiAnalysisData st;
     isLoading := isLoading st; error := error st;
     currentDisplayStage := currentDisplayStage st; currentLinkIndex := currentLinkIndex st;
     loadingMessage := v; selectedAiModel := selectedAiModel st |}.

Definition setSelectedAiModel (v : string) (st : State) : State :=
  {| user := user st; isLoadingAuth := isLoadingAuth st; chatHistory := chatHistory st;
     currentSessionId := currentSessionId st; chatSessionsList := chatSessionsList st;
     isLoadingSessions := isLoadingSessions st; isLoadingMessages := isLoadingMessages st;
     currentPendingMessageId := currentPendingMessageId st; currentQuery := currentQuery st;
     fetchedLinksData := fetchedLinksData st; aiAnalysisData := aiAnalysisData st;
     isLoading := isLoading st; error := error st;
     currentDisplayStage := currentDisplayStage st; currentLinkIndex := currentLinkIndex st;
     loadingMessage := loadingMessage st; selectedAiModel := v |}.

(** ** Calls to the outside world *)

(** What the page sends: five store operations and two HTTP posts. *)
Inductive Request :=
| InsertSession (user_id session_name : string)
| UpdateSessionName (id session_name : string)
| InsertMessage (session_id user_id query_text : string)
                (response_data : option AiResponse.t)
| UpdateMessage (id : string) (response_data : AiResponse.t)
| SelectMessages (session_id : string)
| PostFetchLinks (query : string)
| PostAiAnalysis (endpoint original_query : string)
                 (search_results : FetchedLinksResponse.t).

(** How a [fetch] followed by [response.json()] can end.
    - [FetchRejected message]: an error with this message is thrown before a
      status is acted on: [fetch] rejects, or, for a status outside 2xx, the
      body parses to a value without properties (JSON [null]), so that
      reading [errorData.detail] throws a [TypeError];
    - [FetchNotOk statusText body]: a status outside 2xx; the body is [None]
      when [json()] rejects, [Some None] when it parses to a value whose
      [detail] is missing or falsy, and [Some (Some d)] when it has a truthy
      [detail], [d] being the text [new Error] makes of it (the [detail]
      itself when it is a string);
    - [FetchOkMalformed message]: a 2xx status whose body [json()] rejects;
    - [FetchOk data]: a 2xx status and its parsed body. *)
Inductive FetchOutcome (A : Type) :=
| FetchRejected (message : string)
| FetchNotOk (statusText : string) (body : option (option string))
| FetchOkMalformed (message : string)
| FetchOk (data : A).

Arguments FetchRejected {A} message.
Arguments FetchNotOk {A} statusText body.
Arguments FetchOkMalformed {A} message.
Arguments FetchOk {A} data.

(** The message of the [Error] that reaches the [catch] clause, if one is
    thrown: [failedPrefix] and [notOk] are the two literals of the call site. *)
Definition thrownMessage {A} (failedPrefix notOk : string)
    (o : FetchOutcome A) : option string :=
  match o with
  | FetchRejected m => Some m
  | FetchNotOk statusText body =>
      let detail :=
        match body with
        | None => Some (failedPrefix ++ statusText)%string
        | Some d => d
        end in
      Some (match detail with
            | Some d => if truthy d then d else notOk
            | None => notOk
            end)
  | FetchOkMalformed m => Some m
  | FetchOk _ => None
  end.

(** [err.message || fallback]. *)
Definition messageOr (m fallback : string) : string :=
  if truthy m then m else fallback.

(** The continuation an [await] leaves behind.  It keeps the snapshot of the
    render that created the running handler and the handler's locals. *)
Inductive Task :=
| AwaitNewChatInsert
| AwaitSelectLoad
| AwaitSearchSession (snap : State) (u : User.t) (searchQuery : string)
| AwaitSearchRename (snap : State) (u : User.t) (searchQuery activeSessionId : string)
| AwaitSearchSave (snap : State) (u : User.t) (searchQuery activeSessionId : string)
| AwaitSearchLinks (snap : State) (searchQuery : string)
                   (savedQueryRecord : option MessageRow.t)
| AwaitAiFetch (snap : State) (forMessageId : option string)
| AwaitAiSave (forMessageId : option string) (analysisRespData : AiResponse.t)
| AwaitAiErrorSave (forMessageId : option string) (errorMsg : string)
| AwaitSearchErrorSave (target : option string) (errorMsg : string).

(** A handler segment returns the new state and, when it stops at an
    [await], the call it issued with the continuation waiting for it. *)
Definition Outcome : Type := State * option (Request * Task).

(** ** Store helpers of the page *)

(** [handleNewChat], up to the insert of the session. *)
Definition handleNewChat (snap st : State) : Outcome :=
  match user snap with
  | None => (st, None)
  | Some u =>
      let st := setChatHistory [] st in
      let st := setAiAnalysisData None st in
      let st := setFetchedLinksData None st in
      let st := setCurrentDisplayStage DisplayStage.idle st in
      let st := setError None st in
      let st := setCurrentQuery "" st in
      let st := setIsLoading false st in
      let st := setCurrentPendingMessageId None st in
      let st := setCurrentSessionId None st in
      (st, Some (InsertSession (User.id u) DEFAULT_NEW_CHAT_NAME, AwaitNewChatInsert))
  end.

(** [handleNewChat] after the insert: [None] is an answer with an [error]. *)
Definition handleNewChat_inserted (answer : option ChatSession.t) (st : State) : State :=
  match answer with
  | None => setError (Some "Could not start a new chat.") st
  | Some data =>
      let st := setCurrentSessionId (Some (ChatSession.id data)) st in
      setChatSessionsList (data :: chatSessionsList st) st
  end.

(** The [map] callback of [handleSelectChat]: a stored row as a message. *)
Definition loadedMessage (msg : MessageRow.t) : ChatMessage.t :=
  {| ChatMessage.id := Some (MessageRow.id msg);
     ChatMessage.query := MessageRow.query_text msg;
     ChatMessage.response := MessageRow.response_data msg;
     ChatMessage.stage := DisplayStage.final;
     ChatMessage.created_at := Some (MessageRow.created_at msg);
     ChatMessage.session_id := Some (MessageRow.session_id msg);
     ChatMessage.user_id := Some (MessageRow.user_id msg);
     ChatMessage.fetchedLinks := None;
     ChatMessage.error := None |}.

(** [handleSelectChat], up to the select of the messages. *)
Definition handleSelectChat (snap : State) (sessionId : string) (st : State) : Outcome :=
  match user snap with
  | None => (st, None)
  | Some _ =>
      if strictEq (Some sessionId) (currentSessionId snap) then (st, None)
      else
        let st := setCurrentSessionId (Some sessionId) st in
        let st := setChatHistory [] st in
        let st := setAiAnalysisData None st in
        let st := setFetchedLinksData None st in
        let st := setCurrentDisplayStage DisplayStage.idle st in
        let st := setError None st in
        let st := setCurrentPendingMessageId None st in
        let st := setIsLoadingMessages true st in
        (st, Some (SelectMessages sessionId, AwaitSelectLoad))
  end.

(** [handleSelectChat] after the select: [None] is an answer with an [error]. *)
Definition handleSelectChat_loaded (answer : option (list MessageRow.t)) (st : State)
    : State :=
  let st :=
    match answer with
    | Some data => setChatHistory (map loadedMessage data) st
    | None => setError (Some "Could not load messages for this chat.") st
    end in
  setIsLoadingMessages false st.

(** [saveChatMessage], up to its store call: [None] is the [return null]
    taken before any call, [Some r] the update or insert it awaits. *)
Definition saveChatMessage (snap : State) (messageData : PartialChatMessage.t)
    (forMessageId : option string) : option Request :=
  match user snap with
  | None => None
  | Some u =>
      match currentSessionId snap with
      | None => None
      | Some sid =>
          if negb (truthy sid) then None
          else
            let messageIdToSaveAgainst :=
              orElse forMessageId (currentPendingMessageId snap) in
            let query_text :=
              if truthyOpt (PartialChatMessage.query messageData)
              then PartialChatMessage.query messageData else None in
            let response_data := PartialChatMessage.response messageData in
            match messageIdToSaveAgainst, query_text with
            | Some mid, None =>
                if truthy mid then
                  match response_data with
                  | None => None
                  | Some r => Some (UpdateMessage mid r)
                  end
                else None
            | _, Some q => Some (InsertMessage sid (User.id u) q response_data)
            | None, None => None
            end
      end
  end.

(** ** Updates of one history item (the object spreads of the page) *)

Definition withResponse (r : AiResponse.t) (ch : ChatMessage.t) : ChatMessage.t :=
  {| ChatMessage.id := ChatMessage.id ch; ChatMessage.session_id := ChatMessage.session_id ch;
     ChatMessage.user_id := ChatMessage.user_id ch; ChatMessage.query := ChatMessage.query ch;
     ChatMessage.response := Some r; ChatMessage.fetchedLinks := ChatMessage.fetchedLinks ch;
     ChatMessage.error := ChatMessage.error ch; ChatMessage.stage := ChatMessage.stage ch;
     ChatMessage.created_at := ChatMessage.created_at ch |}.

Definition withError (errorMsg : string) (ch : ChatMessage.t) : ChatMessage.t :=
  {| ChatMessage.id := ChatMessage.id ch; ChatMessage.session_id := ChatMessage.session_id ch;
     ChatMessage.user_id := ChatMessage.user_id ch; ChatMessage.query := ChatMessage.query ch;
     ChatMessage.response := ChatMessage.response ch;
     ChatMessage.fetchedLinks := ChatMessage.fetchedLinks ch;
     ChatMessage.error := Some errorMsg; ChatMessage.stage := DisplayStage.error;
     ChatMessage.created_at := ChatMessage.created_at ch |}.

Definition withFetchedLinks (links : FetchedLinksResponse.t) (s : DisplayStage.t)
    (ch : ChatMessage.t) : ChatMessage.t :=
  {| ChatMessage.id := ChatMessage.id ch; ChatMessage.session_id := ChatMessage.session_id ch;
     ChatMessage.user_id := ChatMessage.user_id ch; ChatMessage.query := ChatMessage.query ch;
     ChatMessage.response := ChatMessage.response ch; ChatMessage.fetchedLinks := Some links;
     ChatMessage.error := ChatMessage.error ch; ChatMessage.stage := s;
     ChatMessage.created_at := ChatMessage.created_at ch |}.

Definition withStage (s : DisplayStage.t) (ch : ChatMessage.t) : ChatMessage.t :=
  {| ChatMessage.id := ChatMessage.id ch; ChatMessage.session_id := ChatMessage.session_id ch;
     ChatMessage.user_id := ChatMessage.user_id ch; ChatMessage.query := ChatMessage.query ch;
     ChatMessage.response := ChatMessage.response ch;
     ChatMessage.fetchedLinks := ChatMessage.fetchedLinks ch;
     ChatMessage.error := ChatMessage.error ch; ChatMessage.stage := s;
     ChatMessage.created_at := ChatMessage.created_at ch |}.

(** [prev.map(ch => ch.id === target ? f ch : ch)]. *)
Definition mapWhereId (target : option string) (f : ChatMessage.t -> ChatMessage.t)
    (prev : list ChatMessage.t) : list ChatMessage.t :=
  map (fun ch => if strictEq (ChatMessage.id ch) target then f ch else ch) prev.

Arguments mapWhereId : simpl never.

(** ** Core chat logic: the analysis call *)

Definition aiEndpoint (model : string) : string :=
  if model =? "mistral"
  then "http://localhost:8000/api/fetch-mistral-analysis"
  else "http://localhost:8000/api/fetch-ai-analysis".

Definition errorOnly (errorMsg : string) : PartialChatMessage.t :=
  {| PartialChatMessage.query := None; PartialChatMessage.response := None;
     PartialChatMessage.error := Some errorMsg; PartialChatMessage.stage := None;
     PartialChatMessage.session_id := None; PartialChatMessage.user_id := None |}.

Definition responseOnly (r : AiResponse.t) : PartialChatMessage.t :=
  {| PartialChatMessage.query := None; PartialChatMessage.response := Some r;
     PartialChatMessage.error := None; PartialChatMessage.stage := None;
     PartialChatMessage.session_id := None; PartialChatMessage.user_id := None |}.

(** [fetchAiAnalysis], up to the [fetch]: the post is always issued.  The
    callback is memoised on [user], [currentSessionId] and [selectedAiModel],
    so for these cells it sees what the render that calls it sees.  For
    [currentPendingMessageId] the memoised closure holds the value of the
    render in which one of the three cells last changed; [snap] stands for
    the calling render here as well.  The cell is read by the
    [saveChatMessage] the callback closes over, and only when [forMessageId]
    is empty: with a non-empty [forMessageId] the result does not depend on
    it. *)
Definition fetchAiAnalysis (snap : State) (query : string)
    (linksData : FetchedLinksResponse.t) (forMessageId : option string) (st : State)
    : State * (Request * Task) :=
  let st := setAiAnalysisData None st in
  let st := setCurrentDisplayStage DisplayStage.fetchingAiAnalysis st in
  let st := setLoadingMessage "Preparing AI analysis..." st in
  let st := setError None st in
  (st, (PostAiAnalysis (aiEndpoint (selectedAiModel snap)) query linksData,
        AwaitAiFetch snap forMessageId)).

(** The statements after [await saveChatMessage({ response }, forMessageId)]. *)
Definition fetchAiAnalysis_saved (forMessageId : option string)
    (analysisRespData : AiResponse.t) (st : State) : State :=
  setChatHistory (mapWhereId forMessageId (withResponse analysisRespData) (chatHistory st)) st.

(** The statements of the [catch] clause after its [await saveChatMessage]. *)
Definition fetchAiAnalysis_failed (forMessageId : option string) (errorMsg : string)
    (st : State) : State :=
  let st := setChatHistory (mapWhereId forMessageId (withError errorMsg) (chatHistory st)) st in
  setCurrentPendingMessageId None st.

(** [fetchAiAnalysis] once the post has an outcome. *)
Definition fetchAiAnalysis_fetched (snap : State) (forMessageId : option string)
    (outcome : FetchOutcome AiResponse.t) (st : State) : Outcome :=
  match outcome with
  | FetchOk analysisRespData =>
      let st := setAiAnalysisData (Some analysisRespData) st in
      let st := setCurrentDisplayStage DisplayStage.subquestions st in
      match saveChatMessage snap (responseOnly analysisRespData) forMessageId with
      | Some req => (st, Some (req, AwaitAiSave forMessageId analysisRespData))
      | None => (fetchAiAnalysis_saved forMessageId analysisRespData st, None)
      end
  | _ =>
      match thrownMessage "AI analysis failed: "
              "AI analysis network response was not ok" outcome with
      | None => (st, None)
      | Some m =>
          let errorMsg := messageOr m "An error occurred while fetching AI analysis." in
          let st := setError (Some errorMsg) st in
          let st := setCurrentDisplayStage DisplayStage.error st in
          match saveChatMessage snap (errorOnly errorMsg) forMessageId with
          | Some req => (st, Some (req, AwaitAiErrorSave forMessageId errorMsg))
          | None => (fetchAiAnalysis_failed forMessageId errorMsg st, None)
          end
      end
  end.

(** ** Stage advancement for an active query (the second [useEffect]) *)

(** What a timer set by the effect does when it fires.  [Finalize] keeps the
    pending id of the render that set the timer. *)
Inductive TimerCallback :=
| IncrementLinkIndex
| AdvanceTo (s : DisplayStage.t)
| Finalize (pendingId : option string).

(** What one run of the effect does: nothing, set one timer, or call
    [fetchAiAnalysis] at once. *)
Inductive EffectAction :=
| NoAction
| SetTimeout (cb : TimerCallback) (delay : N)
| CallFetchAiAnalysis (query : string) (linksData : FetchedLinksResponse.t)
                      (forMessageId : option string).

Definition advanceStage (st : State) : EffectAction :=
  match currentDisplayStage st with
  | DisplayStage.gatheringLinks =>
      match fetchedLinksData st with
      | Some links =>
          let n := List.length (FetchedLinksResponse.results links) in
          if (0 <? n)%nat then
            if (currentLinkIndex st <? n - 1)%nat
            then SetTimeout IncrementLinkIndex LINK_DISPLAY_DELAY
            else if truthy (currentQuery st)
                 then CallFetchAiAnalysis (currentQuery st) links (currentPendingMessageId st)
                 else NoAction
          else if truthy (currentQuery st)
               then CallFetchAiAnalysis (currentQuery st) links (currentPendingMessageId st)
               else NoAction
      | None => NoAction
      end
  | DisplayStage.subquestions =>
      match aiAnalysisData st with
      | Some _ => SetTimeout (AdvanceTo DisplayStage.analysis) STAGE_DELAY
      | None => NoAction
      end
  | DisplayStage.analysis =>
      match aiAnalysisData st with
      | Some _ => SetTimeout (AdvanceTo DisplayStage.synthesis) STAGE_DELAY
      | None => NoAction
      end
  | DisplayStage.synthesis =>
      match aiAnalysisData st with
      | Some _ => SetTimeout (Finalize (currentPendingMessageId st)) STAGE_DELAY
      | None => NoAction
      end
  | _ => NoAction
  end.

(** The guard in front of [advanceStage]. *)
Definition stageEffectIdle (st : State) : bool :=
  negb (truthyOpt (currentPendingMessageId st))
  || isLoadingAuth st
  || DisplayStage.eqb (currentDisplayStage st) DisplayStage.idle
  || DisplayStage.eqb (currentDisplayStage st) DisplayStage.error
  || DisplayStage.eqb (currentDisplayStage st) DisplayStage.fetchingLinks
  || DisplayStage.eqb (currentDisplayStage st) DisplayStage.fetchingAiAnalysis.

Definition stageEffect (st : State) : EffectAction :=
  if stageEffectIdle st then NoAction else advanceStage st.

(** The body of each timer callback. *)
Definition timerFired (cb : TimerCallback) (st : State) : State :=
  match cb with
  | IncrementLinkIndex => setCurrentLinkIndex (currentLinkIndex st + 1) st
  | AdvanceTo s => setCurrentDisplayStage s st
  | Finalize pendingId =>
      let st := setCurrentDisplayStage DisplayStage.final st in
      let st := setChatHistory
                  (mapWhereId pendingId (withStage DisplayStage.final) (chatHistory st)) st in
      let st := setCurrentPendingMessageId None st in
      let st := setAiAnalysisData None st in
      let st := setFetchedLinksData None st in
      setCurrentQuery "" st
  end.

(** ** [handleSearch] *)

Definition newSessionName (searchQuery : string) : string :=
  if (SESSION_NAME_MAX_LENGTH <? String.length searchQuery)%nat
  then (substring 0 (SESSION_NAME_MAX_LENGTH - 3) searchQuery ++ "...")%string
  else searchQuery.

Definition initialMessageData (u : User.t) (searchQuery activeSessionId : string)
    : PartialChatMessage.t :=
  {| PartialChatMessage.query := Some searchQuery;
     PartialChatMessage.stage := Some DisplayStage.fetchingLinks;
     PartialChatMessage.session_id := Some activeSessionId;
     PartialChatMessage.user_id := Some (User.id u);
     PartialChatMessage.response := None; PartialChatMessage.error := None |}.

(** [{ ...initialMessageData, id, created_at }] as a history item. *)
Definition initialItem (u : User.t) (searchQuery activeSessionId : string)
    (id : string) (created_at : option string) : ChatMessage.t :=
  {| ChatMessage.id := Some id; ChatMessage.session_id := Some activeSessionId;
     ChatMessage.user_id := Some (User.id u); ChatMessage.query := searchQuery;
     ChatMessage.response := None; ChatMessage.fetchedLinks := None;
     ChatMessage.error := None; ChatMessage.stage := DisplayStage.fetchingLinks;
     ChatMessage.created_at := created_at |}.

(** [savedQueryRecord?.id]. *)
Definition recordId (savedQueryRecord : option MessageRow.t) : option string :=
  option_map MessageRow.id savedQueryRecord.

(** After [await saveChatMessage(initialMessageData, null)]: the pending
    marker or the local fallback, then the link fetch.  [now] is the reading
    of [Date.now()]. *)
Definition handleSearch_saved (snap : State) (u : User.t)
    (searchQuery activeSessionId : string) (savedQueryRecord : option MessageRow.t)
    (now : nat) (st : State) : Outcome :=
  let localFallback :=
    setChatHistory
      (chatHistory st ++
       [initialItem u searchQuery activeSessionId
          ("local-" ++ numberToString now)%string None]) st in
  let st :=
    match savedQueryRecord with
    | Some r =>
        if truthy (MessageRow.id r) then
          let st := setCurrentPendingMessageId (Some (MessageRow.id r)) st in
          setChatHistory
            (chatHistory st ++
             [initialItem u searchQuery activeSessionId (MessageRow.id r)
                (Some (MessageRow.created_at r))]) st
        else localFallback
    | None => localFallback
    end in
  (st, Some (PostFetchLinks searchQuery, AwaitSearchLinks snap searchQuery savedQueryRecord)).

(** The reset of the transient state and the first save. *)
Definition handleSearch_begin (snap : State) (u : User.t)
    (searchQuery activeSessionId : string) (now : nat) (st : State) : Outcome :=
  let st := setCurrentQuery searchQuery st in
  let st := setIsLoading true st in
  let st := setError None st in
  let st := setFetchedLinksData None st in
  let st := setAiAnalysisData None st in
  let st := setCurrentLinkIndex 0 st in
  let st := setCurrentDisplayStage DisplayStage.fetchingLinks st in
  let st := setLoadingMessage "Fetching relevant links..." st in
  match saveChatMessage snap (initialMessageData u searchQuery activeSessionId) None with
  | Some req => (st, Some (req, AwaitSearchSave snap u searchQuery activeSessionId))
  | None => handleSearch_saved snap u searchQuery activeSessionId None now st
  end.

(** The statements of the [catch] clause of [handleSearch] after its
    [await saveChatMessage], and the [finally] clause. *)
Definition handleSearch_failed (target : option string) (errorMsg : string) (st : State)
    : State :=
  let st := setChatHistory (mapWhereId target (withError errorMsg) (chatHistory st)) st in
  let st := setCurrentPendingMessageId None st in
  setIsLoading false st.

(** [handleSearch] once the link fetch has an outcome. *)
Definition handleSearch_linksFetched (snap : State) (searchQuery : string)
    (savedQueryRecord : option MessageRow.t)
    (outcome : FetchOutcome FetchedLinksResponse.t) (st : State) : Outcome :=
  let target := orElse (recordId savedQueryRecord) (currentPendingMessageId snap) in
  match outcome with
  | FetchOk linksDataResp =>
      let n := List.length (FetchedLinksResponse.results linksDataResp) in
      let st := setFetchedLinksData (Some linksDataResp) st in
      let st :=
        setChatHistory
          (mapWhereId target
             (withFetchedLinks linksDataResp
                (if (0 <? n)%nat then DisplayStage.gatheringLinks
                 else DisplayStage.fetchingAiAnalysis))
             (chatHistory st)) st in
      if (0 <? n)%nat then
        let st := setCurrentDisplayStage DisplayStage.gatheringLinks st in
        (setIsLoading false st, None)
      else
        let st :=
          setLoadingMessage "No specific links found. Attempting general analysis..." st in
        let emptyLinksData :=
          {| FetchedLinksResponse.query := searchQuery;
             FetchedLinksResponse.results := [];
             FetchedLinksResponse.total_results := Some 0 |} in
        let '(st, call) := fetchAiAnalysis snap searchQuery emptyLinksData target st in
        (setIsLoading false st, Some call)
  | _ =>
      match thrownMessage "Link fetch failed: "
              "Link fetch network response was not ok" outcome with
      | None => (st, None)
      | Some m =>
          let errorMsg := messageOr m "An unknown error occurred during search." in
          let st := setError (Some errorMsg) st in
          let st := setCurrentDisplayStage DisplayStage.error st in
          if truthyOpt target then
            match saveChatMessage snap (errorOnly errorMsg) target with
            | Some req => (st, Some (req, AwaitSearchErrorSave target errorMsg))
            | None => (handleSearch_failed target errorMsg st, None)
            end
          else (handleSearch_failed target errorMsg st, None)
      end
  end.

(** After the update of the session name: [None] is an answer with an
    [error], which the page only logs. *)
Definition handleSearch_renamed (snap : State) (u : User.t)
    (searchQuery activeSessionId : string) (answer : option ChatSession.t)
    (now : nat) (st : State) : Outcome :=
  let st :=
    match answer with
    | Some updatedSession =>
        setChatSessionsList
          (map (fun s => if ChatSession.id s =? activeSessionId then updatedSession else s)
             (chatSessionsList st)) st
    | None => st
    end in
  handleSearch_begin snap u searchQuery activeSessionId now st.

(** The test in front of the rename: the session of the snapshot still has
    the default name and the snapshot has no message. *)
Definition needsRename (snap : State) (activeSessionId : string) : bool :=
  match find (fun s => ChatSession.id s =? activeSessionId) (chatSessionsList snap) with
  | Some currentSessionObject =>
      match ChatSession.session_name currentSessionObject with
      | Some name => (name =? DEFAULT_NEW_CHAT_NAME)
                     && (List.length (chatHistory snap) =? 0)%nat
      | None => false
      end
  | None => false
  end.

(** After the insert of a session created for this search. *)
Definition handleSearch_sessionCreated (snap : State) (u : User.t) (searchQuery : string)
    (answer : option ChatSession.t) (now : nat) (st : State) : Outcome :=
  let st := setIsLoading false st in
  match answer with
  | None => (setError (Some "Could not start a new chat session.") st, None)
  | Some newSessionData =>
      let activeSessionId := ChatSession.id newSessionData in
      let st := setCurrentSessionId (Some activeSessionId) st in
      let st := setChatSessionsList (newSessionData :: chatSessionsList st) st in
      let st := setChatHistory [] st in
      if negb (truthy activeSessionId)
      then (setError (Some "Critical: No active session ID found or created.") st, None)
      else handleSearch_begin snap u searchQuery activeSessionId now st
  end.

(** [handleSearch], from its call to its first [await]. *)
Definition handleSearch (snap : State) (searchQuery : string) (now : nat) (st : State)
    : Outcome :=
  match user snap with
  | None => (setError (Some "User not authenticated. Please login.") st, None)
  | Some u =>
      if negb (truthy (trim searchQuery))
      then (setError (Some "Search query cannot be empty.") st, None)
      else
        match currentSessionId snap with
        | Some activeSessionId =>
            if truthy activeSessionId then
              if needsRename snap activeSessionId then
                (st, Some (UpdateSessionName activeSessionId (newSessionName searchQuery),
                           AwaitSearchRename snap u searchQuery activeSessionId))
              else handleSearch_begin snap u searchQuery activeSessionId now st
            else
              (setIsLoading true st,
               Some (InsertSession (User.id u) (newSessionName searchQuery),
                     AwaitSearchSession snap u searchQuery))
        | None =>
            (setIsLoading true st,
             Some (InsertSession (User.id u) (newSessionName searchQuery),
                   AwaitSearchSession snap u searchQuery))
        end
  end.

(** [handleSubmit] of the search form: the query is trimmed and an empty one
    is dropped before [onSearch] is called. *)
Definition handleSubmit (snap : State) (query : string) (now : nat) (st : State) : Outcome :=
  if truthy (trim query) then handleSearch snap (trim query) now st else (st, None).

(** The handler of [SIGNED_OUT]. *)
Definition signedOut (st : State) : State :=
  let st := setUser None st in
  let st := setChatHistory [] st in
  let st := setChatSessionsList [] st in
  let st := setCurrentSessionId None st in
  setCurrentPendingMessageId None st.

(** ** What the page renders *)

(** The [isLoading] prop of the search form: its input and button are
    disabled while it holds. *)
Definition searchFormDisabled (st : State) : bool :=
  isLoading st || isLoadingSessions st || isLoadingMessages st
  || DisplayStage.eqb (currentDisplayStage st) DisplayStage.fetchingLinks
  || DisplayStage.eqb (currentDisplayStage st) DisplayStage.fetchingAiAnalysis.

Definition newChatDisabled (st : State) : bool :=
  isLoading st || isLoadingSessions st || isLoadingMessages st.

(** The model selector is disabled while busy or outside the idle stage. *)
Definition modelSelectDisabled (st : State) : bool :=
  isLoading st || negb (DisplayStage.eqb (currentDisplayStage st) DisplayStage.idle).

(** The page shows its chat view only to a loaded, signed-in user. *)
Definition pageShown (st : State) : bool :=
  negb (isLoadingAuth st) && match user st with Some _ => true | None => false end.

(** The thinking display is drawn under a history item. *)
Definition showsThinking (st : State) (chatItem : ChatMessage.t) : bool :=
  strictEq (ChatMessage.id chatItem) (currentPendingMessageId st)
  && match currentDisplayStage st with
     | DisplayStage.fetchingLinks | DisplayStage.fetchingAiAnalysis
     | DisplayStage.gatheringLinks | DisplayStage.subquestions
     | DisplayStage.analysis | DisplayStage.synthesis => true
     | _ => false
     end.

(** The error line drawn under a history item, if any. *)
Definition shownError (chatItem : ChatMessage.t) : option string :=
  match ChatMessage.error chatItem, ChatMessage.stage chatItem with
  | Some e, DisplayStage.error => if truthy e then Some e else None
  | _, _ => None
  end.

(** The final answer drawn under a history item, if any. *)
Definition shownFinalAnswer (chatItem : ChatMessage.t) : option AiResponse.t :=
  match ChatMessage.response chatItem, ChatMessage.stage chatItem with
  | Some r, DisplayStage.final => Some r
  | _, _ => None
  end.

(** ** The remote store: the two tables the page reads and writes *)

Record Store := mkStore {
  chat_sessions : list ChatSession.t;
  chat_messages : list MessageRow.t }.

Definition withResponseData (r : AiResponse.t) (row : MessageRow.t) : MessageRow.t :=
  {| MessageRow.id := MessageRow.id row; MessageRow.query_text := MessageRow.query_text row;
     MessageRow.response_data := Some r; MessageRow.created_at := MessageRow.created_at row;
     MessageRow.session_id := MessageRow.session_id row;
     MessageRow.user_id := MessageRow.user_id row |}.

Definition withSessionName (name : string) (s : ChatSession.t) : ChatSession.t :=
  {| ChatSession.id := ChatSession.id s; ChatSession.user_id := ChatSession.user_id s;
     ChatSession.created_at := ChatSession.created_at s;
     ChatSession.session_name := Some name |}.

(** [.order('created_at', { ascending: true })], timestamps compared as
    strings; rows with the same timestamp keep their order. *)
Fixpoint insertByCreated (row : MessageRow.t) (rows : list MessageRow.t)
    : list MessageRow.t :=
  match rows with
  | [] => [row]
  | r :: rest =>
      if (MessageRow.created_at row <=? MessageRow.created_at r)%string
      then row :: rows
      else r :: insertByCreated row rest
  end.

Definition orderByCreated (rows : list MessageRow.t) : list MessageRow.t :=
  fold_right insertByCreated [] rows.

(** [.eq('session_id', sessionId).order('created_at', ...)]. *)
Definition selectMessages (sessionId : string) (db : Store) : list MessageRow.t :=
  orderByCreated
    (filter (fun row => MessageRow.session_id row =? sessionId) (chat_messages db)).

(** [.single()]: the one row of the result, an error for any other count. *)
Definition single {A} (rows : list A) : option A :=
  match rows with
  | [row] => Some row
  | _ => None
  end.

(** [.update({ response_data }).eq('id', id)]. *)
Definition updateMessage (id : string) (r : AiResponse.t) (db : Store) : Store :=
  {| chat_sessions := chat_sessions db;
     chat_messages :=
       map (fun row => if MessageRow.id row =? id then withResponseData r row else row)
         (chat_messages db) |}.

(** [.update({ session_name }).eq('id', id)]. *)
Definition updateSessionName (id name : string) (db : Store) : Store :=
  {| chat_sessions :=
       map (fun s => if ChatSession.id s =? id then withSessionName name s else s)
         (chat_sessions db);
     chat_messages := chat_messages db |}.

(** How the environment answers one call. *)
Inductive Reply :=
| StoreError
| StoreDone (newId created_at : string)
| LinksOutcome (o : FetchOutcome FetchedLinksResponse.t)
| AiOutcome (o : FetchOutcome AiResponse.t).

(** What the awaiting continuation receives. *)
Inductive Answer :=
| SessionAnswer (a : option ChatSession.t)
| MessageAnswer (a : option MessageRow.t)
| MessagesAnswer (a : option (list MessageRow.t))
| LinksAnswer (o : FetchOutcome FetchedLinksResponse.t)
| AiAnswer (o : FetchOutcome AiResponse.t).

(** The store performs a call, or fails without writing; an HTTP post ends
    with the outcome the environment chooses.  [newId] and [created_at] are
    the values the store gives to an inserted row. *)
Definition perform (req : Request) (r : Reply) (db : Store) : option (Store * Answer) :=
  match req, r with
  | InsertSession _ _, StoreError | UpdateSessionName _ _, StoreError =>
      Some (db, SessionAnswer None)
  | InsertMessage _ _ _ _, StoreError | UpdateMessage _ _, StoreError =>
      Some (db, MessageAnswer None)
  | SelectMessages _, StoreError => Some (db, MessagesAnswer None)
  | InsertSession user_id session_name, StoreDone newId created_at =>
      let row :=
        {| ChatSession.id := newId; ChatSession.user_id := user_id;
           ChatSession.created_at := created_at;
           ChatSession.session_name := Some session_name |} in
      Some ({| chat_sessions := chat_sessions db ++ [row];
               chat_messages := chat_messages db |},
            SessionAnswer (Some row))
  | UpdateSessionName id session_name, StoreDone _ _ =>
      let db' := updateSessionName id session_name db in
      Some (db', SessionAnswer
                   (single (filter (fun s => ChatSession.id s =? id) (chat_sessions db'))))
  | InsertMessage session_id user_id query_text response_data, StoreDone newId created_at =>
      let row :=
        {| MessageRow.id := newId; MessageRow.query_text := query_text;
           MessageRow.response_data := response_data;
           MessageRow.created_at := created_at;
           MessageRow.session_id := session_id; MessageRow.user_id := user_id |} in
      Some ({| chat_sessions := chat_sessions db;
               chat_messages := chat_messages db ++ [row] |},
            MessageAnswer (Some row))
  | UpdateMessage id response_data, StoreDone _ _ =>
      let db' := updateMessage id response_data db in
      Some (db', MessageAnswer
                   (single (filter (fun row => MessageRow.id row =? id) (chat_messages db'))))
  | SelectMessages session_id, StoreDone _ _ =>
      Some (db, MessagesAnswer (Some (selectMessages session_id db)))
  | PostFetchLinks _, LinksOutcome o => Some (db, LinksAnswer o)
  | PostAiAnalysis _ _ _, AiOutcome o => Some (db, AiAnswer o)
  | _, _ => None
  end.

(** ** Executions of the page *)

(** The continuation of an [await] runs on the answer of its call. *)
Definition resume (task : Task) (a : Answer) (now : nat) (st : State) : option Outcome :=
  match task, a with
  | AwaitNewChatInsert, SessionAnswer a => Some (handleNewChat_inserted a st, None)
  | AwaitSelectLoad, MessagesAnswer a => Some (handleSelectChat_loaded a st, None)
  | AwaitSearchSession snap u q, SessionAnswer a =>
      Some (handleSearch_sessionCreated snap u q a now st)
  | AwaitSearchRename snap u q sid, SessionAnswer a =>
      Some (handleSearch_renamed snap u q sid a now st)
  | AwaitSearchSave snap u q sid, MessageAnswer a =>
      Some (handleSearch_saved snap u q sid a now st)
  | AwaitSearchLinks snap q saved, LinksAnswer o =>
      Some (handleSearch_linksFetched snap q saved o st)
  | AwaitAiFetch snap forMessageId, AiAnswer o =>
      Some (fetchAiAnalysis_fetched snap forMessageId o st)
  | AwaitAiSave forMessageId r, MessageAnswer _ =>
      Some (fetchAiAnalysis_saved forMessageId r st, None)
  | AwaitAiErrorSave forMessageId errorMsg, MessageAnswer _ =>
      Some (fetchAiAnalysis_failed forMessageId errorMsg st, None)
  | AwaitSearchErrorSave target errorMsg, MessageAnswer _ =>
      Some (handleSearch_failed target errorMsg st, None)
  | _, _ => None
  end.

(** The page with its surroundings: the component state, the store, the
    calls in flight with their continuations, and the clock. *)
Record Sys := mkSys {
  ui : State;
  db : Store;
  inflight : list (Request * Task);
  clock : nat }.

(** What can happen to the page: the user submits the search form, clicks a
    session of the sidebar or the new-chat button, chooses a model; the
    authentication listener reports a sign-out; a call in flight gets its
    answer; the timer of the stage effect fires. *)
Inductive Event :=
| Submit (query : string)
| SelectChat (sessionId : string)
| NewChat
| ChooseModel (model : string)
| SignedOut
| Resolve (i : nat) (r : Reply)
| TimerFires.

Definition removeNth {A} (i : nat) (l : list A) : list A :=
  firstn i l ++ skipn (S i) l.

Definition addCall (call : option (Request * Task)) (l : list (Request * Task))
    : list (Request * Task) :=
  match call with
  | Some c => l ++ [c]
  | None => l
  end.

(** The stage effect runs after the render that follows an event: when it
    calls [fetchAiAnalysis] the call is made at once, with the callback of
    that render. *)
Definition afterRender (st : State) (calls : list (Request * Task))
    : State * list (Request * Task) :=
  match stageEffect st with
  | CallFetchAiAnalysis query linksData forMessageId =>
      let '(st', call) := fetchAiAnalysis st query linksData forMessageId st in
      (st', calls ++ [call])
  | _ => (st, calls)
  end.

Definition commit (s : Sys) (db' : Store) (calls : list (Request * Task)) (o : Outcome)
    : Sys :=
  let '(st, calls') := afterRender (fst o) (addCall (snd o) calls) in
  {| ui := st; db := db'; inflight := calls'; clock := S (clock s) |}.

(** One event.  A user event needs the control it uses to be drawn and
    enabled, and runs the handler of the current render; [Resolve i r]
    completes the [i]-th call in flight; [TimerFires] needs a timer set by
    the stage effect of the current render. *)
Definition exec (e : Event) (s : Sys) : option Sys :=
  match e with
  | Submit query =>
      if pageShown (ui s) && negb (searchFormDisabled (ui s))
      then Some (commit s (db s) (inflight s) (handleSubmit (ui s) query (clock s) (ui s)))
      else None
  | SelectChat sessionId =>
      if pageShown (ui s)
         && existsb (fun c => ChatSession.id c =? sessionId) (chatSessionsList (ui s))
      then Some (commit s (db s) (inflight s) (handleSelectChat (ui s) sessionId (ui s)))
      else None
  | NewChat =>
      if pageShown (ui s) && negb (newChatDisabled (ui s))
      then Some (commit s (db s) (inflight s) (handleNewChat (ui s) (ui s)))
      else None
  | ChooseModel model =>
      if pageShown (ui s) && negb (modelSelectDisabled (ui s))
      then Some (commit s (db s) (inflight s) (setSelectedAiModel model (ui s), None))
      else None
  | SignedOut => Some (commit s (db s) (inflight s) (signedOut (ui s), None))
  | Resolve i r =>
      match nth_error (inflight s) i with
      | Some (req, task) =>
          match perform req r (db s) with
          | Some (db', a) =>
              match resume task a (clock s) (ui s) with
              | Some o => Some (commit s db' (removeNth i (inflight s)) o)
              | None => None
              end
          | None => None
          end
      | None => None
      end
  | TimerFires =>
      match stageEffect (ui s) with
      | SetTimeout cb _ => Some (commit s (db s) (inflight s) (timerFired cb (ui s), None))
      | _ => None
      end
  end.

(** A run of events, failing as soon as one of them is not possible. *)
Fixpoint execAll (es : list Event) (s : Sys) : option Sys :=
  match es with
  | [] => Some s
  | e :: rest =>
      match exec e s with
      | Some s' => execAll rest s'
      | None => None
      end
  end.

(** A signed-in user on the loaded page: no session yet, an empty store. *)
Definition signedIn (u : User.t) : State :=
  setIsLoadingAuth false (setUser (Some u) initialState).

Definition start (u : User.t) : Sys :=
  {| ui := signedIn u; db := {| chat_sessions := []; chat_messages := [] |};
     inflight := []; clock := 0 |}.

(** ** Vocabulary of the properties and the runs they are checked on *)

(** A call that writes to the sessions table. *)
Definition isSessionWrite (call : option (Request * Task)) : bool :=
  match call with
  | Some (InsertSession _ _, _) | Some (UpdateSessionName _ _, _) => true
  | _ => false
  end.

(** The user, the link-fetch responses and the analysis of the runs below. *)
Definition u1 : User.t := User.mk "u1".

Definition twoLinks : FetchedLinksResponse.t :=
  {| FetchedLinksResponse.query := "q1";
     FetchedLinksResponse.results :=
       [SearchResultItem.mk "a" "http://a" None; SearchResultItem.mk "b" "http://b" None];
     FetchedLinksResponse.total_results := Some 2 |}.

(** A user opens a new chat, submits "q1", the rename succeeds and the
    insert of the pending message fails. *)
Definition failedInsertRun : list Event :=
  [NewChat; Resolve 0 (StoreDone "s1" "t0");
   Submit "q1"; Resolve 0 (StoreDone "" ""); Resolve 0 StoreError].

(** A failed outcome always throws. *)
Definition failed {A} (o : FetchOutcome A) : bool :=
  match o with
  | FetchOk _ => false
  | _ => true
  end.

(** A user opens a new chat, submits "q1", the pending message is saved as
    row "m1", and the link fetch answers 500 with the body
    [{"detail":"upstream timeout"}]. *)
Definition upstreamTimeoutRun : list Event :=
  [NewChat; Resolve 0 (StoreDone "s1" "t0");
   Submit "q1"; Resolve 0 (StoreDone "" ""); Resolve 0 (StoreDone "m1" "t1");
   Resolve 0 (LinksOutcome
                (FetchNotOk "Internal Server Error" (Some (Some "upstream timeout"))))].

(** The user then opens another chat and comes back to the first one. *)
Definition comeBackRun : list Event :=
  [NewChat; Resolve 0 (StoreDone "s2" "t2"); SelectChat "s1"; Resolve 0 (StoreDone "" "")].

(** The renders of the reveal stage.  Each render draws the link under the
    cursor; the stage effect then either sets the timer that moves the cursor
    by one, or does something else, which ends the reveal.  The result is the
    list of the cursor values drawn and the state of the last render. *)
Fixpoint reveal (fuel : nat) (st : State) : list nat * State :=
  match fuel with
  | 0 => ([], st)
  | S fuel' =>
      match stageEffect st with
      | SetTimeout IncrementLinkIndex _ =>
          let rest := reveal fuel' (timerFired IncrementLinkIndex st) in
          (currentLinkIndex st :: fst rest, snd rest)
      | _ => ([currentLinkIndex st], st)
      end
  end.

(** A state in which the reveal of [links] runs for a pending message. *)
Definition revealing (links : FetchedLinksResponse.t) (st : State) : Prop :=
  currentDisplayStage st = DisplayStage.gatheringLinks
  /\ fetchedLinksData st = Some links
  /\ truthyOpt (currentPendingMessageId st) = true
  /\ isLoadingAuth st = false
  /\ truthy (currentQuery st) = true.

Definition noLinks : FetchedLinksResponse.t :=
  {| FetchedLinksResponse.query := "q1"; FetchedLinksResponse.results := [];
     FetchedLinksResponse.total_results := Some 0 |}.

Definition answerOfQ1 : AiResponse.t :=
  {| AiResponse.sub_questions := ["sub-question of q1"]; AiResponse.analysis := [];
     AiResponse.synthesis := []; AiResponse.final_answer := ["answer to q1"];
     AiResponse.sources := [] |}.

(** Two chats "s1" and "s2" exist; in "s1" the user submits "q1", the
    message is saved as "m1", the link fetch finds nothing and the analysis
    of "q1" is posted.  While that post is in flight the user selects "s2",
    whose (empty) history is loaded. *)
Definition switchDuringAnalysisRun : list Event :=
  [NewChat; Resolve 0 (StoreDone "s1" "t0");
   NewChat; Resolve 0 (StoreDone "s2" "t1");
   SelectChat "s1"; Resolve 0 (StoreDone "" "");
   Submit "q1"; Resolve 0 (StoreDone "" ""); Resolve 0 (StoreDone "m1" "t2");
   Resolve 0 (LinksOutcome (FetchOk noLinks));
   SelectChat "s2"; Resolve 1 (StoreDone "" "")].

(** In "s2" the user submits "q2", saved as "m2"; its link fetch is in flight. *)
Definition submitInOtherSessionRun : list Event :=
  [Submit "q2"; Resolve 1 (StoreDone "" ""); Resolve 1 (StoreDone "m2" "t3")].

(** The continuations of a query that run after its pending message has been
    saved, and the id of the message each of them writes to. *)
Definition completes (t : Task) : bool :=
  match t with
  | AwaitSearchLinks _ _ _ | AwaitAiFetch _ _ | AwaitAiSave _ _
  | AwaitAiErrorSave _ _ | AwaitSearchErrorSave _ _ => true
  | _ => false
  end.

(** The id ([forMessageId], or the [target] of [handleSearch]) under which
    a continuation looks for its history item. *)
Definition taskMessage (t : Task) : option string :=
  match t with
  | AwaitSearchLinks snap _ saved => orElse (recordId saved) (currentPendingMessageId snap)
  | AwaitAiFetch _ mid | AwaitAiSave mid _
  | AwaitAiErrorSave mid _ | AwaitSearchErrorSave mid _ => mid
  | _ => None
  end.

(** What a late completion leaves alone. *)
Definition leavesAlone (st st' : State) : Prop :=
  currentSessionId st' = currentSessionId st
  /\ chatSessionsList st' = chatSessionsList st
  /\ chatHistory st' = chatHistory st
  /\ currentPendingMessageId st' = None.

(** The history items that are in a non-terminal stage. *)
Definition pendingItems (st : State) : list ChatMessage.t :=
  filter (fun m => negb (DisplayStage.terminal (ChatMessage.stage m))) (chatHistory st).

(** A user opens a new chat and submits "q1": the message is saved as "m1"
    and the link fetch returns two links, so the reveal starts and the search
    form is enabled again.  The user submits "q2" at once; it is saved as
    "m2". *)
Definition submitDuringRevealRun : list Event :=
  [NewChat; Resolve 0 (StoreDone "s1" "t0");
   Submit "q1"; Resolve 0 (StoreDone "" ""); Resolve 0 (StoreDone "m1" "t1");
   Resolve 0 (LinksOutcome (FetchOk twoLinks));
   Submit "q2"; Resolve 0 (StoreDone "m2" "t2")].

(** The second query then runs to its end: no links, an answer, the update
    of the row, and the three dwell timers. *)
Definition secondQueryToEndRun : list Event :=
  [Resolve 0 (LinksOutcome (FetchOk noLinks));
   Resolve 0 (AiOutcome (FetchOk answerOfQ1));
   Resolve 0 (StoreDone "" "");
   TimerFires; TimerFires; TimerFires].

(** A history item that has reached [final] or [error]. *)
Definition itemTerminal (m : ChatMessage.t) : Prop :=
  DisplayStage.terminal (ChatMessage.stage m) = true.

(** The marker and the history agree: without a marker every item is in a
    terminal stage; with a marker, the item it identifies is the last one, it
    is in a non-terminal stage, and every item before it is terminal and has
    another id. *)
Definition wellMarked (st : State) : Prop :=
  match currentPendingMessageId st with
  | None => Forall itemTerminal (chatHistory st)
  | Some p =>
      exists pre m,
        chatHistory st = pre ++ [m]
        /\ ChatMessage.id m = Some p
        /\ DisplayStage.terminal (ChatMessage.stage m) = false
        /\ Forall (fun x => itemTerminal x /\ ChatMessage.id x <> Some p) pre
  end.

(** The snapshot of a Submit lets [saveChatMessage] insert the message. *)
Definition savable (snap : State) (q : string) : Prop :=
  (exists u, user snap = Some u)
  /\ truthyOpt (currentSessionId snap) = true
  /\ truthy q = true.

(** What is known of the page while one call is in flight. *)
Definition callOk (c : Request * Task) (st : State) : Prop :=
  match c with
  | (_, AwaitNewChatInsert) | (_, AwaitSelectLoad) => currentPendingMessageId st = None
  | (_, AwaitSearchRename snap _ q _) =>
      currentPendingMessageId st = None /\ savable snap q
  | (InsertMessage _ _ _ _, AwaitSearchSave _ _ _ _) =>
      currentPendingMessageId st = None
      /\ currentDisplayStage st = DisplayStage.fetchingLinks
  | (_, AwaitSearchLinks snap _ saved) =>
      orElse (recordId saved) (currentPendingMessageId snap) = currentPendingMessageId st
      /\ currentDisplayStage st = DisplayStage.fetchingLinks
  | (_, AwaitAiFetch _ mid) =>
      mid = currentPendingMessageId st
      /\ currentDisplayStage st = DisplayStage.fetchingAiAnalysis
  | (_, AwaitAiSave _ _) => currentDisplayStage st <> DisplayStage.gatheringLinks
  | _ => False
  end.

(** At most one call is in flight, and what is known of it holds. *)
Definition flightOk (calls : list (Request * Task)) (st : State) : Prop :=
  match calls with
  | [] => True
  | [c] => callOk c st
  | _ => False
  end.

(** The id the store gives to the inserted message is new to the history. *)
Definition freshId (newId : string) (st : State) : bool :=
  forallb (fun x => negb (strictEq (ChatMessage.id x) (Some newId))) (chatHistory st).

(** The events of an orderly execution: the user acts only when no call is
    in flight, submits only when no message is pending and a session is
    active, and the insert of the pending message succeeds with a new,
    non-empty id. *)
Definition orderly (e : Event) (s : Sys) : bool :=
  match e with
  | Submit _ =>
      match inflight s, currentPendingMessageId (ui s) with
      | [], None => truthyOpt (currentSessionId (ui s))
      | _, _ => false
      end
  | SelectChat _ | NewChat | ChooseModel _ | SignedOut =>
      match inflight s with
      | [] => true
      | _ => false
      end
  | Resolve i r =>
      match nth_error (inflight s) i with
      | Some (_, AwaitSearchSave _ _ _ _) =>
          match r with
          | StoreDone newId _ => truthy newId && freshId newId (ui s)
          | _ => false
          end
      | _ => true
      end
  | TimerFires => true
  end.

(** An orderly run of events. *)
Fixpoint execOrderly (es : list Event) (s : Sys) : option Sys :=
  match es with
  | [] => Some s
  | e :: rest =>
      if orderly e s then
        match exec e s with
        | Some s' => execOrderly rest s'
        | None => None
        end
      else None
  end.

(** A whole query with two links, from the new chat to the final answer. *)
Definition wholeQueryRun : list Event :=
  [NewChat; Resolve 0 (StoreDone "s1" "t0");
   Submit "q1"; Resolve 0 (StoreDone "" ""); Resolve 0 (StoreDone "m1" "t1");
   Resolve 0 (LinksOutcome (FetchOk twoLinks)); TimerFires;
   Resolve 0 (AiOutcome (FetchOk answerOfQ1)); Resolve 0 (StoreDone "" "");
   TimerFires; TimerFires; TimerFires].

(** The state that run ends in. *)
Definition wholeQueryEnd : Sys :=
  match execOrderly wholeQueryRun (start u1) with
  | Some s => s
  | None => start u1
  end.

(** The cursor of the reveal is inside the fetched links. *)
Definition cursorOk (st : State) : Prop :=
  currentDisplayStage st = DisplayStage.gatheringLinks ->
  exists links,
    fetchedLinksData st = Some links
    /\ currentLinkIndex st < List.length (FetchedLinksResponse.results links).

(** What is known of the page while a search waits for the insert of its
    message or for its links: the cursor is where [handleSearch] has put it,
    and the current query is the one of the search; the link fetch is in
    flight for a message that is marked pending. *)
Definition searchOk (c : Request * Task) (st : State) : Prop :=
  match c with
  | (_, AwaitSearchSave _ _ q _) =>
      currentLinkIndex st = 0 /\ currentQuery st = q /\ truthy q = true
  | (req, AwaitSearchLinks _ q _) =>
      req = PostFetchLinks q
      /\ currentLinkIndex st = 0 /\ currentQuery st = q /\ truthy q = true
      /\ truthyOpt (currentPendingMessageId st) = true
  | _ => True
  end.

Definition revealOk (s : Sys) : Prop :=
  isLoadingAuth (ui s) = false
  /\ cursorOk (ui s)
  /\ Forall (fun c => searchOk c (ui s)) (inflight s).

(** A user opens a new chat and submits "q1"; the message is saved as "m1"
    and the link fetch is in flight. *)
Definition linksPendingRun : list Event :=
  [NewChat; Resolve 0 (StoreDone "s1" "t0");
   Submit "q1"; Resolve 0 (StoreDone "" ""); Resolve 0 (StoreDone "m1" "t1")].

Definition linksPending : Sys :=
  match execOrderly linksPendingRun (start u1) with
  | Some s => s
  | None => start u1
  end.






Definition answerOfQ2 : AiResponse.t :=
  {| AiResponse.sub_questions := ["sub-question of q2"]; AiResponse.analysis := [];
     AiResponse.synthesis := []; AiResponse.final_answer := ["answer to q2"];
     AiResponse.sources := [] |}.

(** While the links of "q1" (saved as "m1") are revealed the user submits
    "q2"; the insert of its message fails.  Its link fetch finds nothing, its
    analysis arrives and is saved. *)
Definition failedSecondInsertRun : list Event :=
  [NewChat; Resolve 0 (StoreDone "s1" "t0");
   Submit "q1"; Resolve 0 (StoreDone "" ""); Resolve 0 (StoreDone "m1" "t1");
   Resolve 0 (LinksOutcome (FetchOk twoLinks));
   Submit "q2"; Resolve 0 StoreError].

Definition secondAnswerRun : list Event :=
  [Resolve 0 (LinksOutcome (FetchOk noLinks));
   Resolve 0 (AiOutcome (FetchOk answerOfQ2));
   Resolve 0 (StoreDone "" "")].

(** ** Vocabulary of the further properties *)

(** The query text a continuation of [handleSearch] carries. *)
Definition taskQuery (t : Task) : option string :=
  match t with
  | AwaitSearchSession _ _ q | AwaitSearchRename _ _ q _
  | AwaitSearchSave _ _ q _ | AwaitSearchLinks _ q _ => Some q
  | _ => None
  end.

(** What a store call leaves of a stored message: everything but its
    response. *)
Definition rowIdentity (row : MessageRow.t) : string * string * string * string * string :=
  (MessageRow.id row, MessageRow.query_text row, MessageRow.session_id row,
   MessageRow.user_id row, MessageRow.created_at row).

(** The order in which a query goes through the stages; [error] can follow
    any of them. *)
Definition stageRank (s : DisplayStage.t) : nat :=
  match s with
  | DisplayStage.idle => 0
  | DisplayStage.fetchingLinks => 1
  | DisplayStage.gatheringLinks => 2
  | DisplayStage.fetchingAiAnalysis => 3
  | DisplayStage.subquestions => 4
  | DisplayStage.analysis => 5
  | DisplayStage.synthesis => 6
  | DisplayStage.final => 7
  | DisplayStage.error => 8
  end.

(** The events by which a query that has begun moves on: the timer of the
    stage effect fires, or one of the query's own calls completes (the save
    of its message, the link fetch, the analysis, the save of the answer). *)
Definition progresses (e : Event) (s : Sys) : bool :=
  match e with
  | TimerFires => true
  | Resolve i _ =>
      match nth_error (inflight s) i with
      | Some (_, AwaitSearchSave _ _ _ _) => true
      | Some (_, t) => completes t
      | None => false
      end
  | _ => false
  end.

(** The cells a handler reads of the signed-in user and of the chosen
    session and model are the same in two states. *)
Definition sameContext (st st' : State) : Prop :=
  user st' = user st
  /\ isLoadingAuth st' = isLoadingAuth st
  /\ currentSessionId st' = currentSessionId st
  /\ chatSessionsList st' = chatSessionsList st
  /\ selectedAiModel st' = selectedAiModel st.

(** A user opens a new chat and submits "q1"; the message is saved as "m1"
    and the link fetch returns two links.  [linksArrived] is the page at that
    moment, [lastLinkShown] the page after the next firing of the timer. *)
Definition linksArrivedRun : list Event :=
  [NewChat; Resolve 0 (StoreDone "s1" "t0");
   Submit "q1"; Resolve 0 (StoreDone "" ""); Resolve 0 (StoreDone "m1" "t1");
   Resolve 0 (LinksOutcome (FetchOk twoLinks))].

Definition linksArrived : Sys :=
  match execOrderly linksArrivedRun (start u1) with
  | Some s => s
  | None => start u1
  end.

Definition lastLinkShown : Sys :=
  match exec TimerFires linksArrived with
  | Some s => s
  | None => linksArrived
  end.

(** ** The thinking display ([ThinkingProcessDisplay])

    [renderContent] is the function of
    [src/frontend/components/ThinkingProcessDisplay.tsx]; the later version
    of the component ([src/unnamed/part_004]) keeps a count of revealed
    items, driven by an effect with a timer, and draws the first
    [revealedItemCount] items only.  The markup is reduced to what it shows:
    a heading, a link with its position, or a heading with a list of lines. *)

Module ThinkingProcessDisplay.

Record Props := mkProps {
  fetchedLinksData : option FetchedLinksResponse.t;
  aiAnalysisData : option AiResponse.t;
  displayStage : DisplayStage.t;
  currentLinkIndex : option nat;
  loadingMessage : option string }.

Definition ITEM_REVEAL_DELAY : N := 2000%N.

Inductive Line :=
| Point (text : string)
| Question (question : string) (analysis_content : option string).

Inductive View :=
| Nothing
| Heading (text : string)
| GatheringData (link : option (string * string)) (position total : nat)
| Items (heading : string) (lines : list Line).

(** The [href] and the text of the link drawn: [title || url]. *)
Definition linkLine (linkToShow : SearchResultItem.t) : string * string :=
  (SearchResultItem.url linkToShow,
   if truthy (SearchResultItem.title linkToShow)
   then SearchResultItem.title linkToShow
   else SearchResultItem.url linkToShow).

(** The answer is drawn under the question when it is not blank. *)
Definition analysisLine (item : AnalysisItem.t) : Line :=
  Question (AnalysisItem.question item)
    (if truthy (AnalysisItem.analysis_content item)
        && negb (trim (AnalysisItem.analysis_content item) =? "")
     then Some (AnalysisItem.analysis_content item)
     else None).

(** [loadingMessage || "Processing..."]. *)
Definition loadingHeading (p : Props) : string :=
  match loadingMessage p with
  | Some m => if truthy m then m else "Processing..."
  | None => "Processing..."
  end.

Definition gathering (p : Props) : View :=
  match fetchedLinksData p, currentLinkIndex p with
  | Some links, Some i =>
      let results := FetchedLinksResponse.results links in
      if (List.length results =? 0)%nat then Nothing
      else GatheringData (option_map linkLine (nth_error results i)) (i + 1)
             (List.length results)
  | _, _ => Nothing
  end.

Definition renderContent (p : Props) : View :=
  match displayStage p with
  | DisplayStage.fetchingLinks | DisplayStage.fetchingAiAnalysis =>
      Heading (loadingHeading p)
  | DisplayStage.gatheringLinks => gathering p
  | DisplayStage.subquestions =>
      match aiAnalysisData p with
      | None => Nothing
      | Some ai => Items "Thinking: Sub-questions..." (map Point (AiResponse.sub_questions ai))
      end
  | DisplayStage.analysis =>
      match aiAnalysisData p with
      | None => Nothing
      | Some ai => Items "Analyzing Information" (map analysisLine (AiResponse.analysis ai))
      end
  | DisplayStage.synthesis =>
      match aiAnalysisData p with
      | None => Nothing
      | Some ai => Items "Synthesizing Insights" (map Point (AiResponse.synthesis ai))
      end
  | _ => Nothing
  end.

(** [renderContent] of the version with the reveal: [slice(0, n)] is
    [firstn n]. *)
Definition renderContentRevealed (revealedItemCount : nat) (p : Props) : View :=
  match displayStage p with
  | DisplayStage.fetchingLinks | DisplayStage.fetchingAiAnalysis =>
      Heading (loadingHeading p)
  | DisplayStage.gatheringLinks => gathering p
  | DisplayStage.subquestions =>
      match aiAnalysisData p with
      | None => Nothing
      | Some ai =>
          Items "Thinking ..."
            (map Point (firstn revealedItemCount (AiResponse.sub_questions ai)))
      end
  | DisplayStage.analysis =>
      match aiAnalysisData p with
      | None => Nothing
      | Some ai =>
          Items "Analyzing Questions"
            (map analysisLine (firstn revealedItemCount (AiResponse.analysis ai)))
      end
  | DisplayStage.synthesis =>
      match aiAnalysisData p with
      | None => Nothing
      | Some ai =>
          Items "Synthesizing Insights"
            (map Point (firstn revealedItemCount (AiResponse.synthesis ai)))
      end
  | _ => Nothing
  end.

(** The state of the reveal: the [useState] cell and the timer that is set,
    with the argument of the [revealNextItem] it will call and its delay. *)
Record RevealState := mkReveal {
  revealedItemCount : nat;
  timer : option (nat * N) }.

(** [itemsToReveal], or [None] where the effect returns before it. *)
Definition itemsToReveal (p : Props) : option nat :=
  match aiAnalysisData p with
  | None => None
  | Some ai =>
      match displayStage p with
      | DisplayStage.subquestions => Some (List.length (AiResponse.sub_questions ai))
      | DisplayStage.analysis => Some (List.length (AiResponse.analysis ai))
      | DisplayStage.synthesis => Some (List.length (AiResponse.synthesis ai))
      | _ => None
      end
  end.

(** The effect, run when [displayStage] or [aiAnalysisData] changes. *)
Definition revealEffect (p : Props) : RevealState :=
  {| revealedItemCount := 0;
     timer :=
       match itemsToReveal p with
       | Some n => if (0 <? n)%nat then Some (0, (ITEM_REVEAL_DELAY / 2)%N) else None
       | None => None
       end |}.

Definition revealNextItem (itemsToReveal currentIndex : nat) (st : RevealState)
    : RevealState :=
  if (currentIndex <? itemsToReveal)%nat
  then {| revealedItemCount := currentIndex + 1;
          timer := Some (currentIndex + 1, ITEM_REVEAL_DELAY) |}
  else {| revealedItemCount := revealedItemCount st; timer := None |}.

(** The timer fires, after its delay: the result is the new state and the
    time that has passed. *)
Definition timerFires (p : Props) (st : RevealState) (elapsed : N)
    : option (RevealState * N) :=
  match timer st, itemsToReveal p with
  | Some (currentIndex, delay), Some n =>
      Some (revealNextItem n currentIndex st, (elapsed + delay)%N)
  | _, _ => None
  end.

(** [k] firings in a row, from the run of the effect. *)
Fixpoint firings (k : nat) (p : Props) : option (RevealState * N) :=
  match k with
  | 0 => Some (revealEffect p, 0%N)
  | S k' =>
      match firings k' p with
      | Some (st, elapsed) => timerFires p st elapsed
      | None => None
      end
  end.

End ThinkingProcessDisplay.

(** The props the page passes to the thinking display. *)
Definition thinkingProps (st : State) : ThinkingProcessDisplay.Props :=
  {| ThinkingProcessDisplay.fetchedLinksData := fetchedLinksData st;
     ThinkingProcessDisplay.aiAnalysisData := aiAnalysisData st;
     ThinkingProcessDisplay.displayStage := currentDisplayStage st;
     ThinkingProcessDisplay.currentLinkIndex := Some (currentLinkIndex st);
     ThinkingProcessDisplay.loadingMessage := Some (loadingMessage st) |}.

(** What the thinking display shows at each render of the reveal stage. *)
Fixpoint revealViews (fuel : nat) (st : State) : list ThinkingProcessDisplay.View :=
  match fuel with
  | 0 => []
  | S fuel' =>
      ThinkingProcessDisplay.renderContent (thinkingProps st)
      :: match stageEffect st with
         | SetTimeout IncrementLinkIndex _ =>
             revealViews fuel' (timerFired IncrementLinkIndex st)
         | _ => []
         end
  end.

(** In the two loading stages the page holds the loading message of the
    stage. *)
Definition loadingOk (st : State) : Prop :=
  (currentDisplayStage st = DisplayStage.fetchingLinks ->
   loadingMessage st = "Fetching relevant links...")
  /\ (currentDisplayStage st = DisplayStage.fetchingAiAnalysis ->
      loadingMessage st = "Preparing AI analysis...").

(** ** The final answer ([FinalAnswerDisplay])

    [sourceHref] and [render] are the first version of the component
    ([src/unnamed/part_005]).  Of the version that links the citations of
    the answer ([src/unnamed/part_006]) the callback that turns one
    "[Source ...]" block into links and the list of all sources are given;
    its [parseSourceUrl], which searches the source for a URL with two
    regular expressions, is a parameter of both. *)

Module FinalAnswerDisplay.

(** [s.indexOf(pattern)], [None] standing for -1. *)
Fixpoint indexOf (pattern s : string) : option nat :=
  if prefix pattern s then Some 0
  else match s with
       | EmptyString => None
       | String _ r => option_map S (indexOf pattern r)
       end.

(** [s.substring(start)]. *)
Fixpoint substringFrom (start : nat) (s : string) : string :=
  match start, s with
  | 0, _ => s
  | S n, String _ r => substringFrom n r
  | S _, EmptyString => EmptyString
  end.

(** The [href] of a source: for a source written "[Source n]: url" the text
    after the first "]:", trimmed; any other source as it is. *)
Definition sourceHref (source : string) : string :=
  if prefix "[Source " source
  then match indexOf "]:" source with
       | Some i => trim (substringFrom (i + 2) source)
       | None => source
       end
  else source.

(** What the component shows: the items of the answer and, for each source,
    the [href] and the text of its link. *)
Record View := mkView {
  answer : list string;
  sourceLinks : list (string * string) }.

Definition render (aiAnalysisData : option AiResponse.t) : option View :=
  match aiAnalysisData with
  | None => None
  | Some ai =>
      Some {| answer := AiResponse.final_answer ai;
              sourceLinks := map (fun source => (sourceHref source, source))
                               (AiResponse.sources ai) |}
  end.

(** *** The linked citations *)

Definition isDigit (c : ascii) : bool :=
  let n := nat_of_ascii c in (48 <=? n)%nat && (n <=? 57)%nat.

Definition digitValue (c : ascii) : nat := nat_of_ascii c - 48.

(** [s.match(/\d+/g)]: the maximal runs of digits, from left to right (the
    empty list for [null]).  [current] is the run being read. *)
Fixpoint digitRunsFrom (current s : string) : list string :=
  match s with
  | EmptyString => if truthy current then [current] else []
  | String c r =>
      if isDigit c then digitRunsFrom (current ++ String c EmptyString)%string r
      else (if truthy current then [current] else []) ++ digitRunsFrom EmptyString r
  end.

Definition digitRuns (s : string) : list string := digitRunsFrom EmptyString s.

(** [parseInt(numStr, 10)] on a string that starts with a digit: the value
    of its leading digits.  The value is the exact one, where JavaScript
    rounds to a double from 2^53 on.  The callback below only compares the
    number with the number of sources (the length of an array, below 2^32)
    and goes on with it when it is at most that: in both uses the exact
    value and the rounded one behave alike. *)
Fixpoint parseDigits (acc : nat) (s : string) : nat :=
  match s with
  | EmptyString => acc
  | String c r => if isDigit c then parseDigits (10 * acc + digitValue c) r else acc
  end.

Definition parseInt (numStr : string) : nat := parseDigits 0 numStr.

Definition quote : string := String (ascii_of_nat 34) EmptyString.

(** The anchor of a citation. *)
Definition sourceLink (url title : string) (num : nat) : string :=
  ("<a href=" ++ quote ++ url ++ quote ++ " target=" ++ quote ++ "_blank" ++ quote
   ++ " rel=" ++ quote ++ "noopener noreferrer" ++ quote
   ++ " class=" ++ quote ++ "source-link" ++ quote
   ++ " title=" ++ quote ++ title ++ quote ++ ">[" ++ numberToString num ++ "]</a>")%string.

(** The last [map] callback: the link for source number [num], or the bare
    number when the source has no URL. *)
Definition citation (parseSourceUrl : string -> string) (allSources : list string)
    (num : nat) : string :=
  let source := nth (num - 1) allSources EmptyString in
  let url := parseSourceUrl source in
  if truthy url then sourceLink url source num
  else ("[" ++ numberToString num ++ "]")%string.

(** The [filter] callback: the number names one of the sources. *)
Definition validSource (allSources : list string) (num : nat) : bool :=
  (0 <? num)%nat && (num <=? List.length allSources)%nat.

(** The callback of [answerText.replace]: what one "[Source ...]" block of
    the answer is replaced by. *)
Definition linkedSources (parseSourceUrl : string -> string) (allSources : list string)
    (matchedBlock : string) : string :=
  String.concat EmptyString
    (map (citation parseSourceUrl allSources)
       (filter (validSource allSources) (map parseInt (digitRuns matchedBlock)))).

(** [source.length > 70 ? source.substring(0, 67) + '...' : source]. *)
Definition shortSource (source : string) : string :=
  if (70 <? String.length source)%nat
  then (substring 0 67 source ++ "...")%string
  else source.

(** The text of a link of the list of all sources. *)
Definition sourceLabel (idx : nat) (source : string) : string :=
  ("[" ++ numberToString (idx + 1) ++ "] " ++ shortSource source)%string.

(** The list of all sources: one link per source in which a URL is found,
    [idx] being the position of the source among all of them. *)
Fixpoint additionalSourcesFrom (parseSourceUrl : string -> string) (idx : nat)
    (sources : list string) : list (string * string) :=
  match sources with
  | [] => []
  | source :: rest =>
      (if truthy (parseSourceUrl source)
       then [(parseSourceUrl source, sourceLabel idx source)]
       else [])
      ++ additionalSourcesFrom parseSourceUrl (S idx) rest
  end.

Definition additionalSources (parseSourceUrl : string -> string) (sources : list string)
    : list (string * string) :=
  additionalSourcesFrom parseSourceUrl 0 sources.

(** *** The callback of the other version ([src/unnamed/part_007])

    There the numbers are read from the text between "[Source" and "]",
    split at the commas; a number that names no source is kept as text. *)

(** [s.split(sep)] for a separator of one character; [current] is the piece
    being read. *)
Fixpoint splitFrom (sep : ascii) (current s : string) : list string :=
  match s with
  | EmptyString => [current]
  | String c r =>
      if Ascii.eqb c sep then current :: splitFrom sep EmptyString r
      else splitFrom sep (current ++ String c EmptyString)%string r
  end.

Definition split (sep : ascii) (s : string) : list string := splitFrom sep EmptyString s.

(** The number [parseInt(numStr.trim(), 10)] gives for a piece of the
    block, a string of digits and white space: [NaN] when the piece does not
    start with a digit; the value of its leading digits when that is below
    2^53, where [parseInt] is exact and a template literal prints the number
    in decimal digits; and otherwise a double of at least 2^53, of which the
    digits it was read from are kept. *)
Inductive ParsedNumber :=
| NotANumber
| Exact (n : nat)
| Rounded (digits : string).

Fixpoint parseDigitsN (acc : N) (s : string) : N :=
  match s with
  | EmptyString => acc
  | String c r =>
      if isDigit c then parseDigitsN (10 * acc + N.of_nat (digitValue c))%N r else acc
  end.

Fixpoint leadingDigits (s : string) : string :=
  match s with
  | EmptyString => EmptyString
  | String c r => if isDigit c then String c (leadingDigits r) else EmptyString
  end.

Definition parseIntOrNaN (numStr : string) : ParsedNumber :=
  match numStr with
  | EmptyString => NotANumber
  | String c _ =>
      if isDigit c then
        let value := parseDigitsN 0 numStr in
        if (value <? 2 ^ 53)%N then Exact (N.to_nat value)
        else Rounded (leadingDigits numStr)
      else NotANumber
  end.

(** The text of a number in a template literal.  [printRounded digits] is
    the text of the double read from [digits], a parameter: it need not be
    the digits themselves, and from 10^21 on it is in exponent form. *)
Definition numberText (printRounded : string -> string) (num : ParsedNumber) : string :=
  match num with
  | NotANumber => "NaN"
  | Exact n => numberToString n
  | Rounded digits => printRounded digits
  end.

(** The [map] callback.  A number of 2^53 or more is above the length of any
    array, so it names no source. *)
Definition citationOrText (parseSourceUrl printRounded : string -> string)
    (allSources : list string) (num : ParsedNumber) : string :=
  let fallback := ("[Source " ++ numberText printRounded num ++ "]")%string in
  match num with
  | Exact n =>
      if (0 <? n)%nat && (n <=? List.length allSources)%nat then
        let source := nth (n - 1) allSources EmptyString in
        let url := parseSourceUrl source in
        if truthy url then sourceLink url source n else fallback
      else fallback
  | Rounded _ | NotANumber => fallback
  end.

(** The joined links, before [links || match]. *)
Definition joinedLinks (parseSourceUrl printRounded : string -> string)
    (allSources : list string) (sourceNumbersStr : string) : string :=
  String.concat " "
    (map (citationOrText parseSourceUrl printRounded allSources)
       (map (fun numStr => parseIntOrNaN (trim numStr)) (split "," sourceNumbersStr))).

Definition linkedSourcesOrText (parseSourceUrl printRounded : string -> string)
    (allSources : list string) (matched sourceNumbersStr : string) : string :=
  let links := joinedLinks parseSourceUrl printRounded allSources sourceNumbersStr in
  if truthy links then links else matched.

(** A string without the character [c]. *)
Fixpoint lacks (c : ascii) (s : string) : bool :=
  match s with
  | EmptyString => true
  | String x r => negb (Ascii.eqb x c) && lacks c r
  end.

End FinalAnswerDisplay.

(** What the page draws as the final answer of a history item. *)
Definition finalAnswerView (chatItem : ChatMessage.t) : option FinalAnswerDisplay.View :=
  match shownFinalAnswer chatItem with
  | Some r => FinalAnswerDisplay.render (Some r)
  | None => None
  end.

(** The page with a query at the stage of its answer with no links found. *)
Definition noLinksRun : list Event :=
  [NewChat; Resolve 0 (StoreDone "s1" "t0");
   Submit "q1"; Resolve 0 (StoreDone "" ""); Resolve 0 (StoreDone "m1" "t1");
   Resolve 0 (LinksOutcome (FetchOk noLinks))].

Definition noLinksArrived : Sys :=
  match execAll noLinksRun (start u1) with
  | Some s => s
  | None => start u1
  end.

(** ** The page as drawn (the render logic of [HomePage])

    The markup is reduced to what depends on the state: which of the fixed
    texts are drawn, the entries of the sidebar, and for each history item
    its query, the props of the thinking display if it is mounted, the
    response handed to the final answer if it is mounted, and the error line.
    The e-mail address of the user next to the title is left out. *)

(** [session.session_name || new Date(session.created_at).toLocaleDateString()]. *)
Inductive SessionLabel :=
| NameLabel (session_name : string)
| DateLabel (created_at : string).

Record SessionEntry := mkSessionEntry {
  entryId : string;
  entryActive : bool;
  entryLabel : SessionLabel }.

Record ItemView := mkItemView {
  itemSearch : string;
  itemThinking : option ThinkingProcessDisplay.Props;
  itemFinalAnswer : option AiResponse.t;
  itemErrorLine : option string }.

Record ChatView := mkChatView {
  newChatButtonDisabled : bool;
  loadingSessionsLine : bool;
  sidebar : list SessionEntry;
  noChatsYet : bool;
  selectAChat : bool;
  loadingMessagesLine : bool;
  items : list ItemView;
  modelValue : string;
  modelDisabled : bool;
  searchFormIsLoading : bool }.

Inductive PageView :=
| LoadingAuthentication
| NoPage
| RedirectingToLogin
| Chat (v : ChatView).

Definition sessionEntry (st : State) (session : ChatSession.t) : SessionEntry :=
  {| entryId := ChatSession.id session;
     entryActive := strictEq (currentSessionId st) (Some (ChatSession.id session));
     entryLabel :=
       match ChatSession.session_name session with
       | Some name => if truthy name then NameLabel name
                      else DateLabel (ChatSession.created_at session)
       | None => DateLabel (ChatSession.created_at session)
       end |}.

Definition itemView (st : State) (chatItem : ChatMessage.t) : ItemView :=
  {| itemSearch := ChatMessage.query chatItem;
     itemThinking := if showsThinking st chatItem then Some (thinkingProps st) else None;
     itemFinalAnswer := shownFinalAnswer chatItem;
     itemErrorLine := shownError chatItem |}.

Definition chatView (st : State) : ChatView :=
  let noSession :=
    negb (truthyOpt (currentSessionId st))
    && negb (isLoadingSessions st) && negb (isLoadingMessages st) in
  {| newChatButtonDisabled := newChatDisabled st;
     loadingSessionsLine := isLoadingSessions st;
     sidebar := map (sessionEntry st) (chatSessionsList st);
     noChatsYet := noSession && (List.length (chatSessionsList st) =? 0)%nat;
     selectAChat := noSession && (0 <? List.length (chatSessionsList st))%nat;
     loadingMessagesLine := isLoadingMessages st && truthyOpt (currentSessionId st);
     items := map (itemView st) (chatHistory st);
     modelValue := selectedAiModel st;
     modelDisabled := modelSelectDisabled st;
     searchFormIsLoading := searchFormDisabled st |}.

(** The three early returns and the chat view; [pathname] is the reading of
    [usePathname()]. *)
Definition renderHomePage (pathname : string) (st : State) : PageView :=
  let noUser := match user st with Some _ => false | None => true end in
  if isLoadingAuth st || (noUser && negb (pathname =? "/login"))
  then LoadingAuthentication
  else if pathname =? "/login" then NoPage
  else if noUser then RedirectingToLogin
  else Chat (chatView st).

(** ** The earlier page ([HomePage], the first document of [src/unnamed/part_001])

    The version of the page without accounts, sessions and store: one query
    at a time, its links and its analysis kept in the state of the page, the
    final answer drawn from there.  Its stage effect has no pending marker in
    its guard. *)

Module Earlier.

Definition STAGE_DELAY : N := 1500%N.
Definition LINK_DISPLAY_DELAY : N := 700%N.

Record State := mkState {
  currentQuery : string;
  fetchedLinksData : option FetchedLinksResponse.t;
  aiAnalysisData : option AiResponse.t;
  isLoading : bool;
  error : option string;
  currentDisplayStage : DisplayStage.t;
  currentLinkIndex : nat;
  loadingMessage : string }.

Definition initialState : State :=
  {| currentQuery := ""; fetchedLinksData := None; aiAnalysisData := None;
     isLoading := false; error := None; currentDisplayStage := DisplayStage.idle;
     currentLinkIndex := 0; loadingMessage := "" |}.

Definition setCurrentQuery (v : string) (st : State) : State :=
  {| currentQuery := v; fetchedLinksData := fetchedLinksData st; aiAnalysisData :=
     aiAnalysisData st; isLoading := isLoading st; error := error st; currentDisplayStage :=
     currentDisplayStage st; currentLinkIndex := currentLinkIndex st; loadingMessage :=
     loadingMessage st |}.

Definition setFetchedLinksData (v : option FetchedLinksResponse.t) (st : State) : State :=
  {| currentQuery := currentQuery st; fetchedLinksData := v; aiAnalysisData :=
     aiAnalysisData st; isLoading := isLoading st; error := error st; currentDisplayStage :=
     currentDisplayStage st; currentLinkIndex := currentLinkIndex st; loadingMessage :=
     loadingMessage st |}.

Definition setAiAnalysisData (v : option AiResponse.t) (st : State) : State :=
  {| currentQuery := currentQuery st; fetchedLinksData := fetchedLinksData st;
     aiAnalysisData := v; isLoading := isLoading st; error := error st; currentDisplayStage
     := currentDisplayStage st; currentLinkIndex := currentLinkIndex st; loadingMessage :=
     loadingMessage st |}.

Definition setIsLoading (v : bool) (st : State) : State :=
  {| currentQuery := currentQuery st; fetchedLinksData := fetchedLinksData st;
     aiAnalysisData := aiAnalysisData st; isLoading := v; error := error st;
     currentDisplayStage := currentDisplayStage st; currentLinkIndex := currentLinkIndex st;
     loadingMessage := loadingMessage st |}.

Definition setError (v : option string) (st : State) : State :=
  {| currentQuery := currentQuery st; fetchedLinksData := fetchedLinksData st;
     aiAnalysisData := aiAnalysisData st; isLoading := isLoading st; error := v;
     currentDisplayStage := currentDisplayStage st; currentLinkIndex := currentLinkIndex st;
     loadingMessage := loadingMessage st |}.

Definition setCurrentDisplayStage (v : DisplayStage.t) (st : State) : State :=
  {| currentQuery := currentQuery st; fetchedLinksData := fetchedLinksData st;
     aiAnalysisData := aiAnalysisData st; isLoading := isLoading st; error := error st;
     currentDisplayStage := v; currentLinkIndex := currentLinkIndex st; loadingMessage :=
     loadingMessage st |}.

Definition setCurrentLinkIndex (v : nat) (st : State) : State :=
  {| currentQuery := currentQuery st; fetchedLinksData := fetchedLinksData st;
     aiAnalysisData := aiAnalysisData st; isLoading := isLoading st; error := error st;
     currentDisplayStage := currentDisplayStage st; currentLinkIndex := v; loadingMessage :=
     loadingMessage st |}.

Definition setLoadingMessage (v : string) (st : State) : State :=
  {| currentQuery := currentQuery st; fetchedLinksData := fetchedLinksData st;
     aiAnalysisData := aiAnalysisData st; isLoading := isLoading st; error := error st;
     currentDisplayStage := currentDisplayStage st; currentLinkIndex := currentLinkIndex st;
     loadingMessage := v |}.

(** The two HTTP posts of the page, and the continuations of its [await]s. *)
Inductive Request :=
| PostFetchLinks (query : string)
| PostAiAnalysis (original_query : string) (search_results : FetchedLinksResponse.t).

Inductive Task :=
| AwaitLinks (searchQuery : string)
| AwaitAi.

Definition Outcome : Type := State * option (Request * Task).

(** [fetchAiAnalysis], up to the [fetch]. *)
Definition fetchAiAnalysis (query : string) (linksData : FetchedLinksResponse.t) (st : State)
    : State * (Request * Task) :=
  let st := setCurrentDisplayStage DisplayStage.fetchingAiAnalysis st in
  let st := setLoadingMessage "Preparing AI analysis..." st in
  (st, (PostAiAnalysis query linksData, AwaitAi)).

(** [fetchAiAnalysis] once the post has an outcome. *)
Definition fetchAiAnalysis_fetched (outcome : FetchOutcome AiResponse.t) (st : State)
    : State :=
  match outcome with
  | FetchOk analysisData =>
      let st := setAiAnalysisData (Some analysisData) st in
      setCurrentDisplayStage DisplayStage.subquestions st
  | _ =>
      match thrownMessage "AI analysis failed: "
              "AI analysis network response was not ok" outcome with
      | None => st
      | Some m =>
          let st :=
            setError (Some (messageOr m "An error occurred while fetching AI analysis.")) st in
          setCurrentDisplayStage DisplayStage.error st
      end
  end.

Inductive TimerCallback :=
| IncrementLinkIndex
| AdvanceTo (s : DisplayStage.t).

Inductive EffectAction :=
| NoAction
| SetTimeout (cb : TimerCallback) (delay : N)
| CallFetchAiAnalysis (query : string) (linksData : FetchedLinksResponse.t).

(** The effect: its guard and [advanceStage]. *)
Definition stageEffect (st : State) : EffectAction :=
  match currentDisplayStage st with
  | DisplayStage.idle | DisplayStage.error
  | DisplayStage.fetchingLinks | DisplayStage.fetchingAiAnalysis => NoAction
  | DisplayStage.gatheringLinks =>
      match fetchedLinksData st with
      | Some links =>
          let n := List.length (FetchedLinksResponse.results links) in
          if (0 <? n)%nat then
            if (currentLinkIndex st <? n - 1)%nat
            then SetTimeout IncrementLinkIndex LINK_DISPLAY_DELAY
            else if truthy (currentQuery st)
                 then CallFetchAiAnalysis (currentQuery st) links
                 else NoAction
          else if truthy (currentQuery st)
               then CallFetchAiAnalysis (currentQuery st) links
               else NoAction
      | None => NoAction
      end
  | DisplayStage.subquestions =>
      match aiAnalysisData st with
      | Some _ => SetTimeout (AdvanceTo DisplayStage.analysis) STAGE_DELAY
      | None => NoAction
      end
  | DisplayStage.analysis =>
      match aiAnalysisData st with
      | Some _ => SetTimeout (AdvanceTo DisplayStage.synthesis) STAGE_DELAY
      | None => NoAction
      end
  | DisplayStage.synthesis =>
      match aiAnalysisData st with
      | Some _ => SetTimeout (AdvanceTo DisplayStage.final) STAGE_DELAY
      | None => NoAction
      end
  | DisplayStage.final => NoAction
  end.

Definition timerFired (cb : TimerCallback) (st : State) : State :=
  match cb with
  | IncrementLinkIndex => setCurrentLinkIndex (currentLinkIndex st + 1) st
  | AdvanceTo s => setCurrentDisplayStage s st
  end.

(** [handleSearch], up to the [fetch] of the links. *)
Definition handleSearch (searchQuery : string) (st : State) : State * (Request * Task) :=
  let st := setCurrentQuery searchQuery st in
  let st := setIsLoading true st in
  let st := setError None st in
  let st := setFetchedLinksData None st in
  let st := setAiAnalysisData None st in
  let st := setCurrentLinkIndex 0 st in
  let st := setCurrentDisplayStage DisplayStage.fetchingLinks st in
  let st := setLoadingMessage "Fetching relevant links..." st in
  (st, (PostFetchLinks searchQuery, AwaitLinks searchQuery)).

(** [handleSearch] once the link fetch has an outcome, with its [finally]. *)
Definition handleSearch_linksFetched (searchQuery : string)
    (outcome : FetchOutcome FetchedLinksResponse.t) (st : State) : Outcome :=
  match outcome with
  | FetchOk linksData =>
      let st := setFetchedLinksData (Some linksData) st in
      if (0 <? List.length (FetchedLinksResponse.results linksData))%nat then
        let st := setCurrentDisplayStage DisplayStage.gatheringLinks st in
        (setIsLoading false st, None)
      else
        let st :=
          setLoadingMessage "No specific links found. Attempting general analysis..." st in
        let emptyLinksData :=
          {| FetchedLinksResponse.query := searchQuery;
             FetchedLinksResponse.results := [];
             FetchedLinksResponse.total_results := Some 0 |} in
        let '(st, call) := fetchAiAnalysis searchQuery emptyLinksData st in
        (setIsLoading false st, Some call)
  | _ =>
      match thrownMessage "Link fetch failed: "
              "Link fetch network response was not ok" outcome with
      | None => (st, None)
      | Some m =>
          let st :=
            setError (Some (messageOr m "An unknown error occurred during search.")) st in
          let st := setCurrentDisplayStage DisplayStage.error st in
          (setIsLoading false st, None)
      end
  end.

(** [handleSubmit] of the search form in front of [handleSearch]. *)
Definition handleSubmit (query : string) (st : State) : Outcome :=
  if truthy (trim query)
  then let '(st, call) := handleSearch (trim query) st in (st, Some call)
  else (st, None).

(** *** What the page renders *)

(** The [isLoading] prop of the search form. *)
Definition formIsLoading (st : State) : bool :=
  isLoading st
  || DisplayStage.eqb (currentDisplayStage st) DisplayStage.fetchingLinks
  || DisplayStage.eqb (currentDisplayStage st) DisplayStage.fetchingAiAnalysis.

(** The props of the thinking display that is mounted, if one is. *)
Definition thinking (st : State) : option ThinkingProcessDisplay.Props :=
  match currentDisplayStage st with
  | DisplayStage.fetchingLinks | DisplayStage.fetchingAiAnalysis =>
      Some (ThinkingProcessDisplay.mkProps None None (currentDisplayStage st) None
              (Some (loadingMessage st)))
  | DisplayStage.gatheringLinks =>
      match fetchedLinksData st with
      | Some links =>
          Some (ThinkingProcessDisplay.mkProps (Some links) None (currentDisplayStage st)
                  (Some (currentLinkIndex st)) None)
      | None => None
      end
  | DisplayStage.subquestions | DisplayStage.analysis | DisplayStage.synthesis =>
      match aiAnalysisData st with
      | Some ai =>
          Some (ThinkingProcessDisplay.mkProps None (Some ai) (currentDisplayStage st) None
                  None)
      | None => None
      end
  | _ => None
  end.

(** The response handed to the final answer, if it is mounted. *)
Definition finalAnswer (st : State) : option AiResponse.t :=
  match currentDisplayStage st with
  | DisplayStage.final => aiAnalysisData st
  | _ => None
  end.

(** The error line, if it is drawn. *)
Definition errorLine (st : State) : option string :=
  match currentDisplayStage st, error st with
  | DisplayStage.error, Some e => if truthy e then Some e else None
  | _, _ => None
  end.

(** *** Executions *)

Inductive Reply :=
| LinksReply (o : FetchOutcome FetchedLinksResponse.t)
| AiReply (o : FetchOutcome AiResponse.t).

Definition resume (task : Task) (r : Reply) (st : State) : option Outcome :=
  match task, r with
  | AwaitLinks searchQuery, LinksReply o => Some (handleSearch_linksFetched searchQuery o st)
  | AwaitAi, AiReply o => Some (fetchAiAnalysis_fetched o st, None)
  | _, _ => None
  end.

Record Sys := mkSys {
  ui : State;
  inflight : list (Request * Task) }.

Inductive Event :=
| Submit (query : string)
| Resolve (i : nat) (r : Reply)
| TimerFires.

Definition addCall (call : option (Request * Task)) (l : list (Request * Task))
    : list (Request * Task) :=
  match call with
  | Some c => l ++ [c]
  | None => l
  end.

Definition afterRender (st : State) (calls : list (Request * Task))
    : State * list (Request * Task) :=
  match stageEffect st with
  | CallFetchAiAnalysis query linksData =>
      let '(st', call) := fetchAiAnalysis query linksData st in
      (st', calls ++ [call])
  | _ => (st, calls)
  end.

Definition commit (calls : list (Request * Task)) (o : Outcome) : Sys :=
  let '(st, calls') := afterRender (fst o) (addCall (snd o) calls) in
  {| ui := st; inflight := calls' |}.

Definition exec (e : Event) (s : Sys) : option Sys :=
  match e with
  | Submit query =>
      if formIsLoading (ui s) then None
      else Some (commit (inflight s) (handleSubmit query (ui s)))
  | Resolve i r =>
      match nth_error (inflight s) i with
      | Some (_, task) =>
          match resume task r (ui s) with
          | Some o => Some (commit (removeNth i (inflight s)) o)
          | None => None
          end
      | None => None
      end
  | TimerFires =>
      match stageEffect (ui s) with
      | SetTimeout cb _ => Some (commit (inflight s) (timerFired cb (ui s), None))
      | _ => None
      end
  end.

Fixpoint execAll (es : list Event) (s : Sys) : option Sys :=
  match es with
  | [] => Some s
  | e :: rest =>
      match exec e s with
      | Some s' => execAll rest s'
      | None => None
      end
  end.

(** The reveal of [links] runs. *)
Definition revealing (links : FetchedLinksResponse.t) (st : State) : Prop :=
  currentDisplayStage st = DisplayStage.gatheringLinks
  /\ fetchedLinksData st = Some links
  /\ truthy (currentQuery st) = true.

End Earlier.

(** * Properties *)

(** ** Basic facts about the JavaScript helpers *)

Lemma strictEq_same (x : string) : strictEq (Some x) (Some x) = true.
Proof. simpl. apply String.eqb_refl. Qed.

Lemma strictEq_null (a : option string) : strictEq a None = false.
Proof. destruct a; reflexivity. Qed.

Lemma truthyOpt_true (o : option string) :
  truthyOpt o = true -> exists x, o = Some x /\ truthy x = true.
Proof. destruct o as [x|]; simpl; [now exists x | discriminate]. Qed.

Lemma mapWhereId_none (target : option string) f (l : list ChatMessage.t) :
  (forall m, In m l -> strictEq (ChatMessage.id m) target = false) ->
  mapWhereId target f l = l.
Proof.
  unfold mapWhereId. induction l as [|m l IH]; intros H; simpl.
  - reflexivity.
  - rewrite (H m (or_introl eq_refl)). f_equal. apply IH.
    intros m' Hm'. apply H. now right.
Qed.

Lemma mapWhereId_null f (l : list ChatMessage.t) : mapWhereId None f l = l.
Proof. apply mapWhereId_none. intros m _. apply strictEq_null. Qed.

(** ** The ordered select returns exactly the rows of the session *)

Lemma in_insertByCreated (x row : MessageRow.t) (rows : list MessageRow.t) :
  In x (insertByCreated row rows) <-> x = row \/ In x rows.
Proof.
  induction rows as [|r rest IH]; simpl.
  - intuition congruence.
  - destruct (MessageRow.created_at row <=? MessageRow.created_at r)%string; simpl.
    + intuition congruence.
    + rewrite IH. intuition congruence.
Qed.

Lemma in_orderByCreated (x : MessageRow.t) (rows : list MessageRow.t) :
  In x (orderByCreated rows) <-> In x rows.
Proof.
  unfold orderByCreated. induction rows as [|r rest IH]; simpl.
  - tauto.
  - rewrite in_insertByCreated, IH. intuition congruence.
Qed.

Lemma in_selectMessages (x : MessageRow.t) (sessionId : string) (d : Store) :
  In x (selectMessages sessionId d) <->
  In x (chat_messages d) /\ MessageRow.session_id x = sessionId.
Proof.
  unfold selectMessages. rewrite in_orderByCreated, filter_In.
  now rewrite String.eqb_eq.
Qed.

(** ** Session selection *)

(** C8. Selecting the session that is already the active one does nothing:
    the handler returns the state it was given, unchanged in every cell, and
    issues no call to the store (no reload of the messages). *)
Theorem C8_select_active_session_is_noop :
  forall (snap st : State) (sessionId : string),
    currentSessionId snap = Some sessionId ->
    handleSelectChat snap sessionId st = (st, None).
Proof.
  intros snap st sessionId Hcur. unfold handleSelectChat.
  destruct (user snap); [|reflexivity].
  now rewrite Hcur, strictEq_same.
Qed.

Lemma C8_select_active_session_is_noop_witness :
  let snap := setCurrentSessionId (Some "s1") (signedIn (User.mk "u1")) in
  handleSelectChat snap "s1" snap = (snap, None).
Proof.
  intros snap. apply (C8_select_active_session_is_noop snap snap "s1"). reflexivity.
Defined.

(** C10. The history built from the rows of a selected session is the image
    of the rows under [loadedMessage]: every item has stage [final] and has
    neither fetched links nor an error, whatever the row holds, and a row
    without [response_data] is loaded as a [final] item without response. *)
Theorem C10_loaded_messages_are_final :
  forall (data : list MessageRow.t) (st : State),
    chatHistory (handleSelectChat_loaded (Some data) st) = map loadedMessage data
    /\ Forall (fun m => ChatMessage.stage m = DisplayStage.final
                        /\ ChatMessage.fetchedLinks m = None
                        /\ ChatMessage.error m = None
                        /\ DisplayStage.terminal (ChatMessage.stage m) = true
                        /\ shownError m = None)
         (chatHistory (handleSelectChat_loaded (Some data) st))
    /\ Forall2 (fun row m => ChatMessage.query m = MessageRow.query_text row
                             /\ ChatMessage.response m = MessageRow.response_data row
                             /\ (MessageRow.response_data row = None ->
                                 ChatMessage.stage m = DisplayStage.final
                                 /\ shownFinalAnswer m = None))
         data (chatHistory (handleSelectChat_loaded (Some data) st)).
Proof.
  intros data st. simpl. split; [reflexivity|]. split.
  - apply Forall_forall. intros m Hm. apply in_map_iff in Hm.
    destruct Hm as [row [<- _]]. simpl. repeat split.
  - induction data as [|row rest IH]; simpl; constructor.
    + simpl. split; [reflexivity|]. split; [reflexivity|].
      intros E. split; [reflexivity|]. unfold shownFinalAnswer. simpl. now rewrite E.
    + exact IH.
Qed.

(** ** The stage effect does nothing in the stages it leaves alone *)

Lemma stageEffect_quiet (st : State) :
  currentDisplayStage st = DisplayStage.idle
  \/ currentDisplayStage st = DisplayStage.error
  \/ currentDisplayStage st = DisplayStage.fetchingLinks
  \/ currentDisplayStage st = DisplayStage.fetchingAiAnalysis
  \/ currentDisplayStage st = DisplayStage.final ->
  stageEffect st = NoAction.
Proof.
  unfold stageEffect, stageEffectIdle, advanceStage.
  intros [E | [E | [E | [E | E]]]]; rewrite E; simpl;
    destruct (truthyOpt (currentPendingMessageId st)), (isLoadingAuth st); reflexivity.
Qed.

Lemma stageEffect_no_marker (st : State) :
  truthyOpt (currentPendingMessageId st) = false -> stageEffect st = NoAction.
Proof. unfold stageEffect, stageEffectIdle. now intros ->. Qed.

Lemma afterRender_quiet (st : State) calls :
  stageEffect st = NoAction -> afterRender st calls = (st, calls).
Proof. unfold afterRender. now intros ->. Qed.

Lemma nth_error_last {A} (l : list A) (x : A) :
  nth_error (l ++ [x]) (List.length l) = Some x.
Proof. induction l as [|y l IH]; simpl; [reflexivity | exact IH]. Qed.

Lemma removeNth_last {A} (l : list A) (x : A) :
  removeNth (List.length l) (l ++ [x]) = l.
Proof.
  unfold removeNth. induction l as [|y l IH]; simpl; [reflexivity|].
  simpl in IH. now rewrite IH.
Qed.

Lemma pageShown_user (st : State) :
  pageShown st = true -> isLoadingAuth st = false /\ exists u, user st = Some u.
Proof.
  unfold pageShown. destruct (isLoadingAuth st); simpl; [discriminate|].
  destruct (user st) as [u|]; [intros _; split; [reflexivity | now exists u] | discriminate].
Qed.

Lemma strictEq_other (x : string) (o : option string) :
  o <> Some x -> strictEq (Some x) o = false.
Proof.
  destruct o as [y|]; simpl; [|reflexivity].
  intros H. apply String.eqb_neq. congruence.
Qed.

(** One [SelectChat] event on another session: the reset and the select call. *)
Lemma exec_SelectChat_other (s : Sys) (sessionId : string) :
  pageShown (ui s) = true ->
  existsb (fun c => ChatSession.id c =? sessionId) (chatSessionsList (ui s)) = true ->
  currentSessionId (ui s) <> Some sessionId ->
  exists st,
    exec (SelectChat sessionId) s
    = Some {| ui := st; db := db s;
              inflight := inflight s ++ [(SelectMessages sessionId, AwaitSelectLoad)];
              clock := S (clock s) |}
    /\ currentSessionId st = Some sessionId
    /\ currentDisplayStage st = DisplayStage.idle
    /\ currentPendingMessageId st = None
    /\ chatHistory st = []
    /\ aiAnalysisData st = None /\ fetchedLinksData st = None.
Proof.
  intros Hshown Hlisted Hother.
  destruct (pageShown_user _ Hshown) as [_ [u Hu]].
  unfold exec. rewrite Hshown, Hlisted. simpl andb. cbv iota.
  unfold handleSelectChat. rewrite Hu, (strictEq_other _ _ Hother).
  unfold commit. cbn [fst snd addCall].
  rewrite afterRender_quiet by (apply stageEffect_quiet; left; reflexivity).
  eexists. split; [reflexivity|]. repeat split.
Qed.

(** C9. Round trip through the store: a row of a session that was persisted
    with a [response_data] blob is, once the session is selected and its
    messages are loaded, a history item with the row's id and query, stage
    [final] and the persisted blob as its response, drawn as a final answer. *)
Theorem C9_reload_round_trip :
  forall (s : Sys) (sessionId : string) (row : MessageRow.t) (resp : AiResponse.t)
         (newId created : string),
    pageShown (ui s) = true ->
    existsb (fun c => ChatSession.id c =? sessionId) (chatSessionsList (ui s)) = true ->
    currentSessionId (ui s) <> Some sessionId ->
    In row (chat_messages (db s)) ->
    MessageRow.session_id row = sessionId ->
    MessageRow.response_data row = Some resp ->
    exists s' m,
      execAll [SelectChat sessionId;
               Resolve (List.length (inflight s)) (StoreDone newId created)] s = Some s'
      /\ db s' = db s
      /\ currentSessionId (ui s') = Some sessionId
      /\ In m (chatHistory (ui s'))
      /\ ChatMessage.id m = Some (MessageRow.id row)
      /\ ChatMessage.query m = MessageRow.query_text row
      /\ ChatMessage.stage m = DisplayStage.final
      /\ ChatMessage.response m = Some resp
      /\ shownFinalAnswer m = Some resp.
Proof.
  intros s sessionId row resp newId created Hshown Hlisted Hother Hrow Hsess Hresp.
  destruct (exec_SelectChat_other s sessionId Hshown Hlisted Hother)
    as [st [Hexec [Hsid [Hstage _]]]].
  cbn [execAll]. rewrite Hexec.
  unfold exec. cbn [inflight ui db clock].
  rewrite nth_error_last. cbn [perform resume].
  unfold commit. cbn [fst snd addCall]. rewrite removeNth_last.
  rewrite afterRender_quiet by (apply stageEffect_quiet; left; exact Hstage).
  eexists. exists (loadedMessage row). split; [reflexivity|].
  cbn [ui db]. split; [reflexivity|]. split; [exact Hsid|]. split.
  - simpl. apply in_map. apply in_selectMessages. now split.
  - unfold shownFinalAnswer. simpl. rewrite Hresp. repeat split.
Qed.

Lemma C9_reload_round_trip_witness :
  let resp := AiResponse.mk ["sq"] [] ["syn"] ["answer"] ["http://a"] in
  let row := MessageRow.mk "m1" "q1" (Some resp) "t1" "s1" "u1" in
  let s := {| ui := setChatSessionsList [ChatSession.mk "s1" "u1" "t0" (Some "q1")]
                      (signedIn (User.mk "u1"));
              db := {| chat_sessions := [ChatSession.mk "s1" "u1" "t0" (Some "q1")];
                       chat_messages := [row] |};
              inflight := []; clock := 0 |} in
  exists s' m,
    execAll [SelectChat "s1"; Resolve 0 (StoreDone "" "")] s = Some s'
    /\ db s' = db s
    /\ currentSessionId (ui s') = Some "s1"
    /\ In m (chatHistory (ui s'))
    /\ ChatMessage.id m = Some "m1"
    /\ ChatMessage.query m = "q1"
    /\ ChatMessage.stage m = DisplayStage.final
    /\ ChatMessage.response m = Some resp
    /\ shownFinalAnswer m = Some resp.
Proof.
  intros resp row s.
  apply (C9_reload_round_trip s "s1" row resp "" "");
    [reflexivity | reflexivity | discriminate | now left | reflexivity | reflexivity].
Defined.

(** The answer of a whole query, saved by [fetchAiAnalysis], comes back when
    the user leaves the session and selects it again. *)
Example answer_survives_reload :
  exists s,
    execAll (wholeQueryRun ++ comeBackRun) (start u1) = Some s
    /\ currentSessionId (ui s) = Some "s1"
    /\ map (fun m => (ChatMessage.id m, ChatMessage.stage m, shownFinalAnswer m))
         (chatHistory (ui s))
       = [(Some "m1", DisplayStage.final, Some answerOfQ1)].
Proof. eexists. split; [vm_compute; reflexivity|]. split; reflexivity. Qed.

(** ** The session name derived from the first query *)

Lemma length_append (a b : string) :
  String.length (a ++ b)%string = String.length a + String.length b.
Proof. induction a as [|c a IH]; simpl; [reflexivity | now rewrite IH]. Qed.

Lemma length_substring_prefix (n : nat) (s : string) :
  n <= String.length s -> String.length (substring 0 n s) = n.
Proof.
  revert s. induction n as [|n IH]; intros s Hn.
  - destruct s; reflexivity.
  - destruct s as [|c s]; simpl in *; [lia|]. rewrite IH; lia.
Qed.




Lemma handleSearch_begin_no_session_write (snap : State) u q sid now (st : State) :
  isSessionWrite (snd (handleSearch_begin snap u q sid now st)) = false
  /\ chatSessionsList (fst (handleSearch_begin snap u q sid now st)) = chatSessionsList st.
Proof.
  unfold handleSearch_begin, saveChatMessage.
  destruct (user snap) as [u'|]; [|now split].
  destruct (currentSessionId snap) as [s|]; [|now split].
  destruct (negb (truthy s)); [now split|].
  unfold initialMessageData; cbn [PartialChatMessage.query PartialChatMessage.response].
  destruct (truthyOpt (Some q));
    destruct (orElse None (currentPendingMessageId snap)) as [mid|];
    try destruct (truthy mid); now split.
Qed.

Lemma filter_updateSessionName (sid name : string) (l : list ChatSession.t) :
  filter (fun s => ChatSession.id s =? sid)
    (map (fun s => if ChatSession.id s =? sid then withSessionName name s else s) l)
  = map (withSessionName name) (filter (fun s => ChatSession.id s =? sid) l).
Proof.
  induction l as [|c l IH]; simpl; [reflexivity|].
  destruct (ChatSession.id c =? sid) eqn:E; simpl; rewrite E, IH; reflexivity.
Qed.

(** The store renames the one session that has the id and answers with it. *)
Lemma perform_UpdateSessionName (d : Store) (sid name a b : string) (c : ChatSession.t) :
  filter (fun s => ChatSession.id s =? sid) (chat_sessions d) = [c] ->
  perform (UpdateSessionName sid name) (StoreDone a b) d
  = Some (updateSessionName sid name d, SessionAnswer (Some (withSessionName name c)))
  /\ filter (fun s => ChatSession.id s =? sid)
       (chat_sessions (updateSessionName sid name d))
     = [withSessionName name c].
Proof.
  intros H. unfold perform, updateSessionName. cbn [chat_sessions].
  rewrite filter_updateSessionName, H. now split.
Qed.

(** The scenario of the first query into a fresh "New Chat" session. *)
Example newSessionName_CRISPR :
  newSessionName "Explain CRISPR gene editing in detail please"
  = "Explain CRISPR gene editing in d..."
  /\ String.length (newSessionName "Explain CRISPR gene editing in detail please") = 35.
Proof. split; reflexivity. Qed.

(** ** The link fetch *)

(** C3. A link-fetch response with an empty result array takes the page
    from the link fetch straight to the analysis fetch: the continuation sets
    the stage to [fetchingAiAnalysis] (never to [gatheringLinks]), marks the
    owning history item [fetchingAiAnalysis], and issues the analysis post
    for the query with an empty link set; the stage effect does nothing in
    the state reached. *)
Theorem C3_empty_results_skip_reveal :
  forall (snap st : State) (searchQuery : string) (savedQueryRecord : option MessageRow.t)
         (linksDataResp : FetchedLinksResponse.t),
    FetchedLinksResponse.results linksDataResp = [] ->
    let target := orElse (recordId savedQueryRecord) (currentPendingMessageId snap) in
    let result :=
      handleSearch_linksFetched snap searchQuery savedQueryRecord (FetchOk linksDataResp) st in
    snd result
    = Some (PostAiAnalysis (aiEndpoint (selectedAiModel snap)) searchQuery
              {| FetchedLinksResponse.query := searchQuery;
                 FetchedLinksResponse.results := [];
                 FetchedLinksResponse.total_results := Some 0 |},
            AwaitAiFetch snap target)
    /\ currentDisplayStage (fst result) = DisplayStage.fetchingAiAnalysis
    /\ chatHistory (fst result)
       = mapWhereId target (withFetchedLinks linksDataResp DisplayStage.fetchingAiAnalysis)
           (chatHistory st)
    /\ fetchedLinksData (fst result) = Some linksDataResp
    /\ currentLinkIndex (fst result) = currentLinkIndex st
    /\ stageEffect (fst result) = NoAction.
Proof.
  intros snap st q saved links Hempty target result. subst result target.
  unfold handleSearch_linksFetched. rewrite Hempty. cbn [List.length Nat.ltb Nat.leb].
  unfold fetchAiAnalysis. cbn [fst snd].
  repeat split.
  apply stageEffect_quiet. do 3 right. left. reflexivity.
Qed.

Lemma C3_empty_results_skip_reveal_witness :
  let snap := setCurrentSessionId (Some "s1") (signedIn (User.mk "u1")) in
  let row := MessageRow.mk "m1" "q1" None "t1" "s1" "u1" in
  let result :=
    handleSearch_linksFetched snap "q1" (Some row)
      (FetchOk (FetchedLinksResponse.mk "q1" [] (Some 0))) snap in
  snd result
  = Some (PostAiAnalysis "http://localhost:8000/api/fetch-ai-analysis" "q1"
            (FetchedLinksResponse.mk "q1" [] (Some 0)),
          AwaitAiFetch snap (Some "m1"))
  /\ currentDisplayStage (fst result) = DisplayStage.fetchingAiAnalysis.
Proof.
  intros snap row result.
  destruct (C3_empty_results_skip_reveal snap snap "q1" (Some row)
              (FetchedLinksResponse.mk "q1" [] (Some 0)) eq_refl)
    as [Hcall [Hstage _]].
  split; [exact Hcall | exact Hstage].
Defined.

(** ** Failure of the first save *)

(** C6, refuted as stated.  After the insert of the pending message has
    failed, nothing of the message is in the store, yet the page shows no
    error ([error] is empty and the stage is [fetchingLinks], not [error])
    and the query is not aborted: the link-fetch post for "q1" is in flight. *)
Lemma C6_insert_failure_not_escalated :
  exists s,
    execAll failedInsertRun (start u1) = Some s
    /\ chat_messages (db s) = []
    /\ error (ui s) = None
    /\ currentDisplayStage (ui s) = DisplayStage.fetchingLinks
    /\ map fst (inflight s) = [PostFetchLinks "q1"].
Proof. eexists. split; [vm_compute; reflexivity|]. repeat split. Qed.

(** The first query of a user who has no active session: [handleSearch]
    creates the session, but the [saveChatMessage] it then calls is the one
    of the render that started the search, whose snapshot has no session
    yet.  The save is skipped, no marker is set, and the reveal of the two
    links does not advance. *)
Example firstQueryWithoutSession :
  exists s,
    execAll [Submit "q1"; Resolve 0 (StoreDone "s1" "t0");
             Resolve 0 (LinksOutcome (FetchOk twoLinks))] (start u1) = Some s
    /\ currentSessionId (ui s) = Some "s1"
    /\ chat_messages (db s) = []
    /\ currentPendingMessageId (ui s) = None
    /\ currentDisplayStage (ui s) = DisplayStage.gatheringLinks
    /\ stageEffect (ui s) = NoAction
    /\ inflight s = [].
Proof. eexists. split; [vm_compute; reflexivity|]. repeat split. Qed.

(** C6, as the page behaves.  When the insert of the pending message fails
    (the store answers with an error, so [saveChatMessage] returns null), the
    continuation raises no error and does not abort: it keeps the error cell
    and the stage, leaves the pending marker as it was (it neither sets nor
    clears it), appends a local history item with the id [local-<clock>] in
    stage [fetchingLinks], and issues the link-fetch post for the query.  The
    outcome of that link fetch is then applied under the marker of the render
    that submitted the query. *)
Theorem C6_insert_failure_falls_back :
  forall (snap st : State) (u : User.t) (searchQuery activeSessionId : string) (now : nat)
         (d : Store),
    let result := handleSearch_saved snap u searchQuery activeSessionId None now st in
    (forall sid uid q r,
        perform (InsertMessage sid uid q r) StoreError d = Some (d, MessageAnswer None))
    /\ resume (AwaitSearchSave snap u searchQuery activeSessionId) (MessageAnswer None) now st
       = Some result
    /\ snd result = Some (PostFetchLinks searchQuery, AwaitSearchLinks snap searchQuery None)
    /\ error (fst result) = error st
    /\ currentDisplayStage (fst result) = currentDisplayStage st
    /\ currentPendingMessageId (fst result) = currentPendingMessageId st
    /\ chatHistory (fst result)
       = chatHistory st ++
         [initialItem u searchQuery activeSessionId
            ("local-" ++ numberToString now)%string None]
    /\ taskMessage (AwaitSearchLinks snap searchQuery None) = currentPendingMessageId snap.
Proof.
  intros. subst result. repeat split.
Qed.

(** The marker that a failed insert leaves alone can be the one of an
    earlier query.  Here "q2" is submitted during the reveal of "q1": after
    the failed insert the marker still names "m1", the item of "q2" is a
    local one, and the answer to "q2" is written to the stored row of "q1". *)
Example failed_insert_keeps_earlier_marker :
  exists s s',
    execAll failedSecondInsertRun (start u1) = Some s
    /\ currentPendingMessageId (ui s) = Some "m1"
    /\ map (fun m => (ChatMessage.id m, ChatMessage.query m)) (chatHistory (ui s))
       = [(Some "m1", "q1"); (Some "local-7", "q2")]
    /\ error (ui s) = None
    /\ map fst (inflight s) = [PostFetchLinks "q2"]
    /\ execAll secondAnswerRun s = Some s'
    /\ chat_messages (db s') = [MessageRow.mk "m1" "q1" (Some answerOfQ2) "t1" "s1" "u1"].
Proof.
  eexists. eexists. split; [vm_compute; reflexivity|].
  do 4 (split; [reflexivity|]).
  split; [vm_compute; reflexivity | reflexivity].
Qed.

(** ** Failure of the link fetch or of the analysis *)

(** Saving an error never reaches the store: the payload has neither a query
    nor a response, so both branches of [saveChatMessage] return null. *)
Lemma saveChatMessage_error_null (snap : State) (errorMsg : string)
    (forMessageId : option string) :
  saveChatMessage snap (errorOnly errorMsg) forMessageId = None.
Proof.
  unfold saveChatMessage, errorOnly.
  destruct (user snap); [|reflexivity].
  destruct (currentSessionId snap) as [sid|]; [|reflexivity].
  destruct (negb (truthy sid)); [reflexivity|].
  cbn [PartialChatMessage.query PartialChatMessage.response truthyOpt].
  destruct (orElse forMessageId (currentPendingMessageId snap)) as [mid|];
    [destruct (truthy mid)|]; reflexivity.
Qed.

Lemma messageOr_truthy (m fallback : string) :
  truthy fallback = true -> truthy (messageOr m fallback) = true.
Proof. unfold messageOr. destruct (truthy m) eqn:E; [now rewrite E | trivial]. Qed.

Lemma messageOr_same (m fallback : string) : truthy m = true -> messageOr m fallback = m.
Proof. unfold messageOr. now intros ->. Qed.

Lemma handleSearch_linksFetched_failure (snap st : State) (q : string)
    (saved : option MessageRow.t) (o : FetchOutcome FetchedLinksResponse.t) (m : string) :
  thrownMessage "Link fetch failed: " "Link fetch network response was not ok" o = Some m ->
  handleSearch_linksFetched snap q saved o st
  = (handleSearch_failed (orElse (recordId saved) (currentPendingMessageId snap))
       (messageOr m "An unknown error occurred during search.")
       (setCurrentDisplayStage DisplayStage.error
          (setError (Some (messageOr m "An unknown error occurred during search.")) st)),
     None).
Proof.
  intros Hthrown. unfold handleSearch_linksFetched.
  destruct o; try discriminate; rewrite Hthrown, saveChatMessage_error_null;
    destruct (truthyOpt (orElse (recordId saved) (currentPendingMessageId snap)));
    reflexivity.
Qed.

Lemma fetchAiAnalysis_fetched_failure (snap st : State) (forMessageId : option string)
    (o : FetchOutcome AiResponse.t) (m : string) :
  thrownMessage "AI analysis failed: " "AI analysis network response was not ok" o = Some m ->
  fetchAiAnalysis_fetched snap forMessageId o st
  = (fetchAiAnalysis_failed forMessageId
       (messageOr m "An error occurred while fetching AI analysis.")
       (setCurrentDisplayStage DisplayStage.error
          (setError (Some (messageOr m "An error occurred while fetching AI analysis.")) st)),
     None).
Proof.
  intros Hthrown. unfold fetchAiAnalysis_fetched.
  destruct o; try discriminate; rewrite Hthrown, saveChatMessage_error_null; reflexivity.
Qed.

Lemma in_mapWhereId_hit target f (l : list ChatMessage.t) (m : ChatMessage.t) :
  In m l -> strictEq (ChatMessage.id m) target = true -> In (f m) (mapWhereId target f l).
Proof.
  intros Hin Hid. unfold mapWhereId. apply in_map_iff. exists m. now rewrite Hid.
Qed.

Lemma shownError_withError (e : string) (m : ChatMessage.t) :
  truthy e = true -> shownError (withError e m) = Some e.
Proof. intros H. unfold shownError. simpl. now rewrite H. Qed.

Lemma failed_thrown {A} (prefix notOk : string) (o : FetchOutcome A) :
  failed o = true -> exists m, thrownMessage prefix notOk o = Some m.
Proof. destruct o; simpl; try discriminate; intros _; eexists; reflexivity. Qed.

(** C5, refuted as stated.  After the failed link fetch the item of "m1" is
    in stage [error] and shows "upstream timeout", and the marker is cleared;
    but the failure is not persisted: the store still holds the row as it was
    inserted, no store call is in flight, and after the session is loaded
    again the item is [final] and carries no error. *)
Lemma C5_failure_message_not_in_store :
  exists s s',
    execAll upstreamTimeoutRun (start u1) = Some s
    /\ map (fun m => (ChatMessage.id m, ChatMessage.stage m, shownError m))
         (chatHistory (ui s))
       = [(Some "m1", DisplayStage.error, Some "upstream timeout")]
    /\ currentPendingMessageId (ui s) = None
    /\ chat_messages (db s) = [MessageRow.mk "m1" "q1" None "t1" "s1" "u1"]
    /\ inflight s = []
    /\ execAll comeBackRun s = Some s'
    /\ map (fun m => (ChatMessage.id m, ChatMessage.stage m, ChatMessage.error m))
         (chatHistory (ui s'))
       = [(Some "m1", DisplayStage.final, None)].
Proof.
  eexists. eexists. split; [vm_compute; reflexivity|].
  do 4 (split; [reflexivity|]).
  split; [vm_compute; reflexivity | reflexivity].
Qed.

(** C5, as the page behaves.  When the link fetch or the analysis fails
    (the fetch rejects, the status is outside 2xx, or the body of a 2xx
    answer does not parse), the continuation makes no store call at all, sets
    the stage to [error], clears the pending marker, and puts the failure
    message with stage [error] on every history item whose id is the id of
    the saved record, where it is drawn; for a status outside 2xx whose body
    has a non-empty [detail], the message is that [detail] verbatim.  The
    failure is kept in the page state only. *)
Theorem C5_failure_is_local_error :
  forall (snap st : State) (q : string) (saved : option MessageRow.t)
         (forMessageId : option string)
         (ol : FetchOutcome FetchedLinksResponse.t) (oa : FetchOutcome AiResponse.t),
    failed ol = true ->
    failed oa = true ->
    let target := orElse (recordId saved) (currentPendingMessageId snap) in
    let rl := handleSearch_linksFetched snap q saved ol st in
    let ra := fetchAiAnalysis_fetched snap forMessageId oa st in
    exists el ea,
      (forall e t, saveChatMessage snap (errorOnly e) t = None)
      /\ (snd rl = None /\ snd ra = None)
      /\ (currentDisplayStage (fst rl) = DisplayStage.error
          /\ currentPendingMessageId (fst rl) = None
          /\ chatHistory (fst rl) = mapWhereId target (withError el) (chatHistory st))
      /\ (currentDisplayStage (fst ra) = DisplayStage.error
          /\ currentPendingMessageId (fst ra) = None
          /\ chatHistory (fst ra) = mapWhereId forMessageId (withError ea) (chatHistory st))
      /\ (forall m, In m (chatHistory st) ->
            (strictEq (ChatMessage.id m) target = true ->
             In (withError el m) (chatHistory (fst rl))
             /\ ChatMessage.stage (withError el m) = DisplayStage.error
             /\ shownError (withError el m) = Some el)
            /\ (strictEq (ChatMessage.id m) forMessageId = true ->
                In (withError ea m) (chatHistory (fst ra))
                /\ ChatMessage.stage (withError ea m) = DisplayStage.error
                /\ shownError (withError ea m) = Some ea))
      /\ (forall statusText d, truthy d = true ->
            (ol = FetchNotOk statusText (Some (Some d)) -> el = d)
            /\ (oa = FetchNotOk statusText (Some (Some d)) -> ea = d)).
Proof.
  intros snap st q saved forMessageId ol oa Hl Ha target rl ra.
  destruct (failed_thrown "Link fetch failed: "
              "Link fetch network response was not ok" ol Hl) as [ml Hml].
  destruct (failed_thrown "AI analysis failed: "
              "AI analysis network response was not ok" oa Ha) as [ma Hma].
  exists (messageOr ml "An unknown error occurred during search."),
         (messageOr ma "An error occurred while fetching AI analysis.").
  subst rl ra target.
  rewrite (handleSearch_linksFetched_failure snap st q saved ol ml Hml).
  rewrite (fetchAiAnalysis_fetched_failure snap st forMessageId oa ma Hma).
  cbn [fst snd].
  split; [intros e t; apply saveChatMessage_error_null|].
  split; [now split|].
  split; [repeat split|]. split; [repeat split|]. split.
  - intros m Hin. split; intros Hid.
    + split; [|split; [reflexivity|]].
      * unfold handleSearch_failed. cbn [chatHistory setChatHistory setIsLoading
          setCurrentPendingMessageId setCurrentDisplayStage setError].
        now apply in_mapWhereId_hit.
      * apply shownError_withError, messageOr_truthy. reflexivity.
    + split; [|split; [reflexivity|]].
      * unfold fetchAiAnalysis_failed. cbn [chatHistory setChatHistory
          setCurrentPendingMessageId setCurrentDisplayStage setError].
        now apply in_mapWhereId_hit.
      * apply shownError_withError, messageOr_truthy. reflexivity.
  - intros statusText d Hd. split; intros ->.
    + simpl in Hml. rewrite Hd in Hml. injection Hml as <-. now apply messageOr_same.
    + simpl in Hma. rewrite Hd in Hma. injection Hma as <-. now apply messageOr_same.
Qed.

Lemma C5_failure_is_local_error_witness :
  let snap := setCurrentSessionId (Some "s1") (signedIn u1) in
  let saved := Some (MessageRow.mk "m1" "q1" None "t1" "s1" "u1") in
  let st := setChatHistory [initialItem u1 "q1" "s1" "m1" (Some "t1")]
              (setCurrentPendingMessageId (Some "m1") snap) in
  let ol : FetchOutcome FetchedLinksResponse.t :=
    FetchNotOk "Internal Server Error" (Some (Some "upstream timeout")) in
  let oa : FetchOutcome AiResponse.t := FetchRejected "Failed to fetch" in
  failed ol = true /\ failed oa = true
  /\ exists el ea,
       (currentDisplayStage (fst (handleSearch_linksFetched snap "q1" saved ol st))
        = DisplayStage.error
        /\ currentPendingMessageId (fst (handleSearch_linksFetched snap "q1" saved ol st))
           = None
        /\ chatHistory (fst (handleSearch_linksFetched snap "q1" saved ol st))
           = mapWhereId (Some "m1") (withError el) (chatHistory st))
       /\ (forall statusText d, truthy d = true ->
             (ol = FetchNotOk statusText (Some (Some d)) -> el = d)
             /\ (oa = FetchNotOk statusText (Some (Some d)) -> ea = d)).
Proof.
  intros snap saved st ol oa. split; [reflexivity|]. split; [reflexivity|].
  destruct (C5_failure_is_local_error snap st "q1" saved (Some "m1") ol oa
              eq_refl eq_refl) as [el [ea [_ [_ [Hl [_ [_ Hd]]]]]]].
  exists el, ea. split; [exact Hl | exact Hd].
Defined.

(** ** The reveal of the fetched links *)

Section Reveal.

Variable links : FetchedLinksResponse.t.
Variable N : nat.
Hypothesis HN : N = List.length (FetchedLinksResponse.results links).

Lemma revealing_effect (st : State) :
  revealing links st ->
  stageEffect st
  = if (0 <? N)%nat && (currentLinkIndex st <? N - 1)%nat
    then SetTimeout IncrementLinkIndex LINK_DISPLAY_DELAY
    else CallFetchAiAnalysis (currentQuery st) links (currentPendingMessageId st).
Proof.
  intros [Hstage [Hlinks [Hmark [Hauth Hquery]]]].
  unfold stageEffect, stageEffectIdle, advanceStage.
  rewrite Hstage, Hlinks, Hmark, Hauth, Hquery, <- HN. simpl.
  destruct (0 <? N)%nat; [destruct (currentLinkIndex st <? N - 1)%nat|]; reflexivity.
Qed.

Lemma revealing_next (st : State) :
  revealing links st ->
  revealing links (timerFired IncrementLinkIndex st)
  /\ currentLinkIndex (timerFired IncrementLinkIndex st) = S (currentLinkIndex st)
  /\ currentQuery (timerFired IncrementLinkIndex st) = currentQuery st
  /\ currentPendingMessageId (timerFired IncrementLinkIndex st)
     = currentPendingMessageId st
  /\ chatHistory (timerFired IncrementLinkIndex st) = chatHistory st.
Proof.
  intros H. split; [exact H|]. simpl. repeat split. apply Nat.add_1_r.
Qed.

(** From cursor [i] with [k + 1] links left, the reveal draws
    [i, i+1, ..., i+k] and stops on the last link. *)
Lemma reveal_from (k : nat) :
  forall (st : State) (fuel : nat),
    revealing links st ->
    currentLinkIndex st + S k = N ->
    S k <= fuel ->
    fst (reveal fuel st) = seq (currentLinkIndex st) (S k)
    /\ revealing links (snd (reveal fuel st))
    /\ S (currentLinkIndex (snd (reveal fuel st))) = N
    /\ currentQuery (snd (reveal fuel st)) = currentQuery st
    /\ currentPendingMessageId (snd (reveal fuel st)) = currentPendingMessageId st
    /\ chatHistory (snd (reveal fuel st)) = chatHistory st.
Proof.
  induction k as [|k IH]; intros st fuel Hrev Hleft Hfuel;
    (destruct fuel as [|fuel]; [lia|]); cbn [reveal];
    rewrite (revealing_effect st Hrev).
  - replace (currentLinkIndex st <? N - 1)%nat with false
      by (symmetry; apply Nat.ltb_ge; lia).
    rewrite andb_false_r. cbn [fst snd seq].
    split; [reflexivity|]. split; [exact Hrev|]. split; [lia|]. now repeat split.
  - replace (0 <? N)%nat with true by (symmetry; apply Nat.ltb_lt; lia).
    replace (currentLinkIndex st <? N - 1)%nat with true
      by (symmetry; apply Nat.ltb_lt; lia).
    cbn [andb fst snd].
    destruct (revealing_next st Hrev) as [Hrev' [Hcur [Hq [Hp Hh]]]].
    destruct (IH (timerFired IncrementLinkIndex st) fuel Hrev') as
      [Hseq [Hlast [Hend [Hq' [Hp' Hh']]]]]; [lia | lia |].
    rewrite Hseq, Hcur. cbn [seq].
    split; [reflexivity|]. split; [exact Hlast|]. split; [exact Hend|].
    repeat split; congruence.
Qed.

End Reveal.

Lemma handleSearch_begin_cursor (snap : State) u q sid now (st : State) :
  currentLinkIndex (fst (handleSearch_begin snap u q sid now st)) = 0
  /\ currentQuery (fst (handleSearch_begin snap u q sid now st)) = q
  /\ currentDisplayStage (fst (handleSearch_begin snap u q sid now st))
     = DisplayStage.fetchingLinks.
Proof.
  unfold handleSearch_begin. destruct (saveChatMessage _ _ _); [now repeat split|].
  unfold handleSearch_saved. now repeat split.
Qed.

Lemma handleSearch_saved_cursor (snap : State) u q sid saved now (st : State) :
  currentLinkIndex (fst (handleSearch_saved snap u q sid saved now st)) = currentLinkIndex st
  /\ currentQuery (fst (handleSearch_saved snap u q sid saved now st)) = currentQuery st.
Proof.
  unfold handleSearch_saved.
  destruct saved as [r|]; [destruct (truthy (MessageRow.id r))|]; now split.
Qed.

(** C4, refuted as stated.  When the insert of the pending message has
    failed, a link-fetch response with two results puts the page in
    [gatheringLinks] with the cursor on the first link and no pending marker;
    the stage effect then sets no timer, no call is in flight and no timer
    can fire: one link of two is drawn and the analysis fetch is never
    reached. *)
Lemma C4_reveal_stuck_without_marker :
  exists s,
    execAll (failedInsertRun ++ [Resolve 0 (LinksOutcome (FetchOk twoLinks))]) (start u1)
    = Some s
    /\ currentDisplayStage (ui s) = DisplayStage.gatheringLinks
    /\ fetchedLinksData (ui s) = Some twoLinks
    /\ currentPendingMessageId (ui s) = None
    /\ stageEffect (ui s) = NoAction
    /\ inflight s = []
    /\ exec TimerFires s = None
    /\ (forall fuel, reveal (S fuel) (ui s) = ([0], ui s)).
Proof.
  eexists. split; [vm_compute; reflexivity|].
  do 6 (split; [reflexivity|]). intros fuel. reflexivity.
Qed.

(** ** Switching the session while a query is in flight *)

(** C2, refuted as stated.  The analysis of "q1" that arrives after the
    switch to "s2" is not discarded: with "s2" active and idle, it fills the
    analysis buffer and moves the stage to [subquestions]; and when "q2" is
    pending in "s2" at that moment, the thinking display is drawn under the
    item of "q2" with the answer of "q1" as its data. *)
Lemma C2_late_answer_is_applied :
  exists s sA sB,
    execAll switchDuringAnalysisRun (start u1) = Some s
    /\ (currentSessionId (ui s) = Some "s2"
        /\ currentDisplayStage (ui s) = DisplayStage.idle
        /\ aiAnalysisData (ui s) = None
        /\ map (fun c => match snd c with AwaitAiFetch _ mid => mid | _ => None end)
             (inflight s) = [Some "m1"])
    /\ execAll [Resolve 0 (AiOutcome (FetchOk answerOfQ1))] s = Some sA
    /\ (currentSessionId (ui sA) = Some "s2"
        /\ currentDisplayStage (ui sA) = DisplayStage.subquestions
        /\ aiAnalysisData (ui sA) = Some answerOfQ1)
    /\ execAll (submitInOtherSessionRun ++ [Resolve 0 (AiOutcome (FetchOk answerOfQ1))]) s
       = Some sB
    /\ (currentSessionId (ui sB) = Some "s2"
        /\ currentPendingMessageId (ui sB) = Some "m2"
        /\ map (fun m => (ChatMessage.id m, ChatMessage.query m, showsThinking (ui sB) m))
             (chatHistory (ui sB)) = [(Some "m2", "q2", true)]
        /\ currentDisplayStage (ui sB) = DisplayStage.subquestions
        /\ aiAnalysisData (ui sB) = Some answerOfQ1).
Proof.
  eexists. eexists. eexists.
  split; [vm_compute; reflexivity|]. split; [repeat split|].
  split; [vm_compute; reflexivity|]. split; [repeat split|].
  split; [vm_compute; reflexivity|]. repeat split.
Qed.

Lemma showsThinking_no_marker (st : State) (m : ChatMessage.t) :
  currentPendingMessageId st = None -> showsThinking st m = false.
Proof. unfold showsThinking. intros ->. now rewrite strictEq_null. Qed.

Lemma late_links (snap st : State) q saved o :
  currentPendingMessageId st = None ->
  (forall m, In m (chatHistory st) ->
     strictEq (ChatMessage.id m) (orElse (recordId saved) (currentPendingMessageId snap))
     = false) ->
  leavesAlone st (fst (handleSearch_linksFetched snap q saved o st))
  /\ forall req t', snd (handleSearch_linksFetched snap q saved o st) = Some (req, t') ->
       completes t' = true
       /\ taskMessage t' = orElse (recordId saved) (currentPendingMessageId snap)
       /\ exists endpoint search_results, req = PostAiAnalysis endpoint q search_results.
Proof.
  intros Hmark Hids. destruct (failed o) eqn:Hf.
  - destruct (failed_thrown "Link fetch failed: "
                "Link fetch network response was not ok" o Hf) as [m Hm].
    rewrite (handleSearch_linksFetched_failure snap st q saved o m Hm).
    unfold leavesAlone, handleSearch_failed. cbn. rewrite mapWhereId_none by exact Hids.
    split; [now repeat split | discriminate].
  - destruct o as [| | |links]; try discriminate.
    unfold handleSearch_linksFetched.
    destruct (0 <? List.length (FetchedLinksResponse.results links))%nat;
      unfold leavesAlone; cbn; rewrite mapWhereId_none by exact Hids.
    + split; [now repeat split | discriminate].
    + split; [now repeat split|]. intros req t' [= <- <-].
      split; [reflexivity|]. split; [reflexivity|]. eexists. eexists. reflexivity.
Qed.

(** With a non-empty [forMessageId] the only call [saveChatMessage] makes for
    a response is the update of the row with that id. *)
Lemma saveChatMessage_response_for (snap : State) (r : AiResponse.t) (mid : option string)
    (req : Request) :
  truthyOpt mid = true ->
  saveChatMessage snap (responseOnly r) mid = Some req ->
  exists id, mid = Some id /\ req = UpdateMessage id r.
Proof.
  intros Hmid. destruct (truthyOpt_true _ Hmid) as [id [-> Hid]].
  unfold saveChatMessage, responseOnly.
  destruct (user snap); [|discriminate].
  destruct (currentSessionId snap) as [sid|]; [|discriminate].
  destruct (negb (truthy sid)); [discriminate|].
  unfold orElse. cbn. rewrite Hid. cbn. rewrite Hid.
  intros [= <-]. exists id. split; reflexivity.
Qed.

Lemma late_analysis (snap st : State) mid o :
  currentPendingMessageId st = None ->
  (forall m, In m (chatHistory st) -> strictEq (ChatMessage.id m) mid = false) ->
  leavesAlone st (fst (fetchAiAnalysis_fetched snap mid o st))
  /\ forall req t', snd (fetchAiAnalysis_fetched snap mid o st) = Some (req, t') ->
       completes t' = true /\ taskMessage t' = mid
       /\ (truthyOpt mid = true -> exists id r, mid = Some id /\ req = UpdateMessage id r).
Proof.
  intros Hmark Hids. destruct (failed o) eqn:Hf.
  - destruct (failed_thrown "AI analysis failed: "
                "AI analysis network response was not ok" o Hf) as [m Hm].
    rewrite (fetchAiAnalysis_fetched_failure snap st mid o m Hm).
    unfold leavesAlone, fetchAiAnalysis_failed. cbn. rewrite mapWhereId_none by exact Hids.
    split; [now repeat split | discriminate].
  - destruct o as [| | |resp]; try discriminate.
    unfold fetchAiAnalysis_fetched.
    destruct (saveChatMessage snap (responseOnly resp) mid) as [req|] eqn:Hsave;
      unfold leavesAlone, fetchAiAnalysis_saved; cbn.
    + split; [now repeat split|]. intros req' t' [= <- <-].
      split; [reflexivity|]. split; [reflexivity|]. intros Hmid.
      destruct (saveChatMessage_response_for snap resp mid req Hmid Hsave) as [id [E1 E2]].
      exists id, resp. split; assumption.
    + rewrite mapWhereId_none by exact Hids. split; [now repeat split | discriminate].
Qed.

Lemma handleSelectChat_reset (snap st : State) (sessionId : string) (u : User.t) :
  user snap = Some u ->
  currentSessionId snap <> Some sessionId ->
  let st1 := fst (handleSelectChat snap sessionId st) in
  currentSessionId st1 = Some sessionId
  /\ currentPendingMessageId st1 = None
  /\ currentDisplayStage st1 = DisplayStage.idle
  /\ aiAnalysisData st1 = None
  /\ fetchedLinksData st1 = None
  /\ chatHistory st1 = []
  /\ stageEffect st1 = NoAction.
Proof.
  intros Hu Hother. unfold handleSelectChat.
  rewrite Hu, (strictEq_other _ _ Hother). cbn [fst].
  repeat split.
Qed.

(** C2, as the page behaves.  Selecting another session clears the pending
    marker, the stage and the link and analysis buffers, and with the marker
    cleared the stage effect sets no timer.  A completion of the earlier
    query that arrives afterwards (link-fetch outcome, analysis outcome, or
    the end of one of their saves) is not detected as stale, but what it
    writes is limited: as long as no history item of the selected session
    carries the id of the earlier message, it leaves the active session, the
    session list, the history and the cleared marker as they are, so no timer
    is set and no thinking display is drawn.  When the earlier message was
    saved (its id is not empty), a call the completion issues is for that
    message: the update of the stored row of that id with the analysis, or
    the analysis post for the earlier query, and its continuation looks for
    the same id. *)
Theorem C2_late_completion_keeps_other_session :
  forall (t : Task) (a : Answer) (now : nat) (st st' : State)
         (call : option (Request * Task)),
    completes t = true ->
    resume t a now st = Some (st', call) ->
    currentPendingMessageId st = None ->
    (forall m, In m (chatHistory st) ->
       strictEq (ChatMessage.id m) (taskMessage t) = false) ->
    (forall snap sessionId st0 u,
        user snap = Some u ->
        currentSessionId snap <> Some sessionId ->
        currentPendingMessageId (fst (handleSelectChat snap sessionId st0)) = None
        /\ currentDisplayStage (fst (handleSelectChat snap sessionId st0))
           = DisplayStage.idle
        /\ aiAnalysisData (fst (handleSelectChat snap sessionId st0)) = None
        /\ fetchedLinksData (fst (handleSelectChat snap sessionId st0)) = None
        /\ stageEffect (fst (handleSelectChat snap sessionId st0)) = NoAction)
    /\ currentSessionId st' = currentSessionId st
    /\ chatSessionsList st' = chatSessionsList st
    /\ chatHistory st' = chatHistory st
    /\ currentPendingMessageId st' = None
    /\ stageEffect st' = NoAction
    /\ (forall m, showsThinking st' m = false)
    /\ (forall req t', call = Some (req, t') ->
          completes t' = true /\ taskMessage t' = taskMessage t)
    /\ (truthyOpt (taskMessage t) = true ->
        forall req t', call = Some (req, t') ->
          match req with
          | UpdateMessage id _ => taskMessage t = Some id
          | PostAiAnalysis _ original_query _ => taskQuery t = Some original_query
          | _ => False
          end).
Proof.
  intros t a now st st' call Hlate Hres Hmark Hids.
  split.
  { intros snap sessionId st0 u Hu Hother.
    destruct (handleSelectChat_reset snap st0 sessionId u Hu Hother)
      as [_ [H1 [H2 [H3 [H4 [_ H5]]]]]]. now repeat split. }
  assert (H : leavesAlone st st'
              /\ (forall req t', call = Some (req, t') ->
                    completes t' = true /\ taskMessage t' = taskMessage t)
              /\ (truthyOpt (taskMessage t) = true ->
                  forall req t', call = Some (req, t') ->
                    match req with
                    | UpdateMessage id _ => taskMessage t = Some id
                    | PostAiAnalysis _ original_query _ => taskQuery t = Some original_query
                    | _ => False
                    end)).
  { destruct t; try discriminate; destruct a; try discriminate;
      cbn [resume] in Hres; injection Hres as Hres; cbn [taskMessage taskQuery] in *.
    - destruct (late_links snap st searchQuery savedQueryRecord o Hmark Hids) as [H1 H2].
      rewrite Hres in H1, H2. cbn [fst snd] in H1, H2.
      split; [exact H1|]. split.
      + intros req t' E. destruct (H2 req t' E) as [K1 [K2 _]]. now split.
      + intros _ req t' E. destruct (H2 req t' E) as [_ [_ [ep [sr ->]]]]. reflexivity.
    - destruct (late_analysis snap st forMessageId o Hmark Hids) as [H1 H2].
      rewrite Hres in H1, H2. cbn [fst snd] in H1, H2.
      split; [exact H1|]. split.
      + intros req t' E. destruct (H2 req t' E) as [K1 [K2 _]]. now split.
      + intros Hmid req t' E. destruct (H2 req t' E) as [_ [_ K]].
        destruct (K Hmid) as [id [r [-> ->]]]. reflexivity.
    - subst st' call. unfold leavesAlone, fetchAiAnalysis_saved. simpl.
      rewrite mapWhereId_none by exact Hids.
      split; [now repeat split|]. split; [discriminate | intros _; discriminate].
    - subst st' call. unfold leavesAlone, fetchAiAnalysis_failed. simpl.
      rewrite mapWhereId_none by exact Hids.
      split; [now repeat split|]. split; [discriminate | intros _; discriminate].
    - subst st' call. unfold leavesAlone, handleSearch_failed. simpl.
      rewrite mapWhereId_none by exact Hids.
      split; [now repeat split|]. split; [discriminate | intros _; discriminate]. }
  destruct H as [[Hs [Hl [Hh Hp]]] [Hcalls Hreq]].
  split; [exact Hs|]. split; [exact Hl|]. split; [exact Hh|]. split; [exact Hp|].
  split; [apply stageEffect_no_marker; now rewrite Hp|].
  split; [intros m; now apply showsThinking_no_marker|].
  split; [exact Hcalls | exact Hreq].
Qed.

Lemma C2_late_completion_keeps_other_session_witness :
  let snap := setCurrentPendingMessageId (Some "m1")
                (setCurrentSessionId (Some "s1") (signedIn u1)) in
  let st := setChatHistory
              [loadedMessage (MessageRow.mk "m0" "old" (Some answerOfQ1) "t0" "s2" "u1")]
              (setCurrentSessionId (Some "s2") (signedIn u1)) in
  exists st' call,
    resume (AwaitAiFetch snap (Some "m1")) (AiAnswer (FetchOk answerOfQ1)) 0 st
    = Some (st', call)
    /\ currentSessionId st' = Some "s2"
    /\ chatHistory st' = chatHistory st
    /\ currentPendingMessageId st' = None
    /\ aiAnalysisData st' = Some answerOfQ1
    /\ (forall m, showsThinking st' m = false)
    /\ call = Some (UpdateMessage "m1" answerOfQ1, AwaitAiSave (Some "m1") answerOfQ1).
Proof.
  intros snap st. eexists. eexists. split; [reflexivity|].
  assert (Hids : forall m, In m (chatHistory st) ->
                   strictEq (ChatMessage.id m)
                     (taskMessage (AwaitAiFetch snap (Some "m1"))) = false).
  { intros m [<- | []]. reflexivity. }
  destruct (C2_late_completion_keeps_other_session
              (AwaitAiFetch snap (Some "m1")) (AiAnswer (FetchOk answerOfQ1)) 0 st
              _ _ eq_refl eq_refl eq_refl Hids)
    as [_ [Hs [_ [Hh [Hp [_ [Hshow _]]]]]]].
  split; [exact Hs|]. split; [exact Hh|]. split; [exact Hp|].
  split; [reflexivity|]. split; [exact Hshow | reflexivity].
Defined.

(** ** The pending marker *)

(** C1, refuted as stated.  After the second Submit two history items of the
    same session are in a non-terminal stage at once; and when the second
    query has reached [final], with the marker cleared, nothing in flight and
    no timer set, the item of the first query is still in [gatheringLinks]. *)
Lemma C1_two_pending_and_one_left_behind :
  exists s s',
    execAll submitDuringRevealRun (start u1) = Some s
    /\ map (fun m => (ChatMessage.id m, ChatMessage.session_id m, ChatMessage.stage m))
         (pendingItems (ui s))
       = [(Some "m1", Some "s1", DisplayStage.gatheringLinks);
          (Some "m2", Some "s1", DisplayStage.fetchingLinks)]
    /\ currentPendingMessageId (ui s) = Some "m2"
    /\ execAll secondQueryToEndRun s = Some s'
    /\ currentDisplayStage (ui s') = DisplayStage.final
    /\ currentPendingMessageId (ui s') = None
    /\ inflight s' = []
    /\ stageEffect (ui s') = NoAction
    /\ map (fun m => (ChatMessage.id m, ChatMessage.stage m)) (chatHistory (ui s'))
       = [(Some "m1", DisplayStage.gatheringLinks); (Some "m2", DisplayStage.final)].
Proof.
  eexists. eexists. split; [vm_compute; reflexivity|].
  split; [reflexivity|]. split; [reflexivity|].
  split; [vm_compute; reflexivity|]. repeat split.
Qed.

(** *** Orderly executions *)

Lemma strictEq_false_iff (a : option string) (p : string) :
  strictEq a (Some p) = false <-> a <> Some p.
Proof.
  destruct a as [x|]; simpl.
  - rewrite String.eqb_neq. split; congruence.
  - split; [discriminate | reflexivity].
Qed.

Lemma strictEq_id (m : ChatMessage.t) (p : string) :
  ChatMessage.id m = Some p -> strictEq (ChatMessage.id m) (Some p) = true.
Proof. intros ->. apply strictEq_same. Qed.

(** On a well-marked history, an update by the marker's id touches the last
    item only. *)
Lemma mapWhereId_marked (p : string) f (pre : list ChatMessage.t) (m : ChatMessage.t) :
  ChatMessage.id m = Some p ->
  Forall (fun x => itemTerminal x /\ ChatMessage.id x <> Some p) pre ->
  mapWhereId (Some p) f (pre ++ [m]) = pre ++ [f m].
Proof.
  intros Hm Hpre. unfold mapWhereId. rewrite map_app. simpl.
  rewrite (strictEq_id m p Hm). f_equal.
  induction Hpre as [|x pre [_ Hx] _ IH]; simpl; [reflexivity|].
  apply strictEq_false_iff in Hx. now rewrite Hx, IH.
Qed.

Lemma wellMarked_same (st st' : State) :
  chatHistory st' = chatHistory st ->
  currentPendingMessageId st' = currentPendingMessageId st ->
  wellMarked st -> wellMarked st'.
Proof. unfold wellMarked. now intros -> ->. Qed.

(** An update that keeps the id and the stage of the items keeps the
    agreement, whatever id it looks for. *)
Lemma wellMarked_map (st st' : State) (target : option string) f :
  (forall m, ChatMessage.id (f m) = ChatMessage.id m
             /\ ChatMessage.stage (f m) = ChatMessage.stage m) ->
  chatHistory st' = mapWhereId target f (chatHistory st) ->
  currentPendingMessageId st' = currentPendingMessageId st ->
  wellMarked st -> wellMarked st'.
Proof.
  intros Hf Hh Hp. unfold wellMarked. rewrite Hh, Hp.
  assert (Hkeep : forall x,
            ChatMessage.id (if strictEq (ChatMessage.id x) target then f x else x)
            = ChatMessage.id x
            /\ ChatMessage.stage (if strictEq (ChatMessage.id x) target then f x else x)
               = ChatMessage.stage x).
  { intros x. destruct (strictEq (ChatMessage.id x) target); [apply Hf | now split]. }
  destruct (currentPendingMessageId st) as [p|].
  - intros [pre [m [-> [Hm [Hopen Hpre]]]]].
    exists (mapWhereId target f pre),
           (if strictEq (ChatMessage.id m) target then f m else m).
    split; [unfold mapWhereId; now rewrite map_app|].
    split; [now rewrite (proj1 (Hkeep m))|].
    split; [now rewrite (proj2 (Hkeep m))|].
    unfold mapWhereId. apply Forall_map. revert Hpre. apply Forall_impl.
    intros x [Hx1 Hx2]. unfold itemTerminal.
    destruct (Hkeep x) as [-> ->]. now split.
  - intros H. unfold mapWhereId. apply Forall_map. revert H. apply Forall_impl.
    intros x Hx. unfold itemTerminal. now rewrite (proj2 (Hkeep x)).
Qed.

(** An update by the marker's id that keeps the id of the item and puts it
    in a non-terminal stage keeps the agreement. *)
Lemma wellMarked_update (st st' : State) f :
  (forall m, ChatMessage.id (f m) = ChatMessage.id m
             /\ DisplayStage.terminal (ChatMessage.stage (f m)) = false) ->
  chatHistory st' = mapWhereId (currentPendingMessageId st) f (chatHistory st) ->
  currentPendingMessageId st' = currentPendingMessageId st ->
  wellMarked st -> wellMarked st'.
Proof.
  intros Hf Hh Hp. unfold wellMarked. rewrite Hh, Hp.
  destruct (currentPendingMessageId st) as [p|].
  - intros [pre [m [-> [Hm [_ Hpre]]]]]. rewrite (mapWhereId_marked p f pre m Hm Hpre).
    exists pre, (f m). split; [reflexivity|].
    split; [now rewrite (proj1 (Hf m))|]. split; [apply Hf | exact Hpre].
  - now rewrite mapWhereId_null.
Qed.

(** An update by the marker's id that makes the item terminal, together
    with the clearing of the marker, leaves every item terminal. *)
Lemma wellMarked_closed (st st' : State) f :
  (forall m, itemTerminal (f m)) ->
  chatHistory st' = mapWhereId (currentPendingMessageId st) f (chatHistory st) ->
  currentPendingMessageId st' = None ->
  wellMarked st -> wellMarked st'.
Proof.
  intros Hf Hh Hp. unfold wellMarked. rewrite Hh, Hp.
  destruct (currentPendingMessageId st) as [p|].
  - intros [pre [m [-> [Hm [_ Hpre]]]]]. rewrite (mapWhereId_marked p f pre m Hm Hpre).
    apply Forall_app. split.
    + revert Hpre. apply Forall_impl. now intros x [Hx _].
    + constructor; [apply Hf | constructor].
  - now rewrite mapWhereId_null.
Qed.

(** With a marker exactly one item is in a non-terminal stage, the marked
    one; without a marker none is. *)
Lemma wellMarked_pendingItems (st : State) :
  wellMarked st ->
  match currentPendingMessageId st with
  | Some p => exists m, pendingItems st = [m] /\ ChatMessage.id m = Some p
  | None => pendingItems st = []
  end.
Proof.
  unfold wellMarked, pendingItems.
  assert (Hnone : forall l, Forall itemTerminal l ->
            filter (fun m => negb (DisplayStage.terminal (ChatMessage.stage m))) l = []).
  { induction 1 as [|x l Hx _ IH]; simpl; [reflexivity|].
    unfold itemTerminal in Hx. now rewrite Hx. }
  destruct (currentPendingMessageId st) as [p|].
  - intros [pre [m [-> [Hm [Hopen Hpre]]]]]. rewrite filter_app, Hnone.
    + simpl. rewrite Hopen. simpl. now exists m.
    + revert Hpre. apply Forall_impl. now intros x [Hx _].
  - apply Hnone.
Qed.

Lemma stageEffect_call (st : State) q l mid :
  stageEffect st = CallFetchAiAnalysis q l mid ->
  mid = currentPendingMessageId st
  /\ currentDisplayStage st = DisplayStage.gatheringLinks
  /\ truthyOpt (currentPendingMessageId st) = true.
Proof.
  unfold stageEffect, stageEffectIdle, advanceStage.
  destruct (truthyOpt (currentPendingMessageId st)); [|discriminate].
  destruct (isLoadingAuth st); [discriminate|].
  destruct (currentDisplayStage st); simpl; try discriminate;
    try (destruct (aiAnalysisData st); discriminate).
  destruct (fetchedLinksData st) as [links|]; [|discriminate].
  destruct (0 <? _)%nat; [destruct (_ <? _)%nat; [discriminate|]|];
    (destruct (truthy (currentQuery st)); [|discriminate]);
    intros [= _ _ <-]; now repeat split.
Qed.

Lemma stageEffect_timer (st : State) cb d :
  stageEffect st = SetTimeout cb d ->
  match cb with
  | IncrementLinkIndex => True
  | AdvanceTo s => s <> DisplayStage.gatheringLinks
  | Finalize p => p = currentPendingMessageId st
  end.
Proof.
  unfold stageEffect, stageEffectIdle, advanceStage.
  destruct (truthyOpt (currentPendingMessageId st)); [|discriminate].
  destruct (isLoadingAuth st); [discriminate|].
  destruct (currentDisplayStage st); simpl; try discriminate.
  - destruct (fetchedLinksData st) as [links|]; [|discriminate].
    destruct (0 <? _)%nat; [destruct (_ <? _)%nat|];
      try (destruct (truthy (currentQuery st)); discriminate).
    now intros [= <- _].
  - destruct (aiAnalysisData st); [|discriminate]. intros [= <- _]. discriminate.
  - destruct (aiAnalysisData st); [|discriminate]. intros [= <- _]. discriminate.
  - destruct (aiAnalysisData st); [|discriminate]. now intros [= <- _].
Qed.

(** While a call is in flight the stage effect never makes a call itself. *)
Lemma callOk_no_call (c : Request * Task) (st : State) :
  callOk c st ->
  currentDisplayStage st = DisplayStage.gatheringLinks ->
  truthyOpt (currentPendingMessageId st) = true ->
  False.
Proof.
  intros Hok Hstage Hmark. destruct c as [req t].
  destruct req, t; simpl in Hok; try contradiction;
    try (rewrite Hok in Hmark; discriminate);
    try (destruct Hok as [Hp _]; rewrite Hp in Hmark; discriminate);
    try (destruct Hok as [_ Hs]; rewrite Hs in Hstage; discriminate);
    now apply Hok.
Qed.

(** The render after a handler keeps the agreement of marker and history,
    and at most one call in flight. *)
Lemma commit_orderly (s : Sys) (d : Store) (calls : list (Request * Task)) (o : Outcome) :
  wellMarked (fst o) ->
  flightOk (addCall (snd o) calls) (fst o) ->
  wellMarked (ui (commit s d calls o))
  /\ flightOk (inflight (commit s d calls o)) (ui (commit s d calls o)).
Proof.
  intros Hwm Hfl. unfold commit, afterRender.
  destruct (stageEffect (fst o)) as [|cb delay|q l mid] eqn:E; cbn [ui inflight];
    try (now split).
  destruct (stageEffect_call _ _ _ _ E) as [Hmid [Hstage Hmark]].
  unfold fetchAiAnalysis. cbn [ui inflight]. split.
  - revert Hwm. now apply wellMarked_same.
  - destruct (addCall (snd o) calls) as [|c [|c' rest]]; simpl in Hfl.
    + simpl. now split.
    + exfalso. exact (callOk_no_call c (fst o) Hfl Hstage Hmark).
    + contradiction.
Qed.

Lemma handleSearch_begin_savable (snap : State) u q sid now (st : State) :
  savable snap q ->
  exists st1 sid' uid,
    handleSearch_begin snap u q sid now st
    = (st1, Some (InsertMessage sid' uid q None, AwaitSearchSave snap u q sid))
    /\ chatHistory st1 = chatHistory st
    /\ currentPendingMessageId st1 = currentPendingMessageId st
    /\ currentDisplayStage st1 = DisplayStage.fetchingLinks.
Proof.
  intros [[u' Hu] [Hsid Hq]].
  destruct (truthyOpt_true _ Hsid) as [sid' [Hs Ht]].
  unfold handleSearch_begin, saveChatMessage, initialMessageData.
  rewrite Hu, Hs, Ht. cbn [negb PartialChatMessage.query PartialChatMessage.response
                            truthyOpt].
  rewrite Hq.
  destruct (orElse None (currentPendingMessageId snap)); eexists; eexists; eexists;
    (split; [reflexivity | now repeat split]).
Qed.

Lemma freshId_spec (newId : string) (st : State) :
  freshId newId st = true ->
  Forall (fun x => ChatMessage.id x <> Some newId) (chatHistory st).
Proof.
  unfold freshId. rewrite forallb_forall. intros H. apply Forall_forall.
  intros x Hx. apply strictEq_false_iff. specialize (H x Hx).
  now apply negb_true_iff in H.
Qed.

(** A Submit made with no marker and an active session. *)
Lemma handleSubmit_orderly (st : State) (q : string) (now : nat) (u : User.t) :
  user st = Some u ->
  currentPendingMessageId st = None ->
  truthyOpt (currentSessionId st) = true ->
  wellMarked st ->
  wellMarked (fst (handleSubmit st q now st))
  /\ flightOk (addCall (snd (handleSubmit st q now st)) []) (fst (handleSubmit st q now st)).
Proof.
  intros Hu Hmark Hsess Hwm. unfold handleSubmit.
  destruct (truthy (trim q)) eqn:Hq; [|now split].
  unfold handleSearch. rewrite Hu.
  destruct (truthy (trim (trim q))); cbn [negb];
    [|split; [revert Hwm; now apply wellMarked_same | exact I]].
  destruct (truthyOpt_true _ Hsess) as [sid [Hs Ht]]. rewrite Hs, Ht.
  assert (Hsav : savable st (trim q)).
  { split; [now exists u|]. now split. }
  destruct (needsRename st sid).
  - cbn [fst snd addCall app flightOk callOk].
    split; [exact Hwm | split; [exact Hmark | exact Hsav]].
  - destruct (handleSearch_begin_savable st u (trim q) sid now st Hsav)
      as [st1 [sid' [uid [-> [Hh [Hp Hstage]]]]]].
    cbn [fst snd addCall app flightOk callOk]. split.
    + revert Hwm. now apply wellMarked_same.
    + split; congruence.
Qed.

Lemma withResponse_keeps r (m : ChatMessage.t) :
  ChatMessage.id (withResponse r m) = ChatMessage.id m
  /\ ChatMessage.stage (withResponse r m) = ChatMessage.stage m.
Proof. now split. Qed.

(** The continuation of the one call in flight. *)
Lemma resume_orderly (req : Request) (task : Task) (a : Answer) (now : nat)
    (st : State) (o : Outcome) :
  wellMarked st ->
  callOk (req, task) st ->
  resume task a now st = Some o ->
  (forall snap u q sid, task = AwaitSearchSave snap u q sid ->
     exists row, a = MessageAnswer (Some row)
                 /\ truthy (MessageRow.id row) = true
                 /\ freshId (MessageRow.id row) st = true) ->
  wellMarked (fst o) /\ flightOk (addCall (snd o) []) (fst o).
Proof.
  intros Hwm Hok Hres Hsave.
  destruct task as [ | | snap u q | snap u q sid | snap u q sid | snap q saved
                   | snap mid | mid r | mid e | tgt e];
    destruct a as [sa | ma | msa | lo | ao]; try discriminate; cbn [resume] in Hres;
    injection Hres as <-.
  - (* new chat inserted *)
    split; [|exact I]. destruct sa as [data|]; revert Hwm; now apply wellMarked_same.
  - (* messages loaded *)
    assert (Hmark : currentPendingMessageId st = None) by (destruct req; exact Hok).
    split; [|exact I].
    destruct msa as [data|]; [|revert Hwm; now apply wellMarked_same].
    unfold wellMarked. cbn. rewrite Hmark. apply Forall_map, Forall_forall.
    intros row _. reflexivity.
  - (* session created for the search *)
    destruct req; simpl in Hok; contradiction.
  - (* session renamed *)
    assert (Hok' : currentPendingMessageId st = None /\ savable snap q)
      by (destruct req; exact Hok).
    destruct Hok' as [Hmark Hsav]. unfold handleSearch_renamed.
    match goal with
    | |- context [handleSearch_begin snap u q sid now ?s] =>
        destruct (handleSearch_begin_savable snap u q sid now s Hsav)
          as [st1 [sid' [uid [-> [Hh [Hp Hstage]]]]]]
    end.
    cbn [fst snd addCall app flightOk callOk]. split.
    + apply (wellMarked_same st); [| |exact Hwm].
      * rewrite Hh. now destruct sa.
      * rewrite Hp. now destruct sa.
    + split; [|exact Hstage]. rewrite Hp. now destruct sa.
  - (* pending message saved *)
    destruct (Hsave _ _ _ _ eq_refl) as [row [[= ->] [Hid Hfresh]]].
    assert (Hok' : currentPendingMessageId st = None
                   /\ currentDisplayStage st = DisplayStage.fetchingLinks)
      by (destruct req; simpl in Hok; try contradiction; exact Hok).
    destruct Hok' as [Hmark Hstage].
    unfold handleSearch_saved. rewrite Hid.
    cbn [fst snd addCall app flightOk callOk recordId option_map].
    split.
    + unfold wellMarked. cbn.
      exists (chatHistory st), (initialItem u q sid
                                  (MessageRow.id row) (Some (MessageRow.created_at row))).
      split; [reflexivity|]. split; [reflexivity|]. split; [reflexivity|].
      unfold wellMarked in Hwm. rewrite Hmark in Hwm.
      pose proof (freshId_spec _ _ Hfresh) as Hf.
      apply Forall_forall. intros x Hx.
      rewrite Forall_forall in Hwm, Hf. split; [now apply Hwm | now apply Hf].
    + split; [|exact Hstage]. unfold orElse. cbn [truthyOpt]. now rewrite Hid.
  - (* links fetched *)
    assert (Hok' : orElse (recordId saved) (currentPendingMessageId snap)
                   = currentPendingMessageId st
                   /\ currentDisplayStage st = DisplayStage.fetchingLinks)
      by (destruct req; exact Hok).
    destruct Hok' as [Htarget Hstage].
    destruct (failed lo) eqn:Hf.
    + destruct (failed_thrown "Link fetch failed: "
                  "Link fetch network response was not ok" lo Hf) as [m Hm].
      rewrite (handleSearch_linksFetched_failure snap st q _ lo m Hm).
      cbn [fst snd addCall flightOk]. split; [|exact I].
      apply (wellMarked_closed st _ (withError (messageOr m
               "An unknown error occurred during search."))); try reflexivity; [|exact Hwm].
      unfold handleSearch_failed. cbn. now rewrite Htarget.
    + destruct lo as [| | |links]; try discriminate.
      unfold handleSearch_linksFetched.
      destruct (0 <? List.length (FetchedLinksResponse.results links))%nat.
      * cbn [fst snd addCall flightOk]. split; [|exact I].
        apply (wellMarked_update st _
                 (withFetchedLinks links DisplayStage.gatheringLinks));
          [intros m; now split | rewrite <- Htarget; reflexivity | reflexivity
          | exact Hwm].
      * unfold fetchAiAnalysis. cbn [fst snd addCall app flightOk callOk]. split.
        -- apply (wellMarked_update st _
                    (withFetchedLinks links DisplayStage.fetchingAiAnalysis));
             [intros m; now split | rewrite <- Htarget; reflexivity | reflexivity
             | exact Hwm].
        -- now split.
  - (* analysis fetched *)
    assert (Hok' : mid = currentPendingMessageId st
                   /\ currentDisplayStage st = DisplayStage.fetchingAiAnalysis)
      by (destruct req; exact Hok).
    destruct Hok' as [Htarget Hstage].
    destruct (failed ao) eqn:Hf.
    + destruct (failed_thrown "AI analysis failed: "
                  "AI analysis network response was not ok" ao Hf) as [m Hm].
      rewrite (fetchAiAnalysis_fetched_failure snap st mid ao m Hm).
      cbn [fst snd addCall flightOk]. split; [|exact I].
      apply (wellMarked_closed st _ (withError (messageOr m
               "An error occurred while fetching AI analysis."))); try reflexivity;
        [|exact Hwm].
      unfold fetchAiAnalysis_failed. cbn. now rewrite Htarget.
    + destruct ao as [| | |resp]; try discriminate.
      unfold fetchAiAnalysis_fetched.
      destruct (saveChatMessage snap (responseOnly resp) mid) as [req'|].
      * cbn [fst snd addCall app flightOk callOk]. split.
        -- revert Hwm. now apply wellMarked_same.
        -- destruct req'; discriminate.
      * cbn [fst snd addCall flightOk]. split; [|exact I].
        eapply (wellMarked_map st _ _ _); [| | |exact Hwm]; [|reflexivity|reflexivity].
        apply withResponse_keeps.
  - (* analysis saved *)
    cbn [fst snd addCall flightOk]. split; [|exact I].
    eapply (wellMarked_map st _ _ _); [| | |exact Hwm]; [|reflexivity|reflexivity].
    apply withResponse_keeps.
  - destruct req; simpl in Hok; contradiction.
  - destruct req; simpl in Hok; contradiction.
Qed.

Lemma stageEffect_active (st : State) cb d :
  stageEffect st = SetTimeout cb d ->
  truthyOpt (currentPendingMessageId st) = true
  /\ currentDisplayStage st <> DisplayStage.fetchingLinks
  /\ currentDisplayStage st <> DisplayStage.fetchingAiAnalysis.
Proof.
  unfold stageEffect, stageEffectIdle.
  destruct (truthyOpt (currentPendingMessageId st)); [|discriminate].
  destruct (isLoadingAuth st); [discriminate|].
  destruct (currentDisplayStage st); simpl; try discriminate;
    intros _; repeat split; discriminate.
Qed.

(** A timer set by the stage effect fires. *)
Lemma timerFired_orderly (st : State) cb d (calls : list (Request * Task)) :
  stageEffect st = SetTimeout cb d ->
  wellMarked st ->
  flightOk calls st ->
  wellMarked (timerFired cb st) /\ flightOk calls (timerFired cb st).
Proof.
  intros Heff Hwm Hfl.
  pose proof (stageEffect_timer st cb d Heff) as Hcb.
  destruct (stageEffect_active st cb d Heff) as [Hmark [Hnl Hna]].
  split.
  - destruct cb as [|s|p]; cbn [timerFired].
    + revert Hwm. now apply wellMarked_same.
    + revert Hwm. now apply wellMarked_same.
    + subst p.
      apply (wellMarked_closed st _ (withStage DisplayStage.final));
        [intros m; reflexivity | reflexivity | reflexivity | exact Hwm].
  - destruct calls as [|[req t] [|c' rest]]; [exact I | | contradiction].
    cbn [flightOk] in *.
    destruct req, t; simpl in Hfl; try contradiction;
      try (rewrite Hfl in Hmark; discriminate);
      try (destruct Hfl as [Hp _]; rewrite Hp in Hmark; discriminate);
      try (destruct Hfl as [_ Hs]; rewrite Hs in Hnl; now contradiction Hnl);
      try (destruct Hfl as [_ Hs]; rewrite Hs in Hna; now contradiction Hna);
      (destruct cb as [|s|p]; cbn [timerFired callOk];
       [exact Hfl | exact Hcb | discriminate]).
Qed.

Lemma handleSelectChat_orderly (st : State) (sessionId : string) :
  wellMarked st ->
  wellMarked (fst (handleSelectChat st sessionId st))
  /\ flightOk (addCall (snd (handleSelectChat st sessionId st)) [])
       (fst (handleSelectChat st sessionId st)).
Proof.
  intros Hwm. unfold handleSelectChat.
  destruct (user st); [|now split].
  destruct (strictEq (Some sessionId) (currentSessionId st)); [now split|].
  cbn [fst snd addCall app flightOk callOk]. split; [constructor | reflexivity].
Qed.

Lemma handleNewChat_orderly (st : State) :
  wellMarked st ->
  wellMarked (fst (handleNewChat st st))
  /\ flightOk (addCall (snd (handleNewChat st st)) []) (fst (handleNewChat st st)).
Proof.
  intros Hwm. unfold handleNewChat.
  destruct (user st); [|now split].
  cbn [fst snd addCall app flightOk callOk]. split; [constructor | reflexivity].
Qed.

Lemma flightOk_single (calls : list (Request * Task)) (st : State) i c :
  flightOk calls st ->
  nth_error calls i = Some c ->
  calls = [c] /\ removeNth i calls = [] /\ callOk c st.
Proof.
  destruct calls as [|c0 [|c1 rest]]; simpl; intros Hfl Hnth.
  - destruct i; discriminate.
  - destruct i as [|i]; simpl in Hnth.
    + injection Hnth as <-. now repeat split.
    + destruct i; discriminate.
  - contradiction.
Qed.

(** One orderly event keeps the agreement of marker and history, and at
    most one call in flight. *)
Lemma exec_orderly (e : Event) (s s' : Sys) :
  wellMarked (ui s) ->
  flightOk (inflight s) (ui s) ->
  orderly e s = true ->
  exec e s = Some s' ->
  wellMarked (ui s') /\ flightOk (inflight s') (ui s').
Proof.
  intros Hwm Hfl Hord Hexec.
  destruct e as [q | sessionId | | model | | i r | ]; cbn [exec orderly] in *.
  - (* Submit *)
    destruct (inflight s) eqn:Hin; [|discriminate].
    destruct (currentPendingMessageId (ui s)) eqn:Hmark; [discriminate|].
    destruct (pageShown (ui s)) eqn:Hshown; [|discriminate].
    destruct (pageShown_user _ Hshown) as [_ [u Hu]].
    destruct (negb (searchFormDisabled (ui s))); [|discriminate].
    injection Hexec as <-. apply commit_orderly;
      now apply (handleSubmit_orderly (ui s) q (clock s) u).
  - (* SelectChat *)
    destruct (inflight s) eqn:Hin; [|discriminate].
    destruct (pageShown (ui s) && _); [|discriminate].
    injection Hexec as <-. apply commit_orderly; now apply handleSelectChat_orderly.
  - (* NewChat *)
    destruct (inflight s) eqn:Hin; [|discriminate].
    destruct (pageShown (ui s) && _); [|discriminate].
    injection Hexec as <-. apply commit_orderly; now apply handleNewChat_orderly.
  - (* ChooseModel *)
    destruct (inflight s) eqn:Hin; [|discriminate].
    destruct (pageShown (ui s) && _); [|discriminate].
    injection Hexec as <-. apply commit_orderly; cbn [fst snd addCall];
      [revert Hwm; now apply wellMarked_same | exact I].
  - (* SignedOut *)
    destruct (inflight s) eqn:Hin; [|discriminate].
    injection Hexec as <-. apply commit_orderly; cbn [fst snd addCall];
      [constructor | exact I].
  - (* Resolve *)
    destruct (nth_error (inflight s) i) as [[req task]|] eqn:Hnth; [|discriminate].
    destruct (flightOk_single _ _ _ _ Hfl Hnth) as [Hone [Hrem Hok]].
    destruct (perform req r (db s)) as [[d a]|] eqn:Hperf; [|discriminate].
    destruct (resume task a (clock s) (ui s)) as [o|] eqn:Hres; [|discriminate].
    injection Hexec as <-. rewrite Hrem.
    apply commit_orderly;
      apply (resume_orderly req task a (clock s) (ui s) o Hwm Hok Hres);
      intros snap u q sid ->;
      (destruct req; simpl in Hok; try contradiction);
      (destruct r as [|newId created| |]; try discriminate);
      apply andb_true_iff in Hord; destruct Hord as [Hid Hfresh];
      cbn [perform] in Hperf; injection Hperf as _ <-;
      eexists; (split; [reflexivity|]); now split.
  - (* TimerFires *)
    destruct (stageEffect (ui s)) as [|cb d|] eqn:Heff; try discriminate.
    injection Hexec as <-.
    destruct (timerFired_orderly (ui s) cb d (inflight s) Heff Hwm Hfl) as [H1 H2].
    apply commit_orderly; [exact H1 | exact H2].
Qed.

Lemma execOrderly_invariant (es : list Event) :
  forall s0 s,
    wellMarked (ui s0) ->
    flightOk (inflight s0) (ui s0) ->
    execOrderly es s0 = Some s ->
    wellMarked (ui s) /\ flightOk (inflight s) (ui s).
Proof.
  induction es as [|e rest IH]; intros s0 s Hwm Hfl Hrun; cbn [execOrderly] in Hrun.
  - injection Hrun as <-. now split.
  - destruct (orderly e s0) eqn:Hord; [|discriminate].
    destruct (exec e s0) as [s1|] eqn:Hexec; [|discriminate].
    destruct (exec_orderly e s0 s1 Hwm Hfl Hord Hexec) as [Hwm1 Hfl1].
    exact (IH s1 s Hwm1 Hfl1 Hrun).
Qed.

(** C1, as the page behaves.  In an orderly execution from the signed-in
    page (the user acts only when no call is in flight, submits only when no
    message is pending and a session is active, and the insert of the pending
    message succeeds with a new, non-empty id), at every moment: when the
    marker is set, exactly one history item is in a non-terminal stage and it
    is the item the marker identifies; when the marker is empty, no history
    item is in a non-terminal stage.  So at most one item is pending at any
    time, the marker is cleared in the very step that makes its item [final]
    or [error] (or that empties the history), and no item stays pending once
    the marker is cleared.  At most one call is in flight. *)
Theorem C1_one_pending_in_orderly_runs :
  forall (u : User.t) (es : list Event) (s : Sys),
    execOrderly es (start u) = Some s ->
    match currentPendingMessageId (ui s) with
    | Some p => exists m, pendingItems (ui s) = [m] /\ ChatMessage.id m = Some p
    | None => pendingItems (ui s) = []
    end
    /\ List.length (pendingItems (ui s)) <= 1
    /\ List.length (inflight s) <= 1.
Proof.
  intros u es s Hrun.
  destruct (execOrderly_invariant es (start u) s) as [Hwm Hfl];
    [constructor | exact I | exact Hrun |].
  pose proof (wellMarked_pendingItems (ui s) Hwm) as Hitems.
  split; [exact Hitems|]. split.
  - destruct (currentPendingMessageId (ui s)).
    + destruct Hitems as [m [-> _]]. simpl. lia.
    + rewrite Hitems. simpl. lia.
  - destruct (inflight s) as [|c [|c' rest]]; simpl in *; lia || contradiction.
Qed.

Lemma C1_one_pending_in_orderly_runs_witness :
  execOrderly wholeQueryRun (start u1) = Some wholeQueryEnd
  /\ currentDisplayStage (ui wholeQueryEnd) = DisplayStage.final
  /\ map (fun m => (ChatMessage.id m, ChatMessage.stage m)) (chatHistory (ui wholeQueryEnd))
     = [(Some "m1", DisplayStage.final)]
  /\ match currentPendingMessageId (ui wholeQueryEnd) with
     | Some p => exists m, pendingItems (ui wholeQueryEnd) = [m] /\ ChatMessage.id m = Some p
     | None => pendingItems (ui wholeQueryEnd) = []
     end.
Proof.
  assert (H : execOrderly wholeQueryRun (start u1) = Some wholeQueryEnd)
    by (vm_compute; reflexivity).
  split; [exact H|]. split; [vm_compute; reflexivity|]. split; [vm_compute; reflexivity|].
  destruct (C1_one_pending_in_orderly_runs u1 wholeQueryRun wholeQueryEnd H) as [K _].
  exact K.
Defined.

(** * Further properties of the page *)

(** ** Steps of the executions *)

Lemma afterRender_no_call (st : State) (calls : list (Request * Task)) :
  (forall q l m, stageEffect st <> CallFetchAiAnalysis q l m) ->
  afterRender st calls = (st, calls).
Proof.
  intros H. unfold afterRender. destruct (stageEffect st) as [|cb d|q l m]; try reflexivity.
  exfalso. exact (H q l m eq_refl).
Qed.

Lemma commit_plain (s : Sys) (d : Store) (calls : list (Request * Task)) (o : Outcome) :
  (forall q l m, stageEffect (fst o) <> CallFetchAiAnalysis q l m) ->
  commit s d calls o
  = {| ui := fst o; db := d; inflight := addCall (snd o) calls; clock := S (clock s) |}.
Proof. intros H. unfold commit. rewrite (afterRender_no_call _ _ H). reflexivity. Qed.

Lemma commit_quiet (s : Sys) (d : Store) (calls : list (Request * Task)) (o : Outcome) :
  stageEffect (fst o) = NoAction ->
  commit s d calls o
  = {| ui := fst o; db := d; inflight := addCall (snd o) calls; clock := S (clock s) |}.
Proof. intros H. apply commit_plain. intros q l m E. rewrite H in E. discriminate E. Qed.

Lemma commit_timer (s : Sys) (d : Store) (calls : list (Request * Task)) (o : Outcome) cb dl :
  stageEffect (fst o) = SetTimeout cb dl ->
  commit s d calls o
  = {| ui := fst o; db := d; inflight := addCall (snd o) calls; clock := S (clock s) |}.
Proof. intros H. apply commit_plain. intros q l m E. rewrite H in E. discriminate E. Qed.

Lemma exec_Resolve (s : Sys) (i : nat) (r : Reply) req task d a o :
  nth_error (inflight s) i = Some (req, task) ->
  perform req r (db s) = Some (d, a) ->
  resume task a (clock s) (ui s) = Some o ->
  exec (Resolve i r) s = Some (commit s d (removeNth i (inflight s)) o).
Proof. intros H1 H2 H3. unfold exec. rewrite H1, H2, H3. reflexivity. Qed.

Lemma execAll_app (es1 es2 : list Event) :
  forall s,
    execAll (es1 ++ es2) s
    = match execAll es1 s with
      | Some s' => execAll es2 s'
      | None => None
      end.
Proof.
  induction es1 as [|e es1 IH]; intros s; [reflexivity|].
  cbn [app execAll]. destruct (exec e s) as [s'|]; [apply IH | reflexivity].
Qed.

(** ** Trimming *)

Lemma trimStart_head (s : string) :
  match trimStart s with
  | EmptyString => True
  | String c _ => isWhiteSpace c = false
  end.
Proof.
  induction s as [|c r IH]; [exact I|].
  cbn [trimStart]. destruct (isWhiteSpace c) eqn:E; [exact IH | exact E].
Qed.

Lemma trimStart_fixed (s : string) :
  match s with
  | EmptyString => True
  | String c _ => isWhiteSpace c = false
  end ->
  trimStart s = s.
Proof.
  destruct s as [|c r]; [reflexivity|]. intros H. cbn [trimStart]. rewrite H. reflexivity.
Qed.

Lemma trimEnd_head (s : string) :
  match s with
  | EmptyString => True
  | String c _ => isWhiteSpace c = false
  end ->
  match trimEnd s with
  | EmptyString => True
  | String c _ => isWhiteSpace c = false
  end.
Proof.
  destruct s as [|c r]; [intros _; exact I|]. intros H. cbn [trimEnd]. rewrite H.
  cbn [andb]. exact H.
Qed.

Lemma trimEnd_idem (s : string) : trimEnd (trimEnd s) = trimEnd s.
Proof.
  induction s as [|c r IH]; [reflexivity|].
  cbn [trimEnd]. destruct (isWhiteSpace c && (trimEnd r =? "")) eqn:E; [reflexivity|].
  cbn [trimEnd]. rewrite IH, E. reflexivity.
Qed.

Lemma trim_idem (s : string) : trim (trim s) = trim s.
Proof.
  unfold trim.
  rewrite (trimStart_fixed (trimEnd (trimStart s)))
    by (apply trimEnd_head, trimStart_head).
  apply trimEnd_idem.
Qed.

(** ** The search form in front of [handleSearch] *)

Lemma handleSearch_begin_error (snap : State) u q sid now (st : State) :
  error (fst (handleSearch_begin snap u q sid now st)) = None.
Proof.
  unfold handleSearch_begin.
  destruct (saveChatMessage snap (initialMessageData u q sid) None); reflexivity.
Qed.

Lemma handleSearch_begin_task (snap : State) u q sid now (st : State) :
  exists req t,
    snd (handleSearch_begin snap u q sid now st) = Some (req, t)
    /\ taskQuery t = Some q.
Proof.
  unfold handleSearch_begin.
  destruct (saveChatMessage snap (initialMessageData u q sid) None) as [req|].
  - exists req, (AwaitSearchSave snap u q sid). split; reflexivity.
  - exists (PostFetchLinks q), (AwaitSearchLinks snap q None). split; reflexivity.
Qed.

(** X1.  A submission of the search form has one of three outcomes.  A query
    that is blank after trimming is dropped by the form: no state changes and
    no call is issued.  Without a signed-in user [handleSearch] only sets the
    error "User not authenticated. Please login.".  Otherwise [handleSearch]
    receives the trimmed query, its own emptiness test cannot fire (trimming
    twice is trimming once), and it stops at a call whose continuation
    carries the trimmed query; the error cell is then either cleared or left
    as it was, so the form never produces "Search query cannot be empty.". *)
Theorem handleSubmit_cases :
  forall (snap st : State) (q : string) (now : nat),
    (truthy (trim q) = false /\ handleSubmit snap q now st = (st, None))
    \/ (truthy (trim q) = true /\ user snap = None
        /\ handleSubmit snap q now st
           = (setError (Some "User not authenticated. Please login.") st, None))
    \/ (exists u req t,
          truthy (trim q) = true /\ user snap = Some u
          /\ trim (trim q) = trim q
          /\ snd (handleSubmit snap q now st) = Some (req, t)
          /\ taskQuery t = Some (trim q)
          /\ (error (fst (handleSubmit snap q now st)) = None
              \/ error (fst (handleSubmit snap q now st)) = error st)).
Proof.
  intros snap st q now. unfold handleSubmit.
  destruct (truthy (trim q)) eqn:Hq; [|left; split; reflexivity].
  right. unfold handleSearch.
  destruct (user snap) as [u|] eqn:Hu; [|left; repeat split; reflexivity].
  right. rewrite trim_idem, Hq. cbn [negb].
  destruct (currentSessionId snap) as [sid|].
  - destruct (truthy sid).
    + destruct (needsRename snap sid).
      * exists u, (UpdateSessionName sid (newSessionName (trim q))),
          (AwaitSearchRename snap u (trim q) sid).
        repeat split; try reflexivity. right. reflexivity.
      * destruct (handleSearch_begin_task snap u (trim q) sid now st) as [req [t [H1 H2]]].
        exists u, req, t. repeat split; try reflexivity; try assumption.
        left. apply handleSearch_begin_error.
    + exists u, (InsertSession (User.id u) (newSessionName (trim q))),
        (AwaitSearchSession snap u (trim q)).
      repeat split; try reflexivity. right. reflexivity.
  - exists u, (InsertSession (User.id u) (newSessionName (trim q))),
      (AwaitSearchSession snap u (trim q)).
    repeat split; try reflexivity. right. reflexivity.
Qed.

(** A query of no-break spaces is blank: the form drops it. *)
Example handleSubmit_no_break_space :
  forall (snap st : State) (now : nat),
    handleSubmit snap (String (ascii_of_nat 160) (String (ascii_of_nat 160) EmptyString))
      now st
    = (st, None).
Proof. intros. reflexivity. Qed.

(** ** A search that has to create its session *)

Lemma saveChatMessage_no_session (snap : State) md fid :
  truthyOpt (currentSessionId snap) = false -> saveChatMessage snap md fid = None.
Proof.
  intros H. unfold saveChatMessage. destruct (user snap); [|reflexivity].
  destruct (currentSessionId snap) as [sid|]; [|reflexivity].
  simpl in H. rewrite H. reflexivity.
Qed.

(** X2.  A search made without an active session first inserts a session
    named after the query.  If that insert fails (or returns a session with an
    empty id) the search is aborted: the error is set, the loading flag is
    cleared, no further call is issued, and the history, the session cells,
    the stage and the pending marker are as they were. *)
Theorem search_session_failure_aborts :
  forall (snap st st' : State) (u : User.t) (q : string) (now : nat),
    user snap = Some u ->
    truthy (trim q) = true ->
    truthyOpt (currentSessionId snap) = false ->
    handleSearch snap q now st
    = (setIsLoading true st,
       Some (InsertSession (User.id u) (newSessionName q), AwaitSearchSession snap u q))
    /\ (let r := handleSearch_sessionCreated snap u q None now st' in
        snd r = None
        /\ error (fst r) = Some "Could not start a new chat session."
        /\ isLoading (fst r) = false
        /\ chatHistory (fst r) = chatHistory st'
        /\ currentSessionId (fst r) = currentSessionId st'
        /\ chatSessionsList (fst r) = chatSessionsList st'
        /\ currentDisplayStage (fst r) = currentDisplayStage st'
        /\ currentPendingMessageId (fst r) = currentPendingMessageId st')
    /\ (forall data,
          truthy (ChatSession.id data) = false ->
          let r := handleSearch_sessionCreated snap u q (Some data) now st' in
          snd r = None
          /\ error (fst r) = Some "Critical: No active session ID found or created."
          /\ isLoading (fst r) = false
          /\ currentDisplayStage (fst r) = currentDisplayStage st'
          /\ currentPendingMessageId (fst r) = currentPendingMessageId st').
Proof.
  intros snap st st' u q now Hu Hq Hs. split; [|split].
  - unfold handleSearch. rewrite Hu, Hq. cbn [negb].
    destruct (currentSessionId snap) as [sid|]; [|reflexivity].
    simpl in Hs. rewrite Hs. reflexivity.
  - cbn. repeat split; reflexivity.
  - intros data Hd. unfold handleSearch_sessionCreated. rewrite Hd. cbn.
    repeat split; reflexivity.
Qed.

Lemma search_session_failure_aborts_witness :
  handleSearch (signedIn u1) "q1" 0 (signedIn u1)
  = (setIsLoading true (signedIn u1),
     Some (InsertSession "u1" "q1", AwaitSearchSession (signedIn u1) u1 "q1")).
Proof.
  destruct (search_session_failure_aborts (signedIn u1) (signedIn u1) (signedIn u1) u1 "q1" 0)
    as [K _]; [reflexivity | reflexivity | reflexivity |].
  exact K.
Defined.

(** X3.  When [handleSearch] creates the session itself, the first save of
    the message is skipped: [saveChatMessage] still reads the session cell of
    the render that started the search, which is empty.  No message row is
    written; the history gets a local item, the pending marker stays unset,
    and the link fetch is issued at once.  When the links arrive, the local
    item is not updated (nothing identifies it) and the stage effect does
    nothing: the page stays in [gatheringLinks]. *)
Theorem search_created_session_skips_save :
  forall (snap st : State) (u : User.t) (q : string) (data : ChatSession.t) (now : nat)
         (links : FetchedLinksResponse.t),
    truthyOpt (currentSessionId snap) = false ->
    currentPendingMessageId snap = None ->
    currentPendingMessageId st = None ->
    truthy (ChatSession.id data) = true ->
    0 < List.length (FetchedLinksResponse.results links) ->
    let r := handleSearch_sessionCreated snap u q (Some data) now st in
    let r2 := handleSearch_linksFetched snap q None (FetchOk links) (fst r) in
    snd r = Some (PostFetchLinks q, AwaitSearchLinks snap q None)
    /\ currentSessionId (fst r) = Some (ChatSession.id data)
    /\ chatSessionsList (fst r) = data :: chatSessionsList st
    /\ chatHistory (fst r)
       = [initialItem u q (ChatSession.id data) ("local-" ++ numberToString now)%string None]
    /\ currentPendingMessageId (fst r) = None
    /\ snd r2 = None
    /\ chatHistory (fst r2) = chatHistory (fst r)
    /\ currentDisplayStage (fst r2) = DisplayStage.gatheringLinks
    /\ stageEffect (fst r2) = NoAction.
Proof.
  intros snap st u q data now links Hs Hp Hp' Hd Hn r r2.
  assert (Er : r = handleSearch_saved snap u q (ChatSession.id data) None now
                     (setLoadingMessage "Fetching relevant links..."
                        (setCurrentDisplayStage DisplayStage.fetchingLinks
                           (setCurrentLinkIndex 0
                              (setAiAnalysisData None
                                 (setFetchedLinksData None
                                    (setError None
                                       (setIsLoading true
                                          (setCurrentQuery q
                                             (setChatHistory []
                                                (setChatSessionsList
                                                   (data :: chatSessionsList st)
                                                   (setCurrentSessionId
                                                      (Some (ChatSession.id data))
                                                      (setIsLoading false st))))))))))))).
  { subst r. unfold handleSearch_sessionCreated. rewrite Hd. cbn [negb].
    unfold handleSearch_begin. rewrite (saveChatMessage_no_session _ _ _ Hs). reflexivity. }
  assert (Hn' : (0 <? List.length (FetchedLinksResponse.results links))%nat = true)
    by (apply Nat.ltb_lt; exact Hn).
  assert (E2 : r2 = (setIsLoading false
                       (setCurrentDisplayStage DisplayStage.gatheringLinks
                          (setChatHistory (chatHistory (fst r))
                             (setFetchedLinksData (Some links) (fst r)))), None)).
  { subst r2. unfold handleSearch_linksFetched. cbn [recordId option_map orElse truthyOpt].
    rewrite Hp, Hn'. cbn [chatHistory setFetchedLinksData]. rewrite mapWhereId_null.
    reflexivity. }
  rewrite E2. rewrite Er. unfold handleSearch_saved. cbn.
  repeat split; try reflexivity; try assumption.
  apply stageEffect_no_marker. cbn. rewrite Hp'. reflexivity.
Qed.

Lemma search_created_session_skips_save_witness :
  let r := handleSearch_sessionCreated (signedIn u1) u1 "q1"
             (Some (ChatSession.mk "s1" "u1" "t0" (Some "q1"))) 0 (signedIn u1) in
  snd r = Some (PostFetchLinks "q1", AwaitSearchLinks (signedIn u1) "q1" None)
  /\ stageEffect
       (fst (handleSearch_linksFetched (signedIn u1) "q1" None (FetchOk twoLinks) (fst r)))
     = NoAction.
Proof.
  destruct (search_created_session_skips_save (signedIn u1) (signedIn u1) u1 "q1"
              (ChatSession.mk "s1" "u1" "t0" (Some "q1")) 0 twoLinks)
    as [K1 [_ [_ [_ [_ [_ [_ [_ K2]]]]]]]];
    [reflexivity | reflexivity | reflexivity | reflexivity | simpl; lia |].
  split; [exact K1 | exact K2].
Defined.

(** ** What [saveChatMessage] sends *)

Lemma rowIdentity_updateMessage (id : string) (r : AiResponse.t) (d : Store) :
  map rowIdentity (chat_messages (updateMessage id r d)) = map rowIdentity (chat_messages d).
Proof.
  unfold updateMessage. cbn [chat_messages]. rewrite map_map. apply map_ext.
  intros row. destruct (MessageRow.id row =? id); reflexivity.
Qed.

(** X4.  Every call [saveChatMessage] issues needs a signed-in user and a
    non-empty session id in the render it was created in.  A payload with a
    query is always inserted as a new row of that session and that user,
    whatever message id is passed (the [session_id] and [user_id] of the
    payload are not read); without a query the only call is the update of
    the response of the row named by [forMessageId], or else by the pending
    marker.  Whatever the store answers, such a call leaves the sessions
    table alone, removes no message row and keeps the id, query text,
    session, user and timestamp of every stored row. *)
Theorem saveChatMessage_calls :
  forall (snap : State) (messageData : PartialChatMessage.t)
         (forMessageId : option string) (req : Request),
    saveChatMessage snap messageData forMessageId = Some req ->
    (exists u sid,
       user snap = Some u /\ currentSessionId snap = Some sid /\ truthy sid = true
       /\ ((exists q,
              PartialChatMessage.query messageData = Some q /\ truthy q = true
              /\ req = InsertMessage sid (User.id u) q
                         (PartialChatMessage.response messageData))
           \/ (truthyOpt (PartialChatMessage.query messageData) = false
               /\ exists mid r,
                    orElse forMessageId (currentPendingMessageId snap) = Some mid
                    /\ truthy mid = true
                    /\ PartialChatMessage.response messageData = Some r
                    /\ req = UpdateMessage mid r)))
    /\ (forall (reply : Reply) (d d' : Store) (a : Answer),
          perform req reply d = Some (d', a) ->
          chat_sessions d' = chat_sessions d
          /\ exists added,
               List.length added <= 1
               /\ map rowIdentity (chat_messages d')
                  = map rowIdentity (chat_messages d) ++ added).
Proof.
  intros snap md fid req H.
  assert (Hshape :
    exists u sid,
       user snap = Some u /\ currentSessionId snap = Some sid /\ truthy sid = true
       /\ ((exists q,
              PartialChatMessage.query md = Some q /\ truthy q = true
              /\ req = InsertMessage sid (User.id u) q (PartialChatMessage.response md))
           \/ (truthyOpt (PartialChatMessage.query md) = false
               /\ exists mid r,
                    orElse fid (currentPendingMessageId snap) = Some mid
                    /\ truthy mid = true
                    /\ PartialChatMessage.response md = Some r
                    /\ req = UpdateMessage mid r))).
  { unfold saveChatMessage in H.
    destruct (user snap) as [u|]; [|discriminate H].
    destruct (currentSessionId snap) as [sid|]; [|discriminate H].
    destruct (truthy sid) eqn:Hsid; [|discriminate H]. cbn [negb] in H.
    exists u, sid. split; [reflexivity|]. split; [reflexivity|]. split; [exact Hsid|].
    destruct (truthyOpt (PartialChatMessage.query md)) eqn:Hq.
    - destruct (PartialChatMessage.query md) as [q|] eqn:Eq; [|discriminate Hq].
      left. exists q. split; [reflexivity|]. split; [exact Hq|].
      destruct (orElse fid (currentPendingMessageId snap)); injection H as <-; reflexivity.
    - right. split; [reflexivity|].
      destruct (orElse fid (currentPendingMessageId snap)) as [mid|]; [|discriminate H].
      destruct (truthy mid) eqn:Hmid; [|discriminate H].
      destruct (PartialChatMessage.response md) as [r|]; [|discriminate H].
      injection H as <-. exists mid, r. repeat split; reflexivity || assumption. }
  split; [exact Hshape|].
  intros reply d d' a Hp.
  destruct Hshape as [u [sid [_ [_ [_ [[q [_ [_ ->]]] | [_ [mid [r [_ [_ [_ ->]]]]]]]]]]]].
  - destruct reply; simpl in Hp; try discriminate Hp; injection Hp as <- _.
    + split; [reflexivity|]. exists []. split; [simpl; lia|]. rewrite app_nil_r. reflexivity.
    + split; [reflexivity|]. cbn [chat_messages]. rewrite map_app.
      eexists. split; [|reflexivity]. simpl. lia.
  - destruct reply; simpl in Hp; try discriminate Hp; injection Hp as <- _.
    + split; [reflexivity|]. exists []. split; [simpl; lia|]. rewrite app_nil_r. reflexivity.
    + split; [reflexivity|]. exists []. split; [simpl; lia|].
      rewrite app_nil_r. apply rowIdentity_updateMessage.
Qed.

Lemma saveChatMessage_calls_witness :
  let snap := setCurrentPendingMessageId (Some "m1")
                (setCurrentSessionId (Some "s1") (signedIn u1)) in
  exists u sid,
    user snap = Some u /\ currentSessionId snap = Some sid /\ truthy sid = true
    /\ ((exists q,
           PartialChatMessage.query (responseOnly answerOfQ1) = Some q /\ truthy q = true
           /\ UpdateMessage "m1" answerOfQ1
              = InsertMessage sid (User.id u) q
                  (PartialChatMessage.response (responseOnly answerOfQ1)))
        \/ (truthyOpt (PartialChatMessage.query (responseOnly answerOfQ1)) = false
            /\ exists mid r,
                 orElse None (currentPendingMessageId snap) = Some mid
                 /\ truthy mid = true
                 /\ PartialChatMessage.response (responseOnly answerOfQ1) = Some r
                 /\ UpdateMessage "m1" answerOfQ1 = UpdateMessage mid r)).
Proof.
  intros snap.
  destruct (saveChatMessage_calls snap (responseOnly answerOfQ1) None
              (UpdateMessage "m1" answerOfQ1)) as [K _]; [reflexivity|].
  exact K.
Defined.

(** ** The three dwell stages *)

Lemma dwell_run (s : Sys) (r : AiResponse.t) (p : string) :
  currentDisplayStage (ui s) = DisplayStage.subquestions ->
  aiAnalysisData (ui s) = Some r ->
  currentPendingMessageId (ui s) = Some p ->
  truthy p = true ->
  isLoadingAuth (ui s) = false ->
  let st1 := timerFired (AdvanceTo DisplayStage.analysis) (ui s) in
  let st2 := timerFired (AdvanceTo DisplayStage.synthesis) st1 in
  let st3 := timerFired (Finalize (Some p)) st2 in
  let at_ st k := {| ui := st; db := db s; inflight := inflight s; clock := k + clock s |} in
  (exec TimerFires s = Some (at_ st1 1)
   /\ exec TimerFires (at_ st1 1) = Some (at_ st2 2)
   /\ exec TimerFires (at_ st2 2) = Some (at_ st3 3)
   /\ exec TimerFires (at_ st3 3) = None)
  /\ stageEffect (ui s) = SetTimeout (AdvanceTo DisplayStage.analysis) STAGE_DELAY
  /\ stageEffect st1 = SetTimeout (AdvanceTo DisplayStage.synthesis) STAGE_DELAY
  /\ stageEffect st2 = SetTimeout (Finalize (Some p)) STAGE_DELAY.
Proof.
  intros Hstage Hai Hp Htp Hauth st1 st2 st3 at_.
  assert (E0 : stageEffect (ui s) = SetTimeout (AdvanceTo DisplayStage.analysis) STAGE_DELAY).
  { unfold stageEffect, stageEffectIdle, advanceStage.
    rewrite Hstage, Hai, Hp, Hauth. cbn. rewrite Htp. reflexivity. }
  assert (E1 : stageEffect st1 = SetTimeout (AdvanceTo DisplayStage.synthesis) STAGE_DELAY).
  { unfold stageEffect, stageEffectIdle, advanceStage. subst st1. cbn.
    rewrite Hai, Hp, Hauth. cbn. rewrite Htp. reflexivity. }
  assert (E2 : stageEffect st2 = SetTimeout (Finalize (Some p)) STAGE_DELAY).
  { unfold stageEffect, stageEffectIdle, advanceStage. subst st2 st1. cbn.
    rewrite Hai, Hp, Hauth. cbn. rewrite Htp. reflexivity. }
  assert (E3 : stageEffect st3 = NoAction).
  { apply stageEffect_quiet. right. right. right. right. reflexivity. }
  split; [|split; [exact E0|split; [exact E1|exact E2]]].
  split; [|split; [|split]].
  - unfold exec. rewrite E0. fold st1.
    rewrite (commit_timer s (db s) (inflight s) (st1, None) _ _ E1). reflexivity.
  - unfold exec. cbn [ui at_]. rewrite E1. fold st2.
    rewrite (commit_timer _ (db s) (inflight s) (st2, None) _ _ E2). reflexivity.
  - unfold exec. cbn [ui at_]. rewrite E2. fold st3.
    rewrite (commit_quiet _ (db s) (inflight s) (st3, None) E3). reflexivity.
  - unfold exec. cbn [ui at_]. rewrite E3. reflexivity.
Qed.

(** X5.  Once the analysis has arrived (stage [subquestions], analysis data
    present, pending marker set), three firings of the stage timer, each set
    with [STAGE_DELAY], lead through [analysis] and [synthesis] to [final]
    without any call.  The last one marks the pending history item [final],
    clears the marker, the link and analysis buffers and the current query,
    and leaves no timer behind; the session cells, the store and the calls in
    flight are untouched.  The answer is then drawn from the response kept in
    the history item. *)
Theorem dwell_stages_run_to_final :
  forall (s : Sys) (r : AiResponse.t) (p : string),
    currentDisplayStage (ui s) = DisplayStage.subquestions ->
    aiAnalysisData (ui s) = Some r ->
    currentPendingMessageId (ui s) = Some p ->
    truthy p = true ->
    isLoadingAuth (ui s) = false ->
    exists s1 s2 s3,
      exec TimerFires s = Some s1 /\ exec TimerFires s1 = Some s2
      /\ exec TimerFires s2 = Some s3 /\ exec TimerFires s3 = None
      /\ stageEffect (ui s) = SetTimeout (AdvanceTo DisplayStage.analysis) STAGE_DELAY
      /\ stageEffect (ui s1) = SetTimeout (AdvanceTo DisplayStage.synthesis) STAGE_DELAY
      /\ stageEffect (ui s2) = SetTimeout (Finalize (Some p)) STAGE_DELAY
      /\ currentDisplayStage (ui s1) = DisplayStage.analysis
      /\ currentDisplayStage (ui s2) = DisplayStage.synthesis
      /\ currentDisplayStage (ui s3) = DisplayStage.final
      /\ chatHistory (ui s1) = chatHistory (ui s)
      /\ chatHistory (ui s2) = chatHistory (ui s)
      /\ chatHistory (ui s3)
         = mapWhereId (Some p) (withStage DisplayStage.final) (chatHistory (ui s))
      /\ currentPendingMessageId (ui s3) = None
      /\ aiAnalysisData (ui s3) = None
      /\ fetchedLinksData (ui s3) = None
      /\ currentQuery (ui s3) = ""
      /\ currentSessionId (ui s3) = currentSessionId (ui s)
      /\ chatSessionsList (ui s3) = chatSessionsList (ui s)
      /\ db s3 = db s
      /\ inflight s3 = inflight s
      /\ (forall m resp,
            ChatMessage.response m = Some resp ->
            shownFinalAnswer (withStage DisplayStage.final m) = Some resp).
Proof.
  intros s r p Hstage Hai Hp Htp Hauth.
  destruct (dwell_run s r p Hstage Hai Hp Htp Hauth) as [[K1 [K2 [K3 K4]]] [E0 [E1 E2]]].
  eexists. eexists. eexists.
  split; [exact K1|]. split; [exact K2|]. split; [exact K3|]. split; [exact K4|].
  cbn [ui db inflight]. split; [exact E0|]. split; [exact E1|]. split; [exact E2|].
  repeat split; try reflexivity.
  intros m resp Hm. unfold shownFinalAnswer. cbn. rewrite Hm. reflexivity.
Qed.

Lemma dwell_stages_run_to_final_witness :
  let s := {| ui := setAiAnalysisData (Some answerOfQ1)
                      (setCurrentDisplayStage DisplayStage.subquestions
                         (setCurrentPendingMessageId (Some "m1") (signedIn u1)));
              db := {| chat_sessions := []; chat_messages := [] |};
              inflight := []; clock := 0 |} in
  exists s3, execAll [TimerFires; TimerFires; TimerFires] s = Some s3
             /\ currentDisplayStage (ui s3) = DisplayStage.final
             /\ exec TimerFires s3 = None.
Proof.
  intros s.
  destruct (dwell_stages_run_to_final s answerOfQ1 "m1")
    as [s1 [s2 [s3 [K1 [K2 [K3 [K4 [_ [_ [_ [_ [_ [K5 _]]]]]]]]]]]]];
    [reflexivity | reflexivity | reflexivity | reflexivity | reflexivity |].
  exists s3. split; [|split; [exact K5 | exact K4]].
  cbn [execAll]. rewrite K1, K2, K3. reflexivity.
Defined.

(** ** A new chat and its first query *)

Lemma exec_NewChat_ok (s : Sys) (u : User.t) :
  pageShown (ui s) = true ->
  newChatDisabled (ui s) = false ->
  user (ui s) = Some u ->
  exec NewChat s
  = Some {| ui := fst (handleNewChat (ui s) (ui s)); db := db s;
            inflight := inflight s
                        ++ [(InsertSession (User.id u) DEFAULT_NEW_CHAT_NAME,
                             AwaitNewChatInsert)];
            clock := S (clock s) |}.
Proof.
  intros Hshown Hen Hu. unfold exec. rewrite Hshown, Hen. cbn [andb negb].
  rewrite commit_quiet.
  - unfold handleNewChat. rewrite Hu. reflexivity.
  - apply stageEffect_quiet. left. unfold handleNewChat. rewrite Hu. reflexivity.
Qed.

Lemma saveChatMessage_initial (snap : State) (u u' : User.t) (sid sid' q : string) :
  user snap = Some u ->
  currentSessionId snap = Some sid ->
  truthy sid = true ->
  truthy q = true ->
  saveChatMessage snap (initialMessageData u' q sid') None
  = Some (InsertMessage sid (User.id u) q None).
Proof.
  intros Hu Hs Hsid Hq. unfold saveChatMessage. rewrite Hu, Hs, Hsid. cbn.
  rewrite Hq. destruct (currentPendingMessageId snap) as [p|]; [|reflexivity].
  destruct (truthy p); reflexivity.
Qed.

Lemma filter_fresh_session (newId : string) (l : list ChatSession.t) (row : ChatSession.t) :
  forallb (fun c => negb (ChatSession.id c =? newId)) l = true ->
  ChatSession.id row = newId ->
  filter (fun c => ChatSession.id c =? newId) (l ++ [row]) = [row].
Proof.
  intros Hfresh Hrow. rewrite filter_app. cbn [filter]. rewrite Hrow, String.eqb_refl.
  replace (filter (fun c => ChatSession.id c =? newId) l) with (@nil ChatSession.t);
    [reflexivity|].
  induction l as [|c l IH]; [reflexivity|].
  cbn [forallb] in Hfresh. apply andb_true_iff in Hfresh. destruct Hfresh as [Hc Hl].
  cbn [filter]. apply negb_true_iff in Hc. rewrite Hc. exact (IH Hl).
Qed.

(** X6.  The first query typed into a new chat names it.  From any page on
    which the new-chat button is enabled: the click inserts a session named
    "New Chat" and makes it the active one; the next submission does not start
    the query at once but first renames that session to the name made from
    the trimmed query; when the rename is done, the store holds the session
    under its new name, the sidebar shows it first, and the query starts with
    the insert of its message into that session. *)
Theorem first_query_names_new_chat :
  forall (s : Sys) (u : User.t) (newId created a b q : string),
    pageShown (ui s) = true ->
    newChatDisabled (ui s) = false ->
    user (ui s) = Some u ->
    truthy newId = true ->
    truthy (trim q) = true ->
    forallb (fun c => negb (ChatSession.id c =? newId)) (chat_sessions (db s)) = true ->
    let n := List.length (inflight s) in
    let named name := ChatSession.mk newId (User.id u) created (Some name) in
    exists s2 s3 s4,
      execAll [NewChat; Resolve n (StoreDone newId created)] s = Some s2
      /\ exec (Submit q) s2 = Some s3
      /\ exec (Resolve n (StoreDone a b)) s3 = Some s4
      /\ (currentSessionId (ui s2) = Some newId
          /\ chatSessionsList (ui s2) = named DEFAULT_NEW_CHAT_NAME :: chatSessionsList (ui s)
          /\ chat_sessions (db s2) = chat_sessions (db s) ++ [named DEFAULT_NEW_CHAT_NAME]
          /\ chatHistory (ui s2) = []
          /\ inflight s2 = inflight s)
      /\ (ui s3 = ui s2
          /\ db s3 = db s2
          /\ map fst (inflight s3)
             = map fst (inflight s) ++ [UpdateSessionName newId (newSessionName (trim q))])
      /\ (chat_sessions (db s4)
          = chat_sessions (db s) ++ [named (newSessionName (trim q))]
          /\ hd_error (chatSessionsList (ui s4)) = Some (named (newSessionName (trim q)))
          /\ currentSessionId (ui s4) = Some newId
          /\ currentQuery (ui s4) = trim q
          /\ currentDisplayStage (ui s4) = DisplayStage.fetchingLinks
          /\ map fst (inflight s4)
             = map fst (inflight s) ++ [InsertMessage newId (User.id u) (trim q) None]).
Proof.
  intros s u newId created a b q Hshown Hen Hu Hid Hq Hfresh n named.
  destruct (pageShown_user _ Hshown) as [Hauth _].
  unfold newChatDisabled in Hen.
  apply orb_false_iff in Hen. destruct Hen as [Hen HlM].
  apply orb_false_iff in Hen. destruct Hen as [HlL HlS].
  (* the click and the answer of the insert *)
  set (st1 := fst (handleNewChat (ui s) (ui s))).
  assert (F1 : currentDisplayStage st1 = DisplayStage.idle
               /\ user st1 = Some u /\ isLoadingAuth st1 = false
               /\ chatSessionsList st1 = chatSessionsList (ui s)
               /\ isLoadingSessions st1 = false /\ isLoadingMessages st1 = false
               /\ isLoading st1 = false /\ chatHistory st1 = []).
  { subst st1. unfold handleNewChat. rewrite Hu. cbn.
    repeat split; reflexivity || assumption. }
  destruct F1 as [F1a [F1b [F1c [F1d [F1e [F1f [F1g F1h]]]]]]].
  set (row := named DEFAULT_NEW_CHAT_NAME).
  set (st2 := handleNewChat_inserted (Some row) st1).
  set (d2 := {| chat_sessions := chat_sessions (db s) ++ [row];
                chat_messages := chat_messages (db s) |}).
  set (s2 := {| ui := st2; db := d2; inflight := inflight s; clock := S (S (clock s)) |}).
  assert (F2 : currentDisplayStage st2 = DisplayStage.idle
               /\ user st2 = Some u /\ isLoadingAuth st2 = false
               /\ chatSessionsList st2 = row :: chatSessionsList (ui s)
               /\ isLoadingSessions st2 = false /\ isLoadingMessages st2 = false
               /\ isLoading st2 = false /\ chatHistory st2 = []
               /\ currentSessionId st2 = Some newId).
  { subst st2. cbn. rewrite F1d. repeat split; assumption || reflexivity. }
  destruct F2 as [F2a [F2b [F2c [F2d [F2e [F2f [F2g [F2h F2i]]]]]]]].
  assert (E2 : execAll [NewChat; Resolve n (StoreDone newId created)] s = Some s2).
  { cbn [execAll]. rewrite (exec_NewChat_ok s u Hshown) by
      (try assumption; unfold newChatDisabled; rewrite HlL, HlS, HlM; reflexivity).
    fold st1.
    rewrite (exec_Resolve _ n (StoreDone newId created)
               (InsertSession (User.id u) DEFAULT_NEW_CHAT_NAME) AwaitNewChatInsert
               d2 (SessionAnswer (Some row)) (st2, None)).
    - cbn [inflight db]. subst n. rewrite removeNth_last.
      rewrite commit_quiet by (apply stageEffect_quiet; left; exact F2a). reflexivity.
    - apply nth_error_last.
    - reflexivity.
    - reflexivity. }
  (* the submission *)
  assert (Hrename : needsRename st2 newId = true).
  { unfold needsRename. rewrite F2d, F2h. cbn. rewrite String.eqb_refl. reflexivity. }
  set (call3 := (UpdateSessionName newId (newSessionName (trim q)),
                 AwaitSearchRename st2 u (trim q) newId)).
  set (s3 := {| ui := st2; db := d2; inflight := inflight s ++ [call3];
                clock := S (S (S (clock s))) |}).
  assert (E3 : exec (Submit q) s2 = Some s3).
  { unfold exec. cbn [ui db inflight clock s2].
    unfold pageShown, searchFormDisabled.
    rewrite F2a, F2b, F2c, F2e, F2f, F2g. cbn [andb orb negb DisplayStage.eqb].
    unfold handleSubmit. rewrite Hq. unfold handleSearch.
    rewrite F2b, trim_idem, Hq, F2i, Hid, Hrename. cbn [negb].
    rewrite commit_quiet by (apply stageEffect_quiet; left; exact F2a). reflexivity. }
  (* the answer of the rename *)
  set (name := newSessionName (trim q)).
  set (d4 := updateSessionName newId name d2).
  set (o4 := handleSearch_renamed st2 u (trim q) newId (Some (withSessionName name row))
               (S (S (S (clock s)))) st2).
  assert (Hsave : saveChatMessage st2 (initialMessageData u (trim q) newId) None
                  = Some (InsertMessage newId (User.id u) (trim q) None))
    by (apply saveChatMessage_initial; assumption).
  assert (F4 : snd o4 = Some (InsertMessage newId (User.id u) (trim q) None,
                              AwaitSearchSave st2 u (trim q) newId)
               /\ currentDisplayStage (fst o4) = DisplayStage.fetchingLinks
               /\ hd_error (chatSessionsList (fst o4)) = Some (named name)
               /\ currentSessionId (fst o4) = Some newId
               /\ currentQuery (fst o4) = trim q).
  { subst o4. clearbody st2. unfold handleSearch_renamed, handleSearch_begin.
    rewrite Hsave. cbn.
    rewrite F2d. cbn. rewrite String.eqb_refl. repeat split; reflexivity || assumption. }
  destruct F4 as [F4a [F4b [F4c [F4d F4e]]]].
  set (s4 := {| ui := fst o4; db := d4;
                inflight := inflight s ++ [(InsertMessage newId (User.id u) (trim q) None,
                                            AwaitSearchSave st2 u (trim q) newId)];
                clock := S (S (S (S (clock s)))) |}).
  assert (Hfilter : filter (fun c => ChatSession.id c =? newId) (chat_sessions d2) = [row])
    by (apply filter_fresh_session; [exact Hfresh | reflexivity]).
  assert (E4 : exec (Resolve n (StoreDone a b)) s3 = Some s4).
  { destruct (perform_UpdateSessionName d2 newId name a b row Hfilter) as [Hperf _].
    rewrite (exec_Resolve s3 n (StoreDone a b)
               (UpdateSessionName newId name) (AwaitSearchRename st2 u (trim q) newId)
               d4 (SessionAnswer (Some (withSessionName name row))) o4).
    - cbn [inflight s3]. subst n. rewrite removeNth_last.
      rewrite commit_quiet
        by (apply stageEffect_quiet; right; right; left; exact F4b).
      rewrite F4a. reflexivity.
    - apply nth_error_last.
    - exact Hperf.
    - reflexivity. }
  exists s2, s3, s4.
  split; [exact E2|]. split; [exact E3|]. split; [exact E4|].
  split; [|split].
  - cbn [ui db inflight s2]. repeat split; assumption || reflexivity.
  - cbn [ui db inflight s3 s2]. repeat split; try reflexivity.
    rewrite map_app. reflexivity.
  - cbn [ui db inflight s4]. split; [|split; [exact F4c|split; [exact F4d|split;
      [exact F4e|split; [exact F4b|]]]]].
    + subst d4. unfold updateSessionName. cbn [chat_sessions d2]. rewrite map_app.
      cbn [map]. cbn [ChatSession.id row named]. rewrite String.eqb_refl.
      f_equal.
      clear -Hfresh. induction (chat_sessions (db s)) as [|c l IH]; [reflexivity|].
      cbn [forallb] in Hfresh. apply andb_true_iff in Hfresh. destruct Hfresh as [Hc Hl].
      cbn [map]. apply negb_true_iff in Hc. rewrite Hc. f_equal. exact (IH Hl).
    + rewrite map_app. reflexivity.
Qed.

Lemma first_query_names_new_chat_witness :
  exists s4,
    execAll [NewChat; Resolve 0 (StoreDone "s1" "t0");
             Submit "  Explain CRISPR gene editing in detail please ";
             Resolve 0 (StoreDone "" "")] (start u1) = Some s4
    /\ chat_sessions (db s4)
       = [ChatSession.mk "s1" "u1" "t0" (Some "Explain CRISPR gene editing in d...")]
    /\ map fst (inflight s4)
       = [InsertMessage "s1" "u1" "Explain CRISPR gene editing in detail please" None].
Proof.
  destruct (first_query_names_new_chat (start u1) u1 "s1" "t0" "" ""
              "  Explain CRISPR gene editing in detail please ")
    as [s2 [s3 [s4 [K2 [K3 [K4 [_ [_ [K5 [_ [_ [_ [_ K6]]]]]]]]]]]]];
    [reflexivity | reflexivity | reflexivity | reflexivity | reflexivity | reflexivity |].
  exists s4. split; [|split; [exact K5 | exact K6]].
  cbn [List.length inflight start] in K2, K4.
  change (execAll ([NewChat; Resolve 0 (StoreDone "s1" "t0")]
                   ++ [Submit "  Explain CRISPR gene editing in detail please ";
                       Resolve 0 (StoreDone "" "")]) (start u1) = Some s4).
  rewrite execAll_app, K2. cbn [execAll]. rewrite K3, K4. reflexivity.
Defined.

(** ** The order of the stages *)

Lemma ui_commit (s : Sys) (d : Store) (calls : list (Request * Task)) (o : Outcome) :
  ui (commit s d calls o) = fst (afterRender (fst o) (addCall (snd o) calls)).
Proof. unfold commit. destruct (afterRender (fst o) (addCall (snd o) calls)). reflexivity. Qed.

Lemma afterRender_rank (st : State) (calls : list (Request * Task)) :
  stageRank (currentDisplayStage st)
  <= stageRank (currentDisplayStage (fst (afterRender st calls))).
Proof.
  unfold afterRender. destruct (stageEffect st) as [|cb d|q l m] eqn:E; try (simpl; lia).
  destruct (stageEffect_call st q l m E) as [_ [Hstage _]]. cbn. rewrite Hstage. simpl. lia.
Qed.

Lemma timerFired_rank (st : State) cb d :
  stageEffect st = SetTimeout cb d ->
  stageRank (currentDisplayStage st) <= stageRank (currentDisplayStage (timerFired cb st)).
Proof.
  unfold stageEffect. destruct (stageEffectIdle st); [discriminate|].
  unfold advanceStage. destruct (currentDisplayStage st) eqn:Hstage; try discriminate.
  - destruct (fetchedLinksData st) as [links|]; [|discriminate].
    destruct (0 <? List.length (FetchedLinksResponse.results links))%nat.
    + destruct (currentLinkIndex st <? List.length (FetchedLinksResponse.results links) - 1)%nat.
      * intros H. injection H as <- _. cbn. rewrite Hstage. simpl. lia.
      * destruct (truthy (currentQuery st)); discriminate.
    + destruct (truthy (currentQuery st)); discriminate.
  - destruct (aiAnalysisData st); [|discriminate]. intros H. injection H as <- _. cbn. lia.
  - destruct (aiAnalysisData st); [|discriminate]. intros H. injection H as <- _. cbn. lia.
  - destruct (aiAnalysisData st); [|discriminate]. intros H. injection H as <- _. cbn. lia.
Qed.

(** X7.  In a state reached by an orderly execution no stage is revisited
    while a query runs: whenever the stage timer fires or one of the query's
    calls completes, the stage of the page stays or moves forward in the order
    fetchingLinks, gatheringLinks, fetchingAiAnalysis, subquestions, analysis,
    synthesis, final, or it becomes error. *)
Theorem stages_never_go_back :
  forall (u : User.t) (es : list Event) (s s' : Sys) (e : Event),
    execOrderly es (start u) = Some s ->
    progresses e s = true ->
    exec e s = Some s' ->
    stageRank (currentDisplayStage (ui s)) <= stageRank (currentDisplayStage (ui s')).
Proof.
  intros u es s s' e Hrun Hprog Hexec.
  destruct (execOrderly_invariant es (start u) s) as [_ Hfl];
    [constructor | exact I | exact Hrun |].
  destruct e as [q|sid| |model| |i r|]; try discriminate Hprog.
  - unfold exec in Hexec. unfold progresses in Hprog.
    destruct (nth_error (inflight s) i) as [[req task]|] eqn:Hn; [|discriminate Hexec].
    destruct (perform req r (db s)) as [[d a]|]; [|discriminate Hexec].
    destruct (resume task a (clock s) (ui s)) as [o|] eqn:Hres; [|discriminate Hexec].
    injection Hexec as <-. rewrite ui_commit.
    eapply Nat.le_trans; [|apply afterRender_rank].
    destruct (flightOk_single _ _ _ _ Hfl Hn) as [_ [_ Hok]].
    destruct task as [| |snap u' q|snap u' q sid|snap u' q sid|snap q saved|snap mid
                     |mid resp|mid msg|mid msg];
      try discriminate Hprog;
      destruct a as [a|a|a|o'|o']; try discriminate Hres;
      cbn [resume] in Hres; injection Hres as <-.
    + unfold handleSearch_saved.
      destruct a as [row|]; [destruct (truthy (MessageRow.id row))|]; cbn; lia.
    + assert (Hstage : currentDisplayStage (ui s) = DisplayStage.fetchingLinks)
        by (destruct req; exact (proj2 Hok)).
      rewrite Hstage.
      destruct (failed o') eqn:Hf.
      * destruct (failed_thrown "Link fetch failed: "
                    "Link fetch network response was not ok" o' Hf) as [m Hm].
        rewrite (handleSearch_linksFetched_failure snap (ui s) q saved o' m Hm).
        cbn. lia.
      * destruct o' as [m|st body|m|links]; try discriminate Hf.
        unfold handleSearch_linksFetched.
        destruct (0 <? List.length (FetchedLinksResponse.results links))%nat; cbn; lia.
    + assert (Hstage : currentDisplayStage (ui s) = DisplayStage.fetchingAiAnalysis)
        by (destruct req; exact (proj2 Hok)).
      rewrite Hstage.
      destruct (failed o') eqn:Hf.
      * destruct (failed_thrown "AI analysis failed: "
                    "AI analysis network response was not ok" o' Hf) as [m Hm].
        rewrite (fetchAiAnalysis_fetched_failure snap (ui s) mid o' m Hm).
        cbn. lia.
      * destruct o' as [m|st body|m|resp]; try discriminate Hf.
        unfold fetchAiAnalysis_fetched.
        destruct (saveChatMessage snap (responseOnly resp) mid); cbn; lia.
    + cbn. lia.
    + destruct req; contradiction.
    + destruct req; contradiction.
  - unfold exec in Hexec.
    destruct (stageEffect (ui s)) as [|cb d|q l m] eqn:E; try discriminate Hexec.
    injection Hexec as <-. rewrite ui_commit.
    eapply Nat.le_trans; [|apply afterRender_rank].
    cbn [fst]. exact (timerFired_rank (ui s) cb d E).
Qed.

Lemma stages_never_go_back_witness :
  currentDisplayStage (ui linksArrived) = DisplayStage.gatheringLinks
  /\ currentDisplayStage (ui lastLinkShown) = DisplayStage.fetchingAiAnalysis
  /\ stageRank (currentDisplayStage (ui linksArrived))
     <= stageRank (currentDisplayStage (ui lastLinkShown)).
Proof.
  split; [vm_compute; reflexivity|]. split; [vm_compute; reflexivity|].
  pose proof (stages_never_go_back u1 linksArrivedRun linksArrived lastLinkShown TimerFires)
    as K.
  apply K; vm_compute; reflexivity.
Defined.

(** ** A whole query, step by step *)

Lemma sameContext_refl (st : State) : sameContext st st.
Proof. unfold sameContext. repeat split; reflexivity. Qed.

Lemma sameContext_trans (a b c : State) :
  sameContext a b -> sameContext b c -> sameContext a c.
Proof.
  unfold sameContext. intros [A1 [A2 [A3 [A4 A5]]]] [B1 [B2 [B3 [B4 B5]]]].
  rewrite B1, B2, B3, B4, B5. repeat split; assumption.
Qed.

Lemma no_call_outside_reveal (st : State) :
  currentDisplayStage st <> DisplayStage.gatheringLinks ->
  forall q l m, stageEffect st <> CallFetchAiAnalysis q l m.
Proof.
  intros H q l m E. destruct (stageEffect_call st q l m E) as [_ [Hstage _]].
  exact (H Hstage).
Qed.

Lemma mapWhereId_last (p : string) f (pre : list ChatMessage.t) (m : ChatMessage.t) :
  Forall (fun x => ChatMessage.id x <> Some p) pre ->
  ChatMessage.id m = Some p ->
  mapWhereId (Some p) f (pre ++ [m]) = pre ++ [f m].
Proof.
  intros Hpre Hm. unfold mapWhereId. rewrite map_app. cbn [map].
  rewrite (strictEq_id m p Hm). f_equal.
  induction Hpre as [|x l Hx _ IH]; [reflexivity|].
  cbn [map]. rewrite IH.
  replace (strictEq (ChatMessage.id x) (Some p)) with false
    by (symmetry; apply strictEq_false_iff; exact Hx).
  reflexivity.
Qed.

Lemma saveChatMessage_response (snap : State) (u : User.t) (sid mid : string)
    (r : AiResponse.t) :
  user snap = Some u ->
  currentSessionId snap = Some sid ->
  truthy sid = true ->
  truthy mid = true ->
  saveChatMessage snap (responseOnly r) (Some mid) = Some (UpdateMessage mid r).
Proof.
  intros Hu Hs Hsid Hmid. unfold saveChatMessage, orElse. rewrite Hu, Hs, Hsid.
  cbn [negb truthyOpt]. rewrite Hmid. cbn [responseOnly PartialChatMessage.query
                                           PartialChatMessage.response truthyOpt].
  rewrite Hmid. reflexivity.
Qed.

Lemma exec_ChooseModel_busy (s : Sys) (model : string) :
  currentDisplayStage (ui s) <> DisplayStage.idle ->
  exec (ChooseModel model) s = None.
Proof.
  intros H. unfold exec, modelSelectDisabled.
  destruct (currentDisplayStage (ui s)); try (exfalso; apply H; reflexivity);
    cbn [DisplayStage.eqb negb]; rewrite orb_true_r, andb_false_r; reflexivity.
Qed.

(** The submission, for a session that needs no rename. *)
Lemma exec_Submit_begins (s : Sys) (u : User.t) (sid q : string) :
  pageShown (ui s) = true ->
  searchFormDisabled (ui s) = false ->
  user (ui s) = Some u ->
  currentSessionId (ui s) = Some sid ->
  truthy sid = true ->
  needsRename (ui s) sid = false ->
  truthy (trim q) = true ->
  exists st1,
    exec (Submit q) s
    = Some {| ui := st1; db := db s;
              inflight := inflight s
                          ++ [(InsertMessage sid (User.id u) (trim q) None,
                               AwaitSearchSave (ui s) u (trim q) sid)];
              clock := S (clock s) |}
    /\ sameContext (ui s) st1
    /\ currentDisplayStage st1 = DisplayStage.fetchingLinks
    /\ currentLinkIndex st1 = 0
    /\ currentQuery st1 = trim q
    /\ chatHistory st1 = chatHistory (ui s)
    /\ currentPendingMessageId st1 = currentPendingMessageId (ui s).
Proof.
  intros Hshown Hen Hu Hs Hsid Hren Hq.
  exists (fst (handleSearch_begin (ui s) u (trim q) sid (clock s) (ui s))).
  assert (Hsave := saveChatMessage_initial (ui s) u u sid sid (trim q) Hu Hs Hsid Hq).
  split.
  - unfold exec. rewrite Hshown, Hen. cbn [andb negb]. unfold handleSubmit. rewrite Hq.
    unfold handleSearch. rewrite Hu, trim_idem, Hq, Hs, Hsid, Hren. cbn [negb].
    rewrite commit_quiet.
    + unfold handleSearch_begin. rewrite Hsave. reflexivity.
    + apply stageEffect_quiet. right. right. left.
      destruct (handleSearch_begin_cursor (ui s) u (trim q) sid (clock s) (ui s))
        as [_ [_ K]]. exact K.
  - unfold handleSearch_begin. rewrite Hsave. unfold sameContext. cbn.
    repeat split; reflexivity.
Qed.

(** The insert of the pending message is done. *)
Lemma exec_Resolve_saved (s : Sys) (snap : State) (u : User.t)
    (sid sid' uid q mid created : string) :
  inflight s = [(InsertMessage sid uid q None, AwaitSearchSave snap u q sid')] ->
  currentDisplayStage (ui s) = DisplayStage.fetchingLinks ->
  truthy mid = true ->
  exists st2,
    exec (Resolve 0 (StoreDone mid created)) s
    = Some {| ui := st2;
              db := {| chat_sessions := chat_sessions (db s);
                       chat_messages := chat_messages (db s)
                                        ++ [MessageRow.mk mid q None created sid uid] |};
              inflight := [(PostFetchLinks q,
                            AwaitSearchLinks snap q
                              (Some (MessageRow.mk mid q None created sid uid)))];
              clock := S (clock s) |}
    /\ sameContext (ui s) st2
    /\ currentDisplayStage st2 = DisplayStage.fetchingLinks
    /\ currentLinkIndex st2 = currentLinkIndex (ui s)
    /\ currentQuery st2 = currentQuery (ui s)
    /\ chatHistory st2 = chatHistory (ui s) ++ [initialItem u q sid' mid (Some created)]
    /\ currentPendingMessageId st2 = Some mid.
Proof.
  intros Hin Hstage Hmid.
  exists (fst (handleSearch_saved snap u q sid'
                 (Some (MessageRow.mk mid q None created sid uid)) (clock s) (ui s))).
  assert (F : currentDisplayStage
                (fst (handleSearch_saved snap u q sid'
                        (Some (MessageRow.mk mid q None created sid uid)) (clock s) (ui s)))
              = DisplayStage.fetchingLinks).
  { unfold handleSearch_saved. cbn [MessageRow.id]. rewrite Hmid. cbn. exact Hstage. }
  split.
  - rewrite (exec_Resolve s 0 (StoreDone mid created)
               (InsertMessage sid uid q None) (AwaitSearchSave snap u q sid')
               {| chat_sessions := chat_sessions (db s);
                  chat_messages := chat_messages (db s)
                                   ++ [MessageRow.mk mid q None created sid uid] |}
               (MessageAnswer (Some (MessageRow.mk mid q None created sid uid)))
               (handleSearch_saved snap u q sid'
                  (Some (MessageRow.mk mid q None created sid uid)) (clock s) (ui s))).
    + rewrite Hin. cbn [removeNth firstn skipn app].
      rewrite commit_quiet by (apply stageEffect_quiet; right; right; left; exact F).
      reflexivity.
    + rewrite Hin. reflexivity.
    + reflexivity.
    + reflexivity.
  - split; [|split; [exact F|]].
    + unfold handleSearch_saved, sameContext. cbn [MessageRow.id]. rewrite Hmid. cbn.
      repeat split; reflexivity.
    + unfold handleSearch_saved. cbn [MessageRow.id]. rewrite Hmid. cbn.
      repeat split; reflexivity.
Qed.

(** The reveal as a run of the page: from the render that starts it, one
    firing of the timer per link still to draw, and the analysis is posted. *)
Lemma commit_reveal (links : FetchedLinksResponse.t) :
  forall (k : nat) (s : Sys) (d : Store) (o : Outcome),
    revealing links (fst o) ->
    snd o = None ->
    currentLinkIndex (fst o) + S k = List.length (FetchedLinksResponse.results links) ->
    exists s' snapL,
      execAll (repeat TimerFires k) (commit s d [] o) = Some s'
      /\ inflight s'
         = [(PostAiAnalysis (aiEndpoint (selectedAiModel (fst o))) (currentQuery (fst o))
               links,
             AwaitAiFetch snapL (currentPendingMessageId (fst o)))]
      /\ sameContext (fst o) snapL
      /\ db s' = d
      /\ sameContext (fst o) (ui s')
      /\ currentDisplayStage (ui s') = DisplayStage.fetchingAiAnalysis
      /\ S (currentLinkIndex (ui s')) = List.length (FetchedLinksResponse.results links)
      /\ chatHistory (ui s') = chatHistory (fst o)
      /\ currentPendingMessageId (ui s') = currentPendingMessageId (fst o)
      /\ currentQuery (ui s') = currentQuery (fst o).
Proof.
  induction k as [|k IH]; intros s d o Hrev Hsnd Hleft;
    pose proof (revealing_effect links _ eq_refl (fst o) Hrev) as E.
  - replace (currentLinkIndex (fst o)
             <? List.length (FetchedLinksResponse.results links) - 1)%nat
      with false in E by (symmetry; apply Nat.ltb_ge; lia).
    rewrite andb_false_r in E.
    exists {| ui := fst (fetchAiAnalysis (fst o) (currentQuery (fst o)) links
                           (currentPendingMessageId (fst o)) (fst o));
              db := d;
              inflight := [snd (fetchAiAnalysis (fst o) (currentQuery (fst o)) links
                                  (currentPendingMessageId (fst o)) (fst o))];
              clock := S (clock s) |}, (fst o).
    split.
    + cbn [repeat execAll]. unfold commit, afterRender. rewrite Hsnd, E. reflexivity.
    + cbn. split; [reflexivity|]. split; [apply sameContext_refl|].
      split; [reflexivity|]. split; [unfold sameContext; repeat split; reflexivity|].
      split; [reflexivity|]. split; [lia|]. repeat split; reflexivity.
  - replace (0 <? List.length (FetchedLinksResponse.results links))%nat
      with true in E by (symmetry; apply Nat.ltb_lt; lia).
    replace (currentLinkIndex (fst o)
             <? List.length (FetchedLinksResponse.results links) - 1)%nat
      with true in E by (symmetry; apply Nat.ltb_lt; lia).
    cbn [andb] in E.
    destruct (revealing_next links (fst o) Hrev) as [Hrev' [Hcur [Hq [Hp Hh]]]].
    destruct (IH {| ui := fst o; db := d; inflight := []; clock := S (clock s) |} d
                (timerFired IncrementLinkIndex (fst o), None))
      as [s' [snapL [Hrun [Hfl [Hsnap [Hdb [Hctx [Hstage [Hidx [Hhist [Hpend Hquery]]]]]]]]]]].
    + exact Hrev'.
    + reflexivity.
    + cbn [fst]. rewrite Hcur. lia.
    + exists s', snapL. split.
      * cbn [repeat execAll]. rewrite (commit_timer s d [] o _ _ E), Hsnd.
        cbn [addCall]. unfold exec. cbn [ui db inflight]. rewrite E. exact Hrun.
      * cbn [fst] in *. rewrite Hq, Hp in Hfl. rewrite Hq in Hquery. rewrite Hp in Hpend.
        rewrite Hh in Hhist.
        assert (Hc : sameContext (fst o) (timerFired IncrementLinkIndex (fst o)))
          by (unfold sameContext; repeat split; reflexivity).
        split; [exact Hfl|].
        split; [exact (sameContext_trans _ _ _ Hc Hsnap)|].
        split; [exact Hdb|].
        split; [exact (sameContext_trans _ _ _ Hc Hctx)|].
        split; [exact Hstage|]. split; [exact Hidx|]. split; [exact Hhist|].
        split; [exact Hpend | exact Hquery].
Qed.

(** The links arrive and are drawn one by one. *)
Lemma exec_links_reveal (s : Sys) (snap : State) (q mid : string) (row : MessageRow.t)
    (links : FetchedLinksResponse.t) :
  inflight s = [(PostFetchLinks q, AwaitSearchLinks snap q (Some row))] ->
  MessageRow.id row = mid ->
  truthy mid = true ->
  currentPendingMessageId (ui s) = Some mid ->
  isLoadingAuth (ui s) = false ->
  truthy (currentQuery (ui s)) = true ->
  currentLinkIndex (ui s) = 0 ->
  0 < List.length (FetchedLinksResponse.results links) ->
  exists s' snapL,
    execAll (Resolve 0 (LinksOutcome (FetchOk links))
             :: repeat TimerFires (List.length (FetchedLinksResponse.results links) - 1)) s
    = Some s'
    /\ inflight s'
       = [(PostAiAnalysis (aiEndpoint (selectedAiModel (ui s))) (currentQuery (ui s)) links,
           AwaitAiFetch snapL (Some mid))]
    /\ sameContext (ui s) snapL
    /\ db s' = db s
    /\ sameContext (ui s) (ui s')
    /\ currentDisplayStage (ui s') = DisplayStage.fetchingAiAnalysis
    /\ S (currentLinkIndex (ui s')) = List.length (FetchedLinksResponse.results links)
    /\ chatHistory (ui s')
       = mapWhereId (Some mid) (withFetchedLinks links DisplayStage.gatheringLinks)
           (chatHistory (ui s))
    /\ currentPendingMessageId (ui s') = Some mid
    /\ currentQuery (ui s') = currentQuery (ui s).
Proof.
  intros Hin Hrow Hmid Hp Hauth Hq Hcur Hn.
  assert (Hn' : (0 <? List.length (FetchedLinksResponse.results links))%nat = true)
    by (apply Nat.ltb_lt; exact Hn).
  set (st3 := setIsLoading false
                (setCurrentDisplayStage DisplayStage.gatheringLinks
                   (setChatHistory
                      (mapWhereId (Some mid)
                         (withFetchedLinks links DisplayStage.gatheringLinks)
                         (chatHistory (ui s)))
                      (setFetchedLinksData (Some links) (ui s))))).
  assert (Ho : handleSearch_linksFetched snap q (Some row) (FetchOk links) (ui s)
               = (st3, None)).
  { unfold handleSearch_linksFetched, orElse. cbn [recordId option_map truthyOpt].
    rewrite Hrow, Hmid, Hn'. reflexivity. }
  assert (Hrev : revealing links st3).
  { unfold revealing. subst st3. cbn. rewrite Hp. cbn [truthyOpt].
    repeat split; assumption. }
  destruct (commit_reveal links (List.length (FetchedLinksResponse.results links) - 1)
              s (db s) (st3, None))
    as [s' [snapL [Hrun [Hfl [Hsnap [Hdb [Hctx [Hstage [Hidx [Hhist [Hpend Hquery]]]]]]]]]]].
  - exact Hrev.
  - reflexivity.
  - cbn [fst]. subst st3. cbn. rewrite Hcur. lia.
  - exists s', snapL. split.
    + cbn [execAll].
      rewrite (exec_Resolve s 0 (LinksOutcome (FetchOk links)) (PostFetchLinks q)
                 (AwaitSearchLinks snap q (Some row)) (db s)
                 (LinksAnswer (FetchOk links)) (st3, None)).
      * rewrite Hin. cbn [removeNth firstn skipn app]. exact Hrun.
      * rewrite Hin. reflexivity.
      * reflexivity.
      * cbn [resume]. rewrite Ho. reflexivity.
    + cbn [fst] in *.
      assert (Hc : sameContext (ui s) st3)
        by (unfold sameContext; repeat split; reflexivity).
      change (currentPendingMessageId st3) with (currentPendingMessageId (ui s))
        in Hfl, Hpend.
      rewrite Hp in Hfl, Hpend.
      split; [exact Hfl|].
      split; [exact (sameContext_trans _ _ _ Hc Hsnap)|].
      split; [exact Hdb|].
      split; [exact (sameContext_trans _ _ _ Hc Hctx)|].
      split; [exact Hstage|]. split; [exact Hidx|]. split; [exact Hhist|].
      split; [exact Hpend | exact Hquery].
Qed.

(** The analysis arrives: it is kept, the stage becomes [subquestions] and
    the update of the stored message is issued. *)
Lemma exec_analysis_arrives (s : Sys) (snapL : State) (u : User.t) (sid mid : string)
    (ep q : string) (l : FetchedLinksResponse.t) (r : AiResponse.t) :
  inflight s = [(PostAiAnalysis ep q l, AwaitAiFetch snapL (Some mid))] ->
  user snapL = Some u ->
  currentSessionId snapL = Some sid ->
  truthy sid = true ->
  truthy mid = true ->
  exists st4,
    exec (Resolve 0 (AiOutcome (FetchOk r))) s
    = Some {| ui := st4; db := db s;
              inflight := [(UpdateMessage mid r, AwaitAiSave (Some mid) r)];
              clock := S (clock s) |}
    /\ sameContext (ui s) st4
    /\ currentDisplayStage st4 = DisplayStage.subquestions
    /\ aiAnalysisData st4 = Some r
    /\ chatHistory st4 = chatHistory (ui s)
    /\ currentPendingMessageId st4 = currentPendingMessageId (ui s).
Proof.
  intros Hin Hu Hs Hsid Hmid.
  set (st4 := setCurrentDisplayStage DisplayStage.subquestions
                (setAiAnalysisData (Some r) (ui s))).
  exists st4. split.
  - rewrite (exec_Resolve s 0 (AiOutcome (FetchOk r)) (PostAiAnalysis ep q l)
               (AwaitAiFetch snapL (Some mid)) (db s) (AiAnswer (FetchOk r))
               (st4, Some (UpdateMessage mid r, AwaitAiSave (Some mid) r))).
    + rewrite Hin. cbn [removeNth firstn skipn app].
      rewrite commit_plain by (apply no_call_outside_reveal; cbn; discriminate).
      reflexivity.
    + rewrite Hin. reflexivity.
    + reflexivity.
    + cbn [resume]. unfold fetchAiAnalysis_fetched.
      rewrite (saveChatMessage_response snapL u sid mid r Hu Hs Hsid Hmid). reflexivity.
  - unfold sameContext. repeat split; reflexivity.
Qed.

(** The update of the stored message is done: the answer is put into the
    history item. *)
Lemma exec_answer_saved (s : Sys) (mid : string) (r : AiResponse.t) (reply : Reply) :
  inflight s = [(UpdateMessage mid r, AwaitAiSave (Some mid) r)] ->
  currentDisplayStage (ui s) <> DisplayStage.gatheringLinks ->
  (exists a b, reply = StoreDone a b) ->
  exec (Resolve 0 reply) s
  = Some {| ui := fetchAiAnalysis_saved (Some mid) r (ui s);
            db := updateMessage mid r (db s); inflight := []; clock := S (clock s) |}.
Proof.
  intros Hin Hstage [a [b ->]].
  rewrite (exec_Resolve s 0 (StoreDone a b) (UpdateMessage mid r)
             (AwaitAiSave (Some mid) r) (updateMessage mid r (db s))
             (MessageAnswer
                (single (filter (fun row => MessageRow.id row =? mid)
                           (chat_messages (updateMessage mid r (db s))))))
             (fetchAiAnalysis_saved (Some mid) r (ui s), None)).
  - rewrite Hin. cbn [removeNth firstn skipn app].
    rewrite commit_plain by (apply no_call_outside_reveal; exact Hstage). reflexivity.
  - rewrite Hin. reflexivity.
  - reflexivity.
  - reflexivity.
Qed.

(** X8.  A query runs to its final answer.  On a page with an active session
    that needs no rename and no call in flight, a submission whose message is
    saved under a new id [mid], whose link fetch returns N > 0 links and
    whose analysis succeeds goes through exactly these steps: the insert of
    the message, the link fetch, N - 1 firings of the link timer, the analysis
    post (to the endpoint of the selected model, with the trimmed query and
    the fetched links), the update of the stored message, and three firings
    of the stage timer.  At the end the stage is [final], the history has
    grown by one item that carries the query, the links and the answer and is
    drawn as a final answer, the stored row holds the answer, the pending
    marker is cleared, and neither a call nor a timer is left.  The stage
    stays [final], so the model selector, enabled in stage [idle] only,
    remains disabled. *)
Theorem query_runs_to_final_answer :
  forall (s : Sys) (u : User.t) (sid q mid created a b : string)
         (links : FetchedLinksResponse.t) (r : AiResponse.t),
    pageShown (ui s) = true ->
    searchFormDisabled (ui s) = false ->
    inflight s = [] ->
    user (ui s) = Some u ->
    currentSessionId (ui s) = Some sid ->
    truthy sid = true ->
    needsRename (ui s) sid = false ->
    truthy (trim q) = true ->
    truthy mid = true ->
    freshId mid (ui s) = true ->
    0 < List.length (FetchedLinksResponse.results links) ->
    let N := List.length (FetchedLinksResponse.results links) in
    let item stage resp :=
      {| ChatMessage.id := Some mid; ChatMessage.session_id := Some sid;
         ChatMessage.user_id := Some (User.id u); ChatMessage.query := trim q;
         ChatMessage.response := resp; ChatMessage.fetchedLinks := Some links;
         ChatMessage.error := None; ChatMessage.stage := stage;
         ChatMessage.created_at := Some created |} in
    exists s1 s2 s3,
      execAll ([Submit q; Resolve 0 (StoreDone mid created);
                Resolve 0 (LinksOutcome (FetchOk links))]
               ++ repeat TimerFires (N - 1)) s = Some s1
      /\ (currentDisplayStage (ui s1) = DisplayStage.fetchingAiAnalysis
          /\ S (currentLinkIndex (ui s1)) = N
          /\ map fst (inflight s1)
             = [PostAiAnalysis (aiEndpoint (selectedAiModel (ui s))) (trim q) links]
          /\ chatHistory (ui s1)
             = chatHistory (ui s) ++ [item DisplayStage.gatheringLinks None]
          /\ currentPendingMessageId (ui s1) = Some mid
          /\ chat_messages (db s1)
             = chat_messages (db s)
               ++ [MessageRow.mk mid (trim q) None created sid (User.id u)])
      /\ execAll [Resolve 0 (AiOutcome (FetchOk r)); Resolve 0 (StoreDone a b)] s1 = Some s2
      /\ (currentDisplayStage (ui s2) = DisplayStage.subquestions
          /\ aiAnalysisData (ui s2) = Some r
          /\ chatHistory (ui s2)
             = chatHistory (ui s) ++ [item DisplayStage.gatheringLinks (Some r)]
          /\ In (MessageRow.mk mid (trim q) (Some r) created sid (User.id u))
               (chat_messages (db s2))
          /\ inflight s2 = [])
      /\ execAll [TimerFires; TimerFires; TimerFires] s2 = Some s3
      /\ (currentDisplayStage (ui s3) = DisplayStage.final
          /\ chatHistory (ui s3) = chatHistory (ui s) ++ [item DisplayStage.final (Some r)]
          /\ shownFinalAnswer (item DisplayStage.final (Some r)) = Some r
          /\ currentPendingMessageId (ui s3) = None
          /\ currentSessionId (ui s3) = Some sid
          /\ inflight s3 = []
          /\ db s3 = db s2
          /\ exec TimerFires s3 = None
          /\ (forall model, exec (ChooseModel model) s3 = None)).
Proof.
  intros s u sid q mid created a b links r Hshown Hen Hin Hu Hs Hsid Hren Hq Hmid Hfresh Hn
         N item.
  destruct (pageShown_user _ Hshown) as [Hauth _].
  pose proof (freshId_spec mid (ui s) Hfresh) as Hfr.
  (* the submission *)
  destruct (exec_Submit_begins s u sid q Hshown Hen Hu Hs Hsid Hren Hq)
    as [st1 [E1 [[U1 [A1 [S1 [_ M1]]]] [G1 [I1 [Q1 [H1 _]]]]]]].
  rewrite Hin in E1. cbn [app] in E1.
  remember {| ui := st1; db := db s;
              inflight := [(InsertMessage sid (User.id u) (trim q) None,
                            AwaitSearchSave (ui s) u (trim q) sid)];
              clock := S (clock s) |} as sa eqn:Esa.
  assert (Fa : ui sa = st1 /\ db sa = db s
               /\ inflight sa = [(InsertMessage sid (User.id u) (trim q) None,
                                  AwaitSearchSave (ui s) u (trim q) sid)])
    by (rewrite Esa; repeat split; reflexivity).
  clear Esa. destruct Fa as [Fa1 [Fa2 Fa3]].
  (* the message is saved *)
  destruct (exec_Resolve_saved sa (ui s) u sid sid (User.id u) (trim q) mid created Fa3)
    as [st2 [E2 [[U2 [A2 [S2 [_ M2]]]] [G2 [I2 [Q2 [H2 P2]]]]]]];
    [rewrite Fa1; exact G1 | exact Hmid |].
  rewrite Fa1 in U2, A2, S2, M2, I2, Q2, H2. rewrite Fa2 in E2.
  set (row := MessageRow.mk mid (trim q) None created sid (User.id u)) in *.
  remember {| ui := st2;
              db := {| chat_sessions := chat_sessions (db s);
                       chat_messages := chat_messages (db s) ++ [row] |};
              inflight := [(PostFetchLinks (trim q),
                            AwaitSearchLinks (ui s) (trim q) (Some row))];
              clock := S (clock sa) |} as sb eqn:Esb.
  assert (Fb : ui sb = st2
               /\ chat_messages (db sb) = chat_messages (db s) ++ [row]
               /\ inflight sb = [(PostFetchLinks (trim q),
                                  AwaitSearchLinks (ui s) (trim q) (Some row))])
    by (rewrite Esb; repeat split; reflexivity).
  clear Esb. destruct Fb as [Fb1 [Fb2 Fb3]].
  (* the links arrive and are drawn *)
  destruct (exec_links_reveal sb (ui s) (trim q) mid row links Fb3)
    as [sc [snapL [E3 [Fc3 [[UL [_ [SL _]]] [Dc [[U3 [A3 [S3 [_ M3]]]]
          [G3 [I3 [H3 [P3 Q3]]]]]]]]]]];
    [reflexivity | exact Hmid | rewrite Fb1; exact P2
    | rewrite Fb1, A2, A1; exact Hauth
    | rewrite Fb1, Q2, Q1; exact Hq
    | rewrite Fb1, I2; exact I1
    | exact Hn |].
  rewrite Fb1 in *.
  rewrite M2, M1, Q2, Q1 in Fc3. rewrite U2, U1 in UL, U3. rewrite S2, S1 in SL, S3.
  rewrite A2, A1 in A3. rewrite H2, H1 in H3.
  rewrite (mapWhereId_last mid _ (chatHistory (ui s))
             (initialItem u (trim q) sid mid (Some created)) Hfr eq_refl) in H3.
  change (withFetchedLinks links DisplayStage.gatheringLinks
            (initialItem u (trim q) sid mid (Some created)))
    with (item DisplayStage.gatheringLinks None) in H3.
  (* the analysis arrives *)
  destruct (exec_analysis_arrives sc snapL u sid mid _ _ _ r Fc3)
    as [st4 [E4 [[U4 [A4 [S4 _]]] [G4 [D4 [H4 P4]]]]]];
    [rewrite UL; exact Hu | rewrite SL; exact Hs | exact Hsid | exact Hmid |].
  remember {| ui := st4; db := db sc;
              inflight := [(UpdateMessage mid r, AwaitAiSave (Some mid) r)];
              clock := S (clock sc) |} as sd eqn:Esd.
  assert (Fd : ui sd = st4 /\ db sd = db sc
               /\ inflight sd = [(UpdateMessage mid r, AwaitAiSave (Some mid) r)])
    by (rewrite Esd; repeat split; reflexivity).
  clear Esd. destruct Fd as [Fd1 [Fd2 Fd3]].
  (* the answer is saved *)
  assert (E5 := exec_answer_saved sd mid r (StoreDone a b) Fd3).
  rewrite Fd1, Fd2, Dc in E5.
  specialize (E5 ltac:(rewrite G4; discriminate) ltac:(exists a, b; reflexivity)).
  remember {| ui := fetchAiAnalysis_saved (Some mid) r st4;
              db := updateMessage mid r (db sb); inflight := [];
              clock := S (clock sd) |} as se eqn:Ese.
  assert (Fe : chatHistory (ui se)
               = chatHistory (ui s) ++ [item DisplayStage.gatheringLinks (Some r)]
               /\ currentDisplayStage (ui se) = DisplayStage.subquestions
               /\ aiAnalysisData (ui se) = Some r
               /\ currentPendingMessageId (ui se) = Some mid
               /\ isLoadingAuth (ui se) = false
               /\ currentSessionId (ui se) = Some sid
               /\ inflight se = []
               /\ db se = updateMessage mid r (db sb)).
  { rewrite Ese. cbn [ui db inflight]. unfold fetchAiAnalysis_saved.
    cbn [chatHistory currentDisplayStage aiAnalysisData currentPendingMessageId
         isLoadingAuth currentSessionId setChatHistory].
    rewrite H4, H3, G4, D4, P4, P3, A4, A3, S4, S3.
    rewrite (mapWhereId_last mid _ (chatHistory (ui s))
               (item DisplayStage.gatheringLinks None) Hfr eq_refl).
    repeat split; try reflexivity; assumption. }
  destruct Fe as [He [Ge [De [Pe [Ae [Se [Fle Dbe]]]]]]].
  (* the three dwell stages *)
  destruct (dwell_run se r mid Ge De Pe Hmid Ae) as [[K1 [K2 [K3 K4]]] _].
  eexists. eexists. eexists.
  split; [|split; [|split; [|split; [|split]]]].
  - cbn [app execAll]. rewrite E1, E2. cbn [execAll] in E3. exact E3.
  - split; [exact G3|]. split; [exact I3|]. split; [rewrite Fc3; reflexivity|].
    split; [exact H3|]. split; [exact P3|]. rewrite Dc. exact Fb2.
  - cbn [execAll]. rewrite E4, E5. reflexivity.
  - split; [exact Ge|]. split; [exact De|]. split; [exact He|]. split; [|exact Fle].
    rewrite Dbe. unfold updateMessage. cbn [chat_messages]. rewrite Fb2, map_app.
    apply in_or_app. right. cbn [map row MessageRow.id]. rewrite String.eqb_refl.
    left. reflexivity.
  - cbn [execAll]. rewrite K1, K2, K3. reflexivity.
  - cbn [ui db inflight]. split; [reflexivity|]. split.
    { cbn. rewrite He.
      rewrite (mapWhereId_last mid _ (chatHistory (ui s))
                 (item DisplayStage.gatheringLinks (Some r)) Hfr eq_refl).
      reflexivity. }
    split; [reflexivity|]. split; [reflexivity|]. split; [exact Se|].
    split; [exact Fle|]. split; [reflexivity|]. split; [exact K4|].
    intros model. apply exec_ChooseModel_busy. cbn [ui]. discriminate.
Qed.

Lemma query_runs_to_final_answer_witness :
  let s := {| ui := setChatSessionsList [ChatSession.mk "s1" "u1" "t0" (Some "earlier")]
                      (setCurrentSessionId (Some "s1") (signedIn u1));
              db := {| chat_sessions := [ChatSession.mk "s1" "u1" "t0" (Some "earlier")];
                       chat_messages := [] |};
              inflight := []; clock := 0 |} in
  exists s3,
    execAll [Submit " q1 "; Resolve 0 (StoreDone "m1" "t1");
             Resolve 0 (LinksOutcome (FetchOk twoLinks)); TimerFires;
             Resolve 0 (AiOutcome (FetchOk answerOfQ1)); Resolve 0 (StoreDone "" "");
             TimerFires; TimerFires; TimerFires] s = Some s3
    /\ currentDisplayStage (ui s3) = DisplayStage.final.
Proof.
  intros s.
  destruct (query_runs_to_final_answer s u1 "s1" " q1 " "m1" "t1" "" "" twoLinks answerOfQ1)
    as [s1 [s2 [s3 [K1 [_ [K2 [_ [K3 [G _]]]]]]]]];
    [reflexivity | reflexivity | reflexivity | reflexivity | reflexivity | reflexivity
    | reflexivity | reflexivity | reflexivity | reflexivity | simpl; lia |].
  exists s3. split; [|exact G].
  change (execAll
            (([Submit " q1 "; Resolve 0 (StoreDone "m1" "t1");
               Resolve 0 (LinksOutcome (FetchOk twoLinks))]
              ++ repeat TimerFires
                   (List.length (FetchedLinksResponse.results twoLinks) - 1))
             ++ [Resolve 0 (AiOutcome (FetchOk answerOfQ1)); Resolve 0 (StoreDone "" "")]
             ++ [TimerFires; TimerFires; TimerFires]) s = Some s3).
  rewrite execAll_app, K1, execAll_app, K2. exact K3.
Defined.

(** ** A query without a session *)

Lemma sessionCreated_skips_save (snap st : State) (u : User.t) (q : string)
    (data : ChatSession.t) (now : nat) :
  truthyOpt (currentSessionId snap) = false ->
  truthy (ChatSession.id data) = true ->
  handleSearch_sessionCreated snap u q (Some data) now st
  = handleSearch_saved snap u q (ChatSession.id data) None now
      (setLoadingMessage "Fetching relevant links..."
         (setCurrentDisplayStage DisplayStage.fetchingLinks
            (setCurrentLinkIndex 0
               (setAiAnalysisData None
                  (setFetchedLinksData None
                     (setError None
                        (setIsLoading true
                           (setCurrentQuery q
                              (setChatHistory []
                                 (setChatSessionsList (data :: chatSessionsList st)
                                    (setCurrentSessionId (Some (ChatSession.id data))
                                       (setIsLoading false st)))))))))))).
Proof.
  intros Hs Hd. unfold handleSearch_sessionCreated. rewrite Hd. cbn [negb].
  unfold handleSearch_begin. rewrite (saveChatMessage_no_session _ _ _ Hs). reflexivity.
Qed.

Lemma searchForm_enabled (st : State) :
  searchFormDisabled st = false ->
  isLoading st = false /\ isLoadingSessions st = false /\ isLoadingMessages st = false.
Proof.
  unfold searchFormDisabled. intros H.
  apply orb_false_iff in H. destruct H as [H _].
  apply orb_false_iff in H. destruct H as [H _].
  apply orb_false_iff in H. destruct H as [H H3].
  apply orb_false_iff in H. destruct H as [H1 H2].
  repeat split; assumption.
Qed.

(** X21.  A query submitted without an active session is never answered.
    On a page without active session (a fresh sign-in, or after a failed new
    chat) the submission creates a session named after the query, but the
    message is not stored and no pending marker is set.  If the link fetch
    returns links, the page enters [gatheringLinks] and stops there: no
    timer, no call, nothing drawn under the item, the form enabled.  If it
    returns no link, the analysis is still requested, but its answer is
    neither stored nor attached to the item, and the page stops in
    [subquestions] without a timer.  In both cases the store has no row for
    the query. *)
Theorem query_without_session_is_never_answered :
  forall (s : Sys) (u : User.t) (q sid created : string)
         (links : FetchedLinksResponse.t) (r : AiResponse.t),
    pageShown (ui s) = true ->
    searchFormDisabled (ui s) = false ->
    inflight s = [] ->
    user (ui s) = Some u ->
    truthyOpt (currentSessionId (ui s)) = false ->
    currentPendingMessageId (ui s) = None ->
    truthy (trim q) = true ->
    truthy sid = true ->
    let item :=
      initialItem u (trim q) sid ("local-" ++ numberToString (S (clock s)))%string None in
    exists s1,
      execAll [Submit q; Resolve 0 (StoreDone sid created)] s = Some s1
      /\ map fst (inflight s1) = [PostFetchLinks (trim q)]
      /\ chat_sessions (db s1)
         = chat_sessions (db s)
           ++ [ChatSession.mk sid (User.id u) created (Some (newSessionName (trim q)))]
      /\ chat_messages (db s1) = chat_messages (db s)
      /\ currentSessionId (ui s1) = Some sid
      /\ chatHistory (ui s1) = [item]
      /\ currentPendingMessageId (ui s1) = None
      /\ (0 < List.length (FetchedLinksResponse.results links) ->
          exists s2,
            exec (Resolve 0 (LinksOutcome (FetchOk links))) s1 = Some s2
            /\ currentDisplayStage (ui s2) = DisplayStage.gatheringLinks
            /\ chatHistory (ui s2) = [item]
            /\ showsThinking (ui s2) item = false
            /\ inflight s2 = []
            /\ exec TimerFires s2 = None
            /\ searchFormDisabled (ui s2) = false
            /\ chat_messages (db s2) = chat_messages (db s))
      /\ (FetchedLinksResponse.results links = [] ->
          exists s2,
            execAll [Resolve 0 (LinksOutcome (FetchOk links));
                     Resolve 0 (AiOutcome (FetchOk r))] s1 = Some s2
            /\ currentDisplayStage (ui s2) = DisplayStage.subquestions
            /\ aiAnalysisData (ui s2) = Some r
            /\ chatHistory (ui s2) = [item]
            /\ showsThinking (ui s2) item = false
            /\ inflight s2 = []
            /\ exec TimerFires s2 = None
            /\ chat_messages (db s2) = chat_messages (db s))
      /\ shownFinalAnswer item = None.
Proof.
  intros s u q sid created links r Hshown Hen Hin Hu Hs Hp Hq Hsid item.
  destruct (pageShown_user _ Hshown) as [Hauth _].
  destruct (searchForm_enabled _ Hen) as [HlL [HlS HlM]].
  set (name := newSessionName (trim q)).
  set (row := ChatSession.mk sid (User.id u) created (Some name)).
  (* the submission *)
  set (sa := {| ui := setIsLoading true (ui s); db := db s;
                inflight := [(InsertSession (User.id u) name,
                              AwaitSearchSession (ui s) u (trim q))];
                clock := S (clock s) |}).
  assert (Ea : exec (Submit q) s = Some sa).
  { unfold exec. rewrite Hshown, Hen, Hin. cbn [andb negb]. unfold handleSubmit. rewrite Hq.
    assert (E : handleSearch (ui s) (trim q) (clock s) (ui s)
                = (setIsLoading true (ui s),
                   Some (InsertSession (User.id u) name,
                         AwaitSearchSession (ui s) u (trim q)))).
    { unfold handleSearch. rewrite Hu, trim_idem, Hq. cbn [negb].
      destruct (currentSessionId (ui s)) as [x|]; [|reflexivity].
      simpl in Hs. rewrite Hs. reflexivity. }
    rewrite E.
    rewrite commit_quiet by (apply stageEffect_no_marker; cbn; rewrite Hp; reflexivity).
    reflexivity. }
  (* the session is created *)
  set (o1 := handleSearch_sessionCreated (ui s) u (trim q) (Some row) (S (clock s))
               (setIsLoading true (ui s))).
  assert (F1 : snd o1 = Some (PostFetchLinks (trim q), AwaitSearchLinks (ui s) (trim q) None)
               /\ chatHistory (fst o1) = [item]
               /\ currentPendingMessageId (fst o1) = None
               /\ currentSessionId (fst o1) = Some sid
               /\ currentDisplayStage (fst o1) = DisplayStage.fetchingLinks
               /\ isLoadingSessions (fst o1) = false
               /\ isLoadingMessages (fst o1) = false).
  { subst o1.
    rewrite (sessionCreated_skips_save (ui s) (setIsLoading true (ui s)) u (trim q) row
               (S (clock s)) Hs Hsid).
    unfold handleSearch_saved. cbn. rewrite Hp, HlS, HlM. repeat split; reflexivity. }
  destruct F1 as [F1a [F1b [F1c [F1d [F1e [F1f F1g]]]]]].
  set (d1 := {| chat_sessions := chat_sessions (db s) ++ [row];
                chat_messages := chat_messages (db s) |}).
  set (s1 := {| ui := fst o1; db := d1;
                inflight := [(PostFetchLinks (trim q),
                              AwaitSearchLinks (ui s) (trim q) None)];
                clock := S (S (clock s)) |}).
  assert (E1 : exec (Resolve 0 (StoreDone sid created)) sa = Some s1).
  { rewrite (exec_Resolve sa 0 (StoreDone sid created) (InsertSession (User.id u) name)
               (AwaitSearchSession (ui s) u (trim q)) d1 (SessionAnswer (Some row)) o1).
    - cbn [inflight sa removeNth firstn skipn app].
      rewrite commit_quiet by (apply stageEffect_quiet; right; right; left; exact F1e).
      rewrite F1a. reflexivity.
    - reflexivity.
    - reflexivity.
    - reflexivity. }
  clearbody o1.
  exists s1.
  split; [cbn [execAll]; rewrite Ea, E1; reflexivity|].
  split; [reflexivity|]. split; [reflexivity|]. split; [reflexivity|].
  split; [exact F1d|]. split; [exact F1b|]. split; [exact F1c|].
  split; [|split; [|reflexivity]].
  - (* links are found *)
    intros Hn.
    assert (Hn' : (0 <? List.length (FetchedLinksResponse.results links))%nat = true)
      by (apply Nat.ltb_lt; exact Hn).
    set (st2 := setIsLoading false
                  (setCurrentDisplayStage DisplayStage.gatheringLinks
                     (setChatHistory (chatHistory (fst o1))
                        (setFetchedLinksData (Some links) (fst o1))))).
    assert (Eo : handleSearch_linksFetched (ui s) (trim q) None (FetchOk links) (fst o1)
                 = (st2, None)).
    { unfold handleSearch_linksFetched. cbn [recordId option_map orElse truthyOpt].
      rewrite Hp, Hn'. cbn [chatHistory setFetchedLinksData]. rewrite mapWhereId_null.
      reflexivity. }
    assert (Hquiet : stageEffect st2 = NoAction)
      by (apply stageEffect_no_marker; cbn; rewrite F1c; reflexivity).
    exists {| ui := st2; db := d1; inflight := []; clock := S (S (S (clock s))) |}.
    split.
    { rewrite (exec_Resolve s1 0 (LinksOutcome (FetchOk links)) (PostFetchLinks (trim q))
                 (AwaitSearchLinks (ui s) (trim q) None) d1 (LinksAnswer (FetchOk links))
                 (st2, None)).
      - cbn [inflight s1 removeNth firstn skipn app].
        rewrite (commit_quiet s1 d1 [] (st2, None) Hquiet). reflexivity.
      - reflexivity.
      - reflexivity.
      - cbn [resume ui s1]. rewrite Eo. reflexivity. }
    cbn [ui db inflight].
    split; [reflexivity|]. split; [exact F1b|].
    split; [apply showsThinking_no_marker; cbn; exact F1c|].
    split; [reflexivity|].
    split; [unfold exec; cbn [ui]; rewrite Hquiet; reflexivity|].
    split; [|reflexivity].
    unfold searchFormDisabled. cbn. rewrite F1f, F1g. reflexivity.
  - (* no link is found *)
    intros Hnone.
    set (empty := {| FetchedLinksResponse.query := trim q;
                     FetchedLinksResponse.results := [];
                     FetchedLinksResponse.total_results := Some 0 |}).
    set (o2 := handleSearch_linksFetched (ui s) (trim q) None (FetchOk links) (fst o1)).
    assert (F2 : snd o2 = Some (PostAiAnalysis (aiEndpoint (selectedAiModel (ui s)))
                                  (trim q) empty,
                                AwaitAiFetch (ui s) None)
                 /\ chatHistory (fst o2) = [item]
                 /\ currentPendingMessageId (fst o2) = None
                 /\ currentDisplayStage (fst o2) = DisplayStage.fetchingAiAnalysis).
    { subst o2. unfold handleSearch_linksFetched. cbn [recordId option_map orElse truthyOpt].
      rewrite Hp, Hnone. cbn. rewrite mapWhereId_null. repeat split; assumption. }
    destruct F2 as [F2a [F2b [F2c F2d]]].
    set (s2 := {| ui := fst o2; db := d1;
                  inflight := [(PostAiAnalysis (aiEndpoint (selectedAiModel (ui s)))
                                  (trim q) empty,
                                AwaitAiFetch (ui s) None)];
                  clock := S (S (S (clock s))) |}).
    assert (E2 : exec (Resolve 0 (LinksOutcome (FetchOk links))) s1 = Some s2).
    { rewrite (exec_Resolve s1 0 (LinksOutcome (FetchOk links)) (PostFetchLinks (trim q))
                 (AwaitSearchLinks (ui s) (trim q) None) d1 (LinksAnswer (FetchOk links))
                 o2).
      - cbn [inflight s1 removeNth firstn skipn app].
        rewrite commit_quiet
          by (apply stageEffect_quiet; right; right; right; left; exact F2d).
        rewrite F2a. reflexivity.
      - reflexivity.
      - reflexivity.
      - reflexivity. }
    clearbody o2.
    set (st3 := fetchAiAnalysis_saved None r
                  (setCurrentDisplayStage DisplayStage.subquestions
                     (setAiAnalysisData (Some r) (fst o2)))).
    assert (Eo : fetchAiAnalysis_fetched (ui s) None (FetchOk r) (fst o2) = (st3, None)).
    { unfold fetchAiAnalysis_fetched.
      rewrite (saveChatMessage_no_session _ _ _ Hs). reflexivity. }
    assert (F3 : chatHistory st3 = [item] /\ currentPendingMessageId st3 = None).
    { subst st3. unfold fetchAiAnalysis_saved. cbn. rewrite mapWhereId_null.
      split; assumption. }
    destruct F3 as [F3a F3b].
    assert (Hquiet : stageEffect st3 = NoAction)
      by (apply stageEffect_no_marker; rewrite F3b; reflexivity).
    exists {| ui := st3; db := d1; inflight := []; clock := S (S (S (S (clock s)))) |}.
    split.
    { cbn [execAll]. rewrite E2.
      rewrite (exec_Resolve s2 0 (AiOutcome (FetchOk r))
                 (PostAiAnalysis (aiEndpoint (selectedAiModel (ui s))) (trim q) empty)
                 (AwaitAiFetch (ui s) None) d1 (AiAnswer (FetchOk r)) (st3, None)).
      - cbn [inflight s2 removeNth firstn skipn app].
        rewrite (commit_quiet s2 d1 [] (st3, None) Hquiet). reflexivity.
      - reflexivity.
      - reflexivity.
      - cbn [resume ui s2]. rewrite Eo. reflexivity. }
    cbn [ui db inflight].
    split; [reflexivity|]. split; [reflexivity|]. split; [exact F3a|].
    split; [apply showsThinking_no_marker; exact F3b|].
    split; [reflexivity|].
    split; [unfold exec; cbn [ui]; rewrite Hquiet; reflexivity | reflexivity].
Qed.

Lemma query_without_session_is_never_answered_witness :
  exists s2,
    execAll [Submit "q1"; Resolve 0 (StoreDone "s1" "t0");
             Resolve 0 (LinksOutcome (FetchOk twoLinks))] (start u1) = Some s2
    /\ currentDisplayStage (ui s2) = DisplayStage.gatheringLinks
    /\ exec TimerFires s2 = None
    /\ chat_messages (db s2) = [].
Proof.
  destruct (query_without_session_is_never_answered (start u1) u1 "q1" "s1" "t0"
              twoLinks answerOfQ1)
    as [s1 [K1 [_ [_ [_ [_ [_ [_ [K2 _]]]]]]]]];
    [reflexivity | reflexivity | reflexivity | reflexivity | reflexivity | reflexivity
    | reflexivity | reflexivity |].
  destruct K2 as [s2 [E [G [_ [_ [_ [T [_ D]]]]]]]]; [simpl; lia|].
  exists s2.
  split; [|split; [exact G|split; [exact T|exact D]]].
  change (execAll ([Submit "q1"; Resolve 0 (StoreDone "s1" "t0")]
                   ++ [Resolve 0 (LinksOutcome (FetchOk twoLinks))]) (start u1) = Some s2).
  rewrite execAll_app, K1. cbn [execAll]. rewrite E. reflexivity.
Defined.

(** * The reveal in orderly executions *)

Lemma cursorOk_same (st st' : State) :
  currentDisplayStage st' = currentDisplayStage st ->
  fetchedLinksData st' = fetchedLinksData st ->
  currentLinkIndex st' = currentLinkIndex st ->
  cursorOk st -> cursorOk st'.
Proof. unfold cursorOk. intros -> -> ->. trivial. Qed.

Lemma cursorOk_other (st : State) :
  currentDisplayStage st <> DisplayStage.gatheringLinks -> cursorOk st.
Proof. intros H E. contradiction. Qed.

Lemma searchOk_same (c : Request * Task) (st st' : State) :
  currentLinkIndex st' = currentLinkIndex st ->
  currentQuery st' = currentQuery st ->
  currentPendingMessageId st' = currentPendingMessageId st ->
  searchOk c st -> searchOk c st'.
Proof.
  destruct c as [req t].
  destruct t; unfold searchOk; intros H1 H2 H3; rewrite ?H1, ?H2, ?H3; trivial.
Qed.

(** The link timer is set only on a link that is not the last one. *)
Lemma stageEffect_increment (st : State) d :
  stageEffect st = SetTimeout IncrementLinkIndex d ->
  currentDisplayStage st = DisplayStage.gatheringLinks
  /\ exists links,
       fetchedLinksData st = Some links
       /\ currentLinkIndex st < List.length (FetchedLinksResponse.results links) - 1.
Proof.
  unfold stageEffect. destruct (stageEffectIdle st); [discriminate|].
  unfold advanceStage. destruct (currentDisplayStage st); try discriminate.
  - destruct (fetchedLinksData st) as [links|]; [|discriminate].
    destruct (0 <? List.length (FetchedLinksResponse.results links))%nat.
    + destruct (currentLinkIndex st
                <? List.length (FetchedLinksResponse.results links) - 1)%nat eqn:E.
      * intros _. split; [reflexivity|]. exists links. split; [reflexivity|].
        apply Nat.ltb_lt. exact E.
      * destruct (truthy (currentQuery st)); discriminate.
    + destruct (truthy (currentQuery st)); discriminate.
  - destruct (aiAnalysisData st); discriminate.
  - destruct (aiAnalysisData st); discriminate.
  - destruct (aiAnalysisData st); discriminate.
Qed.

(** While a search waits for its insert or its links no timer is set. *)
Lemma searchOk_timer (c : Request * Task) (st st' : State) cb d :
  stageEffect st = SetTimeout cb d -> callOk c st -> searchOk c st'.
Proof.
  intros Heff Hok. destruct (stageEffect_active st cb d Heff) as [_ [Hnl _]].
  destruct c as [req t]. destruct t; unfold searchOk; try exact I.
  - exfalso. destruct req; simpl in Hok; try contradiction;
      destruct Hok as [_ Hs]; contradiction.
  - exfalso. destruct req; simpl in Hok; destruct Hok as [_ Hs]; contradiction.
Qed.

Lemma commit_revealOk (s : Sys) (d : Store) (calls : list (Request * Task)) (o : Outcome) :
  isLoadingAuth (fst o) = false ->
  cursorOk (fst o) ->
  Forall (fun c => searchOk c (fst o)) (addCall (snd o) calls) ->
  revealOk (commit s d calls o).
Proof.
  intros Ha Hc Hf. unfold revealOk, commit, afterRender.
  destruct (stageEffect (fst o)) as [|cb delay|q l mid]; cbn [ui inflight];
    try (split; [exact Ha | split; [exact Hc | exact Hf]]).
  unfold fetchAiAnalysis. cbn [ui inflight].
  split; [exact Ha|]. split; [apply cursorOk_other; cbn; discriminate|].
  apply Forall_app. split.
  - revert Hf. apply Forall_impl. intros c. apply searchOk_same; reflexivity.
  - constructor; [exact I | constructor].
Qed.

Lemma handleSearch_begin_auth (snap : State) u q sid now (st : State) :
  isLoadingAuth (fst (handleSearch_begin snap u q sid now st)) = isLoadingAuth st.
Proof.
  unfold handleSearch_begin. destruct (saveChatMessage _ _ _); [reflexivity|].
  unfold handleSearch_saved. reflexivity.
Qed.

(** A Submit made with an active session. *)
Lemma handleSubmit_revealOk (st : State) (q : string) (now : nat) :
  isLoadingAuth st = false ->
  cursorOk st ->
  truthyOpt (currentSessionId st) = true ->
  (exists u, user st = Some u) ->
  isLoadingAuth (fst (handleSubmit st q now st)) = false
  /\ cursorOk (fst (handleSubmit st q now st))
  /\ Forall (fun c => searchOk c (fst (handleSubmit st q now st)))
       (addCall (snd (handleSubmit st q now st)) []).
Proof.
  intros Ha Hc Hsess [u Hu]. unfold handleSubmit.
  destruct (truthy (trim q)) eqn:Hq;
    [|cbn [fst snd addCall]; split; [exact Ha | split; [exact Hc | constructor]]].
  unfold handleSearch. rewrite Hu, trim_idem, Hq. cbn [negb].
  destruct (truthyOpt_true _ Hsess) as [sid [Hs Ht]]. rewrite Hs, Ht.
  destruct (needsRename st sid).
  - cbn [fst snd addCall app]. split; [exact Ha|]. split; [exact Hc|].
    constructor; [exact I | constructor].
  - assert (Hsav : savable st (trim q)) by (split; [now exists u | now split]).
    destruct (handleSearch_begin_savable st u (trim q) sid now st Hsav)
      as [st1 [sid' [uid [E _]]]].
    destruct (handleSearch_begin_cursor st u (trim q) sid now st) as [K1 [K2 K3]].
    pose proof (handleSearch_begin_auth st u (trim q) sid now st) as K4.
    rewrite E in *. cbn [fst snd addCall app] in *.
    split; [congruence|]. split; [apply cursorOk_other; rewrite K3; discriminate|].
    constructor; [|constructor]. unfold searchOk. repeat split; assumption.
Qed.

(** The continuation of the one call in flight. *)
Lemma resume_revealOk (req : Request) (task : Task) (a : Answer) (now : nat)
    (st : State) (o : Outcome) :
  isLoadingAuth st = false ->
  cursorOk st ->
  callOk (req, task) st ->
  searchOk (req, task) st ->
  resume task a now st = Some o ->
  (forall snap u q sid, task = AwaitSearchSave snap u q sid ->
     exists row, a = MessageAnswer (Some row) /\ truthy (MessageRow.id row) = true) ->
  isLoadingAuth (fst o) = false
  /\ cursorOk (fst o)
  /\ Forall (fun c => searchOk c (fst o)) (addCall (snd o) []).
Proof.
  intros Ha Hc Hok Hsok Hres Hsave.
  destruct task as [ | | snap u q | snap u q sid | snap u q sid | snap q saved
                   | snap mid | mid r | mid e | tgt e];
    destruct a as [sa | ma | msa | lo | ao]; try discriminate; cbn [resume] in Hres;
    injection Hres as <-.
  - (* new chat inserted *)
    cbn [fst snd addCall].
    destruct sa; (split; [exact Ha | split; [|constructor]]);
      revert Hc; apply cursorOk_same; reflexivity.
  - (* messages loaded *)
    cbn [fst snd addCall].
    destruct msa; (split; [exact Ha | split; [|constructor]]);
      revert Hc; apply cursorOk_same; reflexivity.
  - (* session created for the search *)
    destruct req; simpl in Hok; contradiction.
  - (* session renamed *)
    assert (Hsav : savable snap q) by (destruct req; exact (proj2 Hok)).
    unfold handleSearch_renamed.
    match goal with
    | |- context [handleSearch_begin snap u q sid now ?s] =>
        destruct (handleSearch_begin_savable snap u q sid now s Hsav)
          as [st1 [sid' [uid [E _]]]];
        destruct (handleSearch_begin_cursor snap u q sid now s) as [K1 [K2 K3]];
        pose proof (handleSearch_begin_auth snap u q sid now s) as K4
    end.
    rewrite E in *. cbn [fst snd addCall app] in *.
    split; [rewrite K4; destruct sa; exact Ha|].
    split; [apply cursorOk_other; rewrite K3; discriminate|].
    constructor; [|constructor]. unfold searchOk.
    split; [exact K1|]. split; [exact K2|]. exact (proj2 (proj2 Hsav)).
  - (* pending message saved *)
    destruct (Hsave _ _ _ _ eq_refl) as [row [[= ->] Hid]].
    assert (Hstage : currentDisplayStage st = DisplayStage.fetchingLinks)
      by (destruct req; simpl in Hok; try contradiction; exact (proj2 Hok)).
    unfold searchOk in Hsok. destruct Hsok as [Hcur [Hquery Hq]].
    unfold handleSearch_saved. rewrite Hid. cbn [fst snd addCall app].
    split; [exact Ha|].
    split; [apply cursorOk_other; cbn; rewrite Hstage; discriminate|].
    constructor; [|constructor]. unfold searchOk. cbn.
    split; [reflexivity|]. split; [exact Hcur|]. split; [exact Hquery|].
    split; [exact Hq | exact Hid].
  - (* links fetched *)
    unfold searchOk in Hsok. destruct Hsok as [_ [Hcur _]].
    destruct (failed lo) eqn:Hf.
    + destruct (failed_thrown "Link fetch failed: "
                  "Link fetch network response was not ok" lo Hf) as [m Hm].
      rewrite (handleSearch_linksFetched_failure snap st q _ lo m Hm).
      cbn [fst snd addCall]. split; [exact Ha|].
      split; [apply cursorOk_other; cbn; discriminate | constructor].
    + destruct lo as [| | |links]; try discriminate.
      unfold handleSearch_linksFetched.
      destruct (0 <? List.length (FetchedLinksResponse.results links))%nat eqn:En.
      * cbn [fst snd addCall]. split; [exact Ha|]. split; [|constructor].
        intros _. exists links. split; [reflexivity|]. cbn. rewrite Hcur.
        apply Nat.ltb_lt. exact En.
      * unfold fetchAiAnalysis. cbn [fst snd addCall app]. split; [exact Ha|].
        split; [apply cursorOk_other; cbn; discriminate|].
        constructor; [exact I | constructor].
  - (* analysis fetched *)
    destruct (failed ao) eqn:Hf.
    + destruct (failed_thrown "AI analysis failed: "
                  "AI analysis network response was not ok" ao Hf) as [m Hm].
      rewrite (fetchAiAnalysis_fetched_failure snap st mid ao m Hm).
      cbn [fst snd addCall]. split; [exact Ha|].
      split; [apply cursorOk_other; cbn; discriminate | constructor].
    + destruct ao as [| | |resp]; try discriminate.
      unfold fetchAiAnalysis_fetched.
      destruct (saveChatMessage snap (responseOnly resp) mid) as [req'|];
        cbn [fst snd addCall app]; (split; [exact Ha|]);
        (split; [apply cursorOk_other; cbn; discriminate|]).
      * constructor; [exact I | constructor].
      * constructor.
  - (* analysis saved *)
    cbn [fst snd addCall]. split; [exact Ha|]. split; [|constructor].
    revert Hc. apply cursorOk_same; reflexivity.
  - destruct req; simpl in Hok; contradiction.
  - destruct req; simpl in Hok; contradiction.
Qed.

(** A timer set by the stage effect fires. *)
Lemma timerFired_revealOk (st : State) cb d (calls : list (Request * Task)) :
  stageEffect st = SetTimeout cb d ->
  isLoadingAuth st = false ->
  cursorOk st ->
  flightOk calls st ->
  isLoadingAuth (timerFired cb st) = false
  /\ cursorOk (timerFired cb st)
  /\ Forall (fun c => searchOk c (timerFired cb st)) calls.
Proof.
  intros Heff Ha Hc Hfl. split; [destruct cb; exact Ha|]. split.
  - destruct cb as [|stage|p].
    + destruct (stageEffect_increment st d Heff) as [_ [links [Hl Hlt]]].
      intros _. exists links. cbn. split; [exact Hl | lia].
    + pose proof (stageEffect_timer st _ d Heff) as Hs. apply cursorOk_other. exact Hs.
    + apply cursorOk_other. cbn. discriminate.
  - destruct calls as [|c [|c' rest]]; [constructor | | contradiction].
    constructor; [|constructor]. exact (searchOk_timer c st _ cb d Heff Hfl).
Qed.

(** One orderly event keeps the cursor inside the links. *)
Lemma exec_revealOk (e : Event) (s s' : Sys) :
  flightOk (inflight s) (ui s) ->
  revealOk s ->
  orderly e s = true ->
  exec e s = Some s' ->
  revealOk s'.
Proof.
  intros Hfl [Ha [Hc Hf]] Hord Hexec.
  destruct e as [q | sessionId | | model | | i r | ]; cbn [exec orderly] in *.
  - (* Submit *)
    destruct (inflight s) eqn:Hin; [|discriminate].
    destruct (currentPendingMessageId (ui s)) eqn:Hmark; [discriminate|].
    destruct (pageShown (ui s)) eqn:Hshown; [|discriminate].
    destruct (pageShown_user _ Hshown) as [_ Hu].
    destruct (negb (searchFormDisabled (ui s))); [|discriminate].
    injection Hexec as <-.
    destruct (handleSubmit_revealOk (ui s) q (clock s) Ha Hc Hord Hu) as [K1 [K2 K3]].
    apply commit_revealOk; assumption.
  - (* SelectChat *)
    destruct (inflight s) eqn:Hin; [|discriminate].
    destruct (pageShown (ui s) && _); [|discriminate].
    injection Hexec as <-. unfold handleSelectChat.
    destruct (user (ui s));
      [|apply commit_revealOk; [exact Ha | exact Hc | constructor]].
    destruct (strictEq (Some sessionId) (currentSessionId (ui s)));
      [apply commit_revealOk; [exact Ha | exact Hc | constructor]|].
    apply commit_revealOk; cbn [fst snd addCall app];
      [exact Ha | apply cursorOk_other; cbn; discriminate
      | constructor; [exact I | constructor]].
  - (* NewChat *)
    destruct (inflight s) eqn:Hin; [|discriminate].
    destruct (pageShown (ui s) && _); [|discriminate].
    injection Hexec as <-. unfold handleNewChat.
    destruct (user (ui s));
      [|apply commit_revealOk; [exact Ha | exact Hc | constructor]].
    apply commit_revealOk; cbn [fst snd addCall app];
      [exact Ha | apply cursorOk_other; cbn; discriminate
      | constructor; [exact I | constructor]].
  - (* ChooseModel *)
    destruct (inflight s) eqn:Hin; [|discriminate].
    destruct (pageShown (ui s) && _); [|discriminate].
    injection Hexec as <-. apply commit_revealOk; cbn [fst snd addCall];
      [exact Ha | revert Hc; apply cursorOk_same; reflexivity | constructor].
  - (* SignedOut *)
    destruct (inflight s) eqn:Hin; [|discriminate].
    injection Hexec as <-. apply commit_revealOk; cbn [fst snd addCall];
      [exact Ha | revert Hc; apply cursorOk_same; reflexivity | constructor].
  - (* Resolve *)
    destruct (nth_error (inflight s) i) as [[req task]|] eqn:Hnth; [|discriminate].
    destruct (flightOk_single _ _ _ _ Hfl Hnth) as [Hone [Hrem Hok]].
    destruct (perform req r (db s)) as [[d a]|] eqn:Hperf; [|discriminate].
    destruct (resume task a (clock s) (ui s)) as [o|] eqn:Hres; [|discriminate].
    injection Hexec as <-. rewrite Hrem.
    assert (Hsok : searchOk (req, task) (ui s))
      by (rewrite Hone in Hf; inversion Hf; assumption).
    destruct (resume_revealOk req task a (clock s) (ui s) o Ha Hc Hok Hsok Hres)
      as [K1 [K2 K3]].
    { intros snap u q sid ->.
      destruct req; simpl in Hok; try contradiction.
      destruct r as [|newId created| |]; try discriminate.
      apply andb_true_iff in Hord. destruct Hord as [Hid _].
      cbn [perform] in Hperf. injection Hperf as _ <-.
      eexists. split; [reflexivity | exact Hid]. }
    apply commit_revealOk; assumption.
  - (* TimerFires *)
    destruct (stageEffect (ui s)) as [|cb d|] eqn:Heff; try discriminate.
    injection Hexec as <-.
    destruct (timerFired_revealOk (ui s) cb d (inflight s) Heff Ha Hc Hfl) as [K1 [K2 K3]].
    apply commit_revealOk; cbn [fst snd addCall]; assumption.
Qed.

Lemma execOrderly_revealOk (es : list Event) :
  forall s0 s,
    wellMarked (ui s0) ->
    flightOk (inflight s0) (ui s0) ->
    revealOk s0 ->
    execOrderly es s0 = Some s ->
    flightOk (inflight s) (ui s) /\ revealOk s.
Proof.
  induction es as [|e rest IH]; intros s0 s Hwm Hfl Hrev Hrun; cbn [execOrderly] in Hrun.
  - injection Hrun as <-. now split.
  - destruct (orderly e s0) eqn:Hord; [|discriminate].
    destruct (exec e s0) as [s1|] eqn:Hexec; [|discriminate].
    destruct (exec_orderly e s0 s1 Hwm Hfl Hord Hexec) as [Hwm1 Hfl1].
    exact (IH s1 s Hwm1 Hfl1 (exec_revealOk e s0 s1 Hfl Hrev Hord Hexec) Hrun).
Qed.

(** C4, as the page behaves.  [handleSearch] resets the cursor to 0 when it
    begins the link fetch, and the save of the message leaves it there.  In
    an orderly execution from the signed-in page (the user acts only when no
    call is in flight, submits only when no message is pending and a session
    is active, and the insert of the pending message succeeds with a new,
    non-empty id):
    - whenever the stage is [gatheringLinks], links are fetched and the
      cursor is inside them;
    - a link-fetch response with N > 0 results finds the pending marker set
      and puts the page in [gatheringLinks] with the cursor at 0; the renders
      of the reveal then draw exactly N links, the cursor values being
      0, 1, ..., N-1 in this order, each one more than the one before and
      all in [0, N); on the last one the stage effect calls
      [fetchAiAnalysis] with the query, the fetched links and the pending
      id, which sets the stage [fetchingAiAnalysis] and issues the analysis
      post;
    - as a run of the page: the response and N - 1 firings of the link timer
      lead to the stage [fetchingAiAnalysis] with the cursor on the last
      link, the analysis post as the one call in flight and no timer set. *)
Theorem C4_reveal_steps :
  forall (u : User.t) (es : list Event) (s : Sys),
    execOrderly es (start u) = Some s ->
    (forall snap' u' q' sid now st',
        currentLinkIndex (fst (handleSearch_begin snap' u' q' sid now st')) = 0
        /\ forall saved',
             currentLinkIndex (fst (handleSearch_saved snap' u' q' sid saved' now st'))
             = currentLinkIndex st')
    /\ (currentDisplayStage (ui s) = DisplayStage.gatheringLinks ->
        exists links,
          fetchedLinksData (ui s) = Some links
          /\ currentLinkIndex (ui s) < List.length (FetchedLinksResponse.results links))
    /\ (forall (i : nat) (req : Request) (snap : State) (q : string)
               (saved : option MessageRow.t) (links : FetchedLinksResponse.t)
               (N fuel : nat),
          nth_error (inflight s) i = Some (req, AwaitSearchLinks snap q saved) ->
          N = List.length (FetchedLinksResponse.results links) ->
          0 < N ->
          N <= fuel ->
          let st := fst (handleSearch_linksFetched snap q saved (FetchOk links) (ui s)) in
          let last := snd (reveal fuel st) in
          let pending := currentPendingMessageId (ui s) in
          truthyOpt pending = true
          /\ resume (AwaitSearchLinks snap q saved) (LinksAnswer (FetchOk links))
               (clock s) (ui s) = Some (st, None)
          /\ (currentDisplayStage st = DisplayStage.gatheringLinks
              /\ currentLinkIndex st = 0)
          /\ fst (reveal fuel st) = seq 0 N
          /\ List.length (fst (reveal fuel st)) = N
          /\ Forall (fun i => i < N) (fst (reveal fuel st))
          /\ (currentDisplayStage last = DisplayStage.gatheringLinks
              /\ S (currentLinkIndex last) = N)
          /\ stageEffect last = CallFetchAiAnalysis q links pending
          /\ currentDisplayStage (fst (fetchAiAnalysis last q links pending last))
             = DisplayStage.fetchingAiAnalysis
          /\ fst (snd (fetchAiAnalysis last q links pending last))
             = PostAiAnalysis (aiEndpoint (selectedAiModel last)) q links
          /\ exists s',
               execAll (Resolve i (LinksOutcome (FetchOk links))
                        :: repeat TimerFires (N - 1)) s = Some s'
               /\ currentDisplayStage (ui s') = DisplayStage.fetchingAiAnalysis
               /\ S (currentLinkIndex (ui s')) = N
               /\ map fst (inflight s')
                  = [PostAiAnalysis (aiEndpoint (selectedAiModel (ui s))) q links]
               /\ exec TimerFires s' = None).
Proof.
  intros u es s Hrun.
  destruct (execOrderly_revealOk es (start u) s) as [Hfl [Ha [Hc Hf]]];
    [constructor | exact I
    | split; [reflexivity | split; [apply cursorOk_other; discriminate | constructor]]
    | exact Hrun |].
  split; [intros; split; [apply handleSearch_begin_cursor
                         | intros; apply handleSearch_saved_cursor]|].
  split; [exact Hc|].
  intros i req snap q saved links N fuel Hnth HN Hpos Hfuel st.
  destruct (flightOk_single _ _ _ _ Hfl Hnth) as [Hone [Hrem _]].
  assert (Hsok : searchOk (req, AwaitSearchLinks snap q saved) (ui s))
    by (rewrite Hone in Hf; inversion Hf; assumption).
  unfold searchOk in Hsok. destruct Hsok as [Hreq [Hzero [Hquery [Hq Hmark]]]].
  set (st3 := setIsLoading false
                (setCurrentDisplayStage DisplayStage.gatheringLinks
                   (setChatHistory
                      (mapWhereId
                         (orElse (recordId saved) (currentPendingMessageId snap))
                         (withFetchedLinks links DisplayStage.gatheringLinks)
                         (chatHistory (ui s)))
                      (setFetchedLinksData (Some links) (ui s))))).
  assert (Ho : handleSearch_linksFetched snap q saved (FetchOk links) (ui s) = (st3, None)).
  { unfold handleSearch_linksFetched. rewrite <- HN.
    replace (0 <? N)%nat with true by (symmetry; now apply Nat.ltb_lt). reflexivity. }
  assert (Hst : st = st3) by (subst st; rewrite Ho; reflexivity).
  clearbody st. subst st.
  assert (Hrev : revealing links st3).
  { unfold revealing. subst st3. cbn. rewrite Hquery. now repeat split. }
  assert (Hcur : currentLinkIndex st3 = 0) by exact Hzero.
  assert (Hq3 : currentQuery st3 = q) by exact Hquery.
  assert (Hp3 : currentPendingMessageId st3 = currentPendingMessageId (ui s))
    by reflexivity.
  assert (Hm3 : selectedAiModel st3 = selectedAiModel (ui s)) by reflexivity.
  clearbody st3.
  destruct N as [|k]; [lia|].
  destruct (reveal_from links (S k) HN k st3 fuel Hrev) as
    [Hseq [Hlast [Hend [Hq' [Hp' _]]]]]; [lia | lia |].
  rewrite Hcur in Hseq. intros last pending. subst last pending.
  split; [exact Hmark|].
  split; [cbn [resume]; rewrite Ho; reflexivity|].
  split; [split; [apply Hrev | exact Hcur]|].
  split; [exact Hseq|].
  split; [rewrite Hseq; apply length_seq|].
  split; [rewrite Hseq; apply Forall_forall; intros j Hj; apply in_seq in Hj; lia|].
  split; [split; [apply Hlast | exact Hend]|].
  split.
  { rewrite (revealing_effect links (S k) HN _ Hlast).
    replace (currentLinkIndex (snd (reveal fuel st3)) <? S k - 1)%nat with false
      by (symmetry; apply Nat.ltb_ge; lia).
    rewrite andb_false_r. congruence. }
  split; [reflexivity|]. split; [reflexivity|].
  destruct (commit_reveal links k s (db s) (st3, None) Hrev eq_refl)
    as [s' [snapL [Hrun' [Hfl' [_ [_ [_ [Hstage' [Hidx' _]]]]]]]]];
    [cbn [fst]; rewrite Hcur, <- HN; reflexivity|].
  exists s'. split.
  - cbn [execAll].
    rewrite (exec_Resolve s i (LinksOutcome (FetchOk links)) req
               (AwaitSearchLinks snap q saved) (db s)
               (LinksAnswer (FetchOk links)) (st3, None) Hnth).
    + rewrite Hrem. replace (S k - 1) with k by lia. exact Hrun'.
    + rewrite Hreq. reflexivity.
    + cbn [resume]. rewrite Ho. reflexivity.
  - split; [exact Hstage'|]. split; [rewrite Hidx', <- HN; reflexivity|].
    split.
    + rewrite Hfl'. cbn [map fst]. rewrite Hm3, Hq3. reflexivity.
    + unfold exec. rewrite stageEffect_quiet; [reflexivity|].
      do 3 right. left. exact Hstage'.
Qed.

Lemma C4_reveal_steps_witness :
  execOrderly linksPendingRun (start u1) = Some linksPending
  /\ exists s',
       execAll [Resolve 0 (LinksOutcome (FetchOk twoLinks)); TimerFires] linksPending
       = Some s'
       /\ currentDisplayStage (ui s') = DisplayStage.fetchingAiAnalysis
       /\ S (currentLinkIndex (ui s')) = 2
       /\ exec TimerFires s' = None.
Proof.
  assert (H : execOrderly linksPendingRun (start u1) = Some linksPending)
    by (vm_compute; reflexivity).
  split; [exact H|].
  destruct (C4_reveal_steps u1 linksPendingRun linksPending H) as [_ [_ K]].
  edestruct (K 0) with (links := twoLinks) (N := 2) (fuel := 2)
    as [_ [_ [_ [_ [_ [_ [_ [_ [_ [_ [s' [K1 [K2 [K3 [_ K5]]]]]]]]]]]]]]];
    [lazy; reflexivity | reflexivity | lia | lia |].
  exists s'. split; [exact K1|]. split; [exact K2|]. split; [exact K3 | exact K5].
Defined.

(** * The name of a chat over whole executions *)

















(** * The thinking display *)

(** ** The item-by-item reveal *)

Lemma firings_bound (p : ThinkingProcessDisplay.Props) (n : nat) :
  ThinkingProcessDisplay.itemsToReveal p = Some n ->
  forall k st elapsed,
    ThinkingProcessDisplay.firings k p = Some (st, elapsed) ->
    ThinkingProcessDisplay.revealedItemCount st <= n.
Proof.
  intros Hn. induction k as [|k IH]; intros st elapsed H.
  - injection H as <- _. simpl. lia.
  - cbn [ThinkingProcessDisplay.firings] in H.
    destruct (ThinkingProcessDisplay.firings k p) as [[st0 e0]|]; [|discriminate H].
    specialize (IH st0 e0 eq_refl).
    unfold ThinkingProcessDisplay.timerFires in H. rewrite Hn in H.
    destruct (ThinkingProcessDisplay.timer st0) as [[i d]|]; [|discriminate H].
    injection H as <- _. unfold ThinkingProcessDisplay.revealNextItem.
    destruct (i <? n)%nat eqn:E; cbn [ThinkingProcessDisplay.revealedItemCount].
    + apply Nat.ltb_lt in E. lia.
    + exact IH.
Qed.

(** X9.  The reveal of the items of a thinking stage.  When the stage has
    n > 0 items, the effect starts from a count of 0 and a first timer of
    half the reveal delay; the k-th firing (1 <= k <= n) sets the count to k,
    which happens [2000 k - 1000] ms after the effect ran; one more firing
    finds nothing to reveal, leaves the count at n and sets no timer, and no
    timer fires after that.  The count never exceeds n.  Without analysis
    data, without items, or in another stage, no timer is set at all. *)
Theorem reveal_counts_up_to_all_items :
  forall (p : ThinkingProcessDisplay.Props) (n : nat),
    ThinkingProcessDisplay.itemsToReveal p = Some n ->
    0 < n ->
    ThinkingProcessDisplay.firings 0 p
    = Some (ThinkingProcessDisplay.mkReveal 0 (Some (0, 1000%N)), 0%N)
    /\ (forall k, 1 <= k <= n ->
          ThinkingProcessDisplay.firings k p
          = Some (ThinkingProcessDisplay.mkReveal k
                    (Some (k, ThinkingProcessDisplay.ITEM_REVEAL_DELAY)),
                  (2000 * N.of_nat k - 1000)%N))
    /\ ThinkingProcessDisplay.firings (S n) p
       = Some (ThinkingProcessDisplay.mkReveal n None, (2000 * N.of_nat n + 1000)%N)
    /\ ThinkingProcessDisplay.firings (S (S n)) p = None
    /\ (forall k st elapsed,
          ThinkingProcessDisplay.firings k p = Some (st, elapsed) ->
          ThinkingProcessDisplay.revealedItemCount st <= n)
    /\ (forall p',
          ThinkingProcessDisplay.itemsToReveal p' = None
          \/ ThinkingProcessDisplay.itemsToReveal p' = Some 0 ->
          ThinkingProcessDisplay.revealEffect p' = ThinkingProcessDisplay.mkReveal 0 None
          /\ ThinkingProcessDisplay.firings 1 p' = None).
Proof.
  intros p n Hn Hpos.
  assert (H0 : ThinkingProcessDisplay.firings 0 p
               = Some (ThinkingProcessDisplay.mkReveal 0 (Some (0, 1000%N)), 0%N)).
  { cbn [ThinkingProcessDisplay.firings]. unfold ThinkingProcessDisplay.revealEffect.
    rewrite Hn. replace (0 <? n)%nat with true by (symmetry; apply Nat.ltb_lt; lia).
    reflexivity. }
  assert (Hk : forall k, 1 <= k <= n ->
            ThinkingProcessDisplay.firings k p
            = Some (ThinkingProcessDisplay.mkReveal k
                      (Some (k, ThinkingProcessDisplay.ITEM_REVEAL_DELAY)),
                    (2000 * N.of_nat k - 1000)%N)).
  { induction k as [|k IH]; intros Hr; [lia|].
    cbn [ThinkingProcessDisplay.firings].
    destruct k as [|k].
    - rewrite H0. unfold ThinkingProcessDisplay.timerFires.
      cbn [ThinkingProcessDisplay.timer]. rewrite Hn.
      unfold ThinkingProcessDisplay.revealNextItem.
      replace (0 <? n)%nat with true by (symmetry; apply Nat.ltb_lt; lia).
      reflexivity.
    - rewrite IH by lia. unfold ThinkingProcessDisplay.timerFires.
      cbn [ThinkingProcessDisplay.timer]. rewrite Hn.
      unfold ThinkingProcessDisplay.revealNextItem.
      replace (S k <? n)%nat with true by (symmetry; apply Nat.ltb_lt; lia).
      replace (S k + 1) with (S (S k)) by lia.
      f_equal. f_equal. unfold ThinkingProcessDisplay.ITEM_REVEAL_DELAY. lia. }
  assert (Hlast : ThinkingProcessDisplay.firings (S n) p
                  = Some (ThinkingProcessDisplay.mkReveal n None,
                          (2000 * N.of_nat n + 1000)%N)).
  { cbn [ThinkingProcessDisplay.firings]. rewrite Hk by lia.
    unfold ThinkingProcessDisplay.timerFires. cbn [ThinkingProcessDisplay.timer].
    rewrite Hn. unfold ThinkingProcessDisplay.revealNextItem. rewrite Nat.ltb_irrefl.
    cbn [ThinkingProcessDisplay.revealedItemCount].
    f_equal. f_equal. unfold ThinkingProcessDisplay.ITEM_REVEAL_DELAY. lia. }
  split; [exact H0|]. split; [exact Hk|]. split; [exact Hlast|].
  split; [|split].
  - change (ThinkingProcessDisplay.firings (S (S n)) p)
      with (match ThinkingProcessDisplay.firings (S n) p with
            | Some (st, elapsed) => ThinkingProcessDisplay.timerFires p st elapsed
            | None => None
            end).
    rewrite Hlast. reflexivity.
  - exact (firings_bound p n Hn).
  - intros p' Hp'. unfold ThinkingProcessDisplay.firings, ThinkingProcessDisplay.timerFires,
      ThinkingProcessDisplay.revealEffect.
    destruct Hp' as [-> | ->]; split; reflexivity.
Qed.

Lemma reveal_counts_up_to_all_items_witness :
  let p := ThinkingProcessDisplay.mkProps None
             (Some (AiResponse.mk ["a"; "b"; "c"] [] [] [] []))
             DisplayStage.subquestions None None in
  ThinkingProcessDisplay.firings 3 p
  = Some (ThinkingProcessDisplay.mkReveal 3 (Some (3, 2000%N)), 5000%N)
  /\ ThinkingProcessDisplay.firings 4 p
     = Some (ThinkingProcessDisplay.mkReveal 3 None, 7000%N).
Proof.
  intros p.
  destruct (reveal_counts_up_to_all_items p 3) as [_ [K [K' _]]];
    [reflexivity | lia |].
  split; [apply (K 3); lia | exact K'].
Defined.

(** X10.  What is drawn during the reveal is a prefix of what the stage has
    to show: with a count of [c] the display with the reveal draws the first
    [c] lines of the list the display without the reveal draws in full, each
    line with the same content; as soon as the count has reached the number
    of items the whole list is drawn.  In the stages without a list both
    versions draw the same. *)
Theorem revealed_lines_are_a_prefix :
  forall (c : nat) (p : ThinkingProcessDisplay.Props),
    match ThinkingProcessDisplay.renderContent p with
    | ThinkingProcessDisplay.Items _ all =>
        exists heading,
          ThinkingProcessDisplay.renderContentRevealed c p
          = ThinkingProcessDisplay.Items heading (firstn c all)
          /\ ThinkingProcessDisplay.itemsToReveal p = Some (List.length all)
          /\ List.length (firstn c all) = Nat.min c (List.length all)
          /\ (List.length all <= c -> firstn c all = all)
    | v => ThinkingProcessDisplay.renderContentRevealed c p = v
    end.
Proof.
  intros c p.
  unfold ThinkingProcessDisplay.renderContent, ThinkingProcessDisplay.renderContentRevealed,
    ThinkingProcessDisplay.itemsToReveal.
  destruct (ThinkingProcessDisplay.displayStage p); try reflexivity.
  - unfold ThinkingProcessDisplay.gathering.
    destruct (ThinkingProcessDisplay.fetchedLinksData p) as [links|]; [|reflexivity].
    destruct (ThinkingProcessDisplay.currentLinkIndex p) as [i|]; [|reflexivity].
    destruct (List.length (FetchedLinksResponse.results links) =? 0)%nat; reflexivity.
  - destruct (ThinkingProcessDisplay.aiAnalysisData p) as [ai|]; [|reflexivity].
    eexists. split; [rewrite firstn_map; reflexivity|].
    split; [rewrite length_map; reflexivity|].
    split; [rewrite length_firstn; reflexivity|].
    intros H. apply firstn_all2. exact H.
  - destruct (ThinkingProcessDisplay.aiAnalysisData p) as [ai|]; [|reflexivity].
    eexists. split; [rewrite firstn_map; reflexivity|].
    split; [rewrite length_map; reflexivity|].
    split; [rewrite length_firstn; reflexivity|].
    intros H. apply firstn_all2. exact H.
  - destruct (ThinkingProcessDisplay.aiAnalysisData p) as [ai|]; [|reflexivity].
    eexists. split; [rewrite firstn_map; reflexivity|].
    split; [rewrite length_map; reflexivity|].
    split; [rewrite length_firstn; reflexivity|].
    intros H. apply firstn_all2. exact H.
Qed.

(** ** The links drawn during the reveal *)

Lemma skipn_nth_error {A} (l : list A) :
  forall i x, nth_error l i = Some x -> skipn i l = x :: skipn (S i) l.
Proof.
  induction l as [|y l IH]; intros [|i] x H; try discriminate H.
  - injection H as ->. reflexivity.
  - cbn [skipn]. exact (IH i x H).
Qed.

Lemma revealViews_from (links : FetchedLinksResponse.t) (k : nat) :
  forall (st : State) (fuel : nat),
    revealing links st ->
    currentLinkIndex st + S k = List.length (FetchedLinksResponse.results links) ->
    S k <= fuel ->
    revealViews fuel st
    = map (fun ir =>
             ThinkingProcessDisplay.GatheringData
               (Some (ThinkingProcessDisplay.linkLine (snd ir))) (fst ir + 1)
               (List.length (FetchedLinksResponse.results links)))
        (combine (seq (currentLinkIndex st) (S k))
           (skipn (currentLinkIndex st) (FetchedLinksResponse.results links))).
Proof.
  induction k as [|k IH]; intros st fuel Hrev Hleft Hfuel;
    (destruct fuel as [|fuel]; [lia|]);
    pose proof (revealing_effect links _ eq_refl st Hrev) as E;
    destruct (nth_error (FetchedLinksResponse.results links) (currentLinkIndex st))
      as [x|] eqn:Hx;
    try (apply nth_error_None in Hx; lia);
    assert (Hview : ThinkingProcessDisplay.renderContent (thinkingProps st)
                    = ThinkingProcessDisplay.GatheringData
                        (Some (ThinkingProcessDisplay.linkLine x)) (currentLinkIndex st + 1)
                        (List.length (FetchedLinksResponse.results links)))
      by (destruct Hrev as [Hstage [Hlinks _]];
          unfold ThinkingProcessDisplay.renderContent, ThinkingProcessDisplay.gathering,
            thinkingProps;
          cbn [ThinkingProcessDisplay.displayStage ThinkingProcessDisplay.fetchedLinksData
               ThinkingProcessDisplay.currentLinkIndex];
          rewrite Hstage, Hlinks, Hx;
          replace (List.length (FetchedLinksResponse.results links) =? 0)%nat with false
            by (symmetry; apply Nat.eqb_neq; lia);
          reflexivity);
    cbn [revealViews]; rewrite Hview, (skipn_nth_error _ _ _ Hx); cbn [seq combine map fst snd].
  - replace (currentLinkIndex st
             <? List.length (FetchedLinksResponse.results links) - 1)%nat
      with false in E by (symmetry; apply Nat.ltb_ge; lia).
    rewrite andb_false_r in E. rewrite E. reflexivity.
  - replace (0 <? List.length (FetchedLinksResponse.results links))%nat
      with true in E by (symmetry; apply Nat.ltb_lt; lia).
    replace (currentLinkIndex st
             <? List.length (FetchedLinksResponse.results links) - 1)%nat
      with true in E by (symmetry; apply Nat.ltb_lt; lia).
    cbn [andb] in E. rewrite E. f_equal.
    destruct (revealing_next links st Hrev) as [Hrev' [Hcur _]].
    rewrite (IH (timerFired IncrementLinkIndex st) fuel Hrev') by (rewrite ?Hcur; lia).
    rewrite Hcur. reflexivity.
Qed.

(** X11.  Every fetched link is drawn once, in order.  When the reveal of N
    links starts for a pending message (cursor at 0), the renders of the
    reveal stage show the links one after the other: the k-th render shows
    the k-th result as a link to its [url], labelled by its title (or by the
    url when the title is empty), with the counter "(k of N)"; there are
    exactly N such renders. *)
Theorem every_link_is_drawn_once :
  forall (links : FetchedLinksResponse.t) (st : State) (fuel : nat),
    revealing links st ->
    currentLinkIndex st = 0 ->
    0 < List.length (FetchedLinksResponse.results links) ->
    List.length (FetchedLinksResponse.results links) <= fuel ->
    revealViews fuel st
    = map (fun ir =>
             ThinkingProcessDisplay.GatheringData
               (Some (SearchResultItem.url (snd ir),
                      if truthy (SearchResultItem.title (snd ir))
                      then SearchResultItem.title (snd ir)
                      else SearchResultItem.url (snd ir)))
               (fst ir + 1)
               (List.length (FetchedLinksResponse.results links)))
        (combine (seq 0 (List.length (FetchedLinksResponse.results links)))
           (FetchedLinksResponse.results links))
    /\ List.length (revealViews fuel st)
       = List.length (FetchedLinksResponse.results links).
Proof.
  intros links st fuel Hrev Hcur Hpos Hfuel.
  destruct (List.length (FetchedLinksResponse.results links)) as [|k] eqn:HN; [lia|].
  pose proof (revealViews_from links k st fuel Hrev) as H.
  rewrite Hcur, HN in H. cbn [skipn] in H.
  rewrite H by lia. split; [reflexivity|].
  rewrite length_map, length_combine, length_seq, HN. apply Nat.min_id.
Qed.

Lemma every_link_is_drawn_once_witness :
  revealViews 2 (ui linksArrived)
  = [ThinkingProcessDisplay.GatheringData (Some ("http://a", "a")) 1 2;
     ThinkingProcessDisplay.GatheringData (Some ("http://b", "b")) 2 2].
Proof.
  destruct (every_link_is_drawn_once twoLinks (ui linksArrived) 2) as [K _].
  - unfold revealing. repeat split; vm_compute; reflexivity.
  - vm_compute; reflexivity.
  - simpl; lia.
  - simpl; lia.
  - exact K.
Defined.

(** ** The loading message *)

Ltac loading_ok :=
  unfold loadingOk in *; cbn in *;
  try (split; intros; (discriminate || reflexivity || tauto)); tauto.

Lemma loadingOk_fetchAiAnalysis (snap st : State) q l m :
  loadingOk (fst (fetchAiAnalysis snap q l m st)).
Proof. loading_ok. Qed.

Lemma loadingOk_afterRender (st : State) (calls : list (Request * Task)) :
  loadingOk st -> loadingOk (fst (afterRender st calls)).
Proof.
  intros H. unfold afterRender. destruct (stageEffect st) as [|cb d|q l m]; try exact H.
  loading_ok.
Qed.

Lemma loadingOk_handleSearch_saved (snap : State) u q sid saved now (st : State) :
  loadingOk st -> loadingOk (fst (handleSearch_saved snap u q sid saved now st)).
Proof.
  intros H. unfold handleSearch_saved.
  destruct saved as [row|]; [destruct (truthy (MessageRow.id row))|]; loading_ok.
Qed.

Lemma loadingOk_handleSearch_begin (snap : State) u q sid now (st : State) :
  loadingOk (fst (handleSearch_begin snap u q sid now st)).
Proof.
  unfold handleSearch_begin.
  destruct (saveChatMessage snap (initialMessageData u q sid) None).
  - loading_ok.
  - apply loadingOk_handleSearch_saved. loading_ok.
Qed.

Lemma loadingOk_handleSearch (snap : State) q now (st : State) :
  loadingOk st -> loadingOk (fst (handleSearch snap q now st)).
Proof.
  intros H. unfold handleSearch.
  destruct (user snap) as [u|]; [|loading_ok].
  destruct (negb (truthy (trim q))); [loading_ok|].
  destruct (currentSessionId snap) as [sid|]; [|loading_ok].
  destruct (truthy sid); [|loading_ok].
  destruct (needsRename snap sid); [exact H|].
  apply loadingOk_handleSearch_begin.
Qed.

Lemma loadingOk_resume (task : Task) (a : Answer) (now : nat) (st : State) (o : Outcome) :
  loadingOk st -> resume task a now st = Some o -> loadingOk (fst o).
Proof.
  intros H Hres.
  destruct task as [| |snap u q|snap u q sid|snap u q sid|snap q saved|snap mid
                   |mid resp|mid msg|mid msg];
    destruct a as [a|a|a|o'|o']; try discriminate Hres;
    cbn [resume] in Hres; injection Hres as <-.
  - destruct a; loading_ok.
  - destruct a; loading_ok.
  - unfold handleSearch_sessionCreated. destruct a as [data|]; [|loading_ok].
    destruct (negb (truthy (ChatSession.id data))); [loading_ok|].
    apply loadingOk_handleSearch_begin.
  - unfold handleSearch_renamed. apply loadingOk_handleSearch_begin.
  - apply loadingOk_handleSearch_saved. exact H.
  - destruct (failed o') eqn:Hf.
    + destruct (failed_thrown "Link fetch failed: "
                  "Link fetch network response was not ok" o' Hf) as [m Hm].
      rewrite (handleSearch_linksFetched_failure snap st q saved o' m Hm). loading_ok.
    + destruct o' as [m|s0 body|m|links]; try discriminate Hf.
      unfold handleSearch_linksFetched.
      destruct (0 <? List.length (FetchedLinksResponse.results links))%nat; loading_ok.
  - destruct (failed o') eqn:Hf.
    + destruct (failed_thrown "AI analysis failed: "
                  "AI analysis network response was not ok" o' Hf) as [m Hm].
      rewrite (fetchAiAnalysis_fetched_failure snap st mid o' m Hm). loading_ok.
    + destruct o' as [m|s0 body|m|resp]; try discriminate Hf.
      unfold fetchAiAnalysis_fetched.
      destruct (saveChatMessage snap (responseOnly resp) mid); loading_ok.
  - loading_ok.
  - loading_ok.
  - loading_ok.
Qed.

Lemma loadingOk_timerFired (st : State) cb d :
  stageEffect st = SetTimeout cb d -> loadingOk st -> loadingOk (timerFired cb st).
Proof.
  unfold stageEffect. destruct (stageEffectIdle st); [discriminate|].
  unfold advanceStage. destruct (currentDisplayStage st) eqn:Hstage; try discriminate.
  - destruct (fetchedLinksData st) as [links|]; [|discriminate].
    destruct (0 <? List.length (FetchedLinksResponse.results links))%nat.
    + destruct (currentLinkIndex st <? List.length (FetchedLinksResponse.results links) - 1)%nat.
      * intros H. injection H as <- _. intros [H1 H2]. unfold loadingOk. cbn.
        rewrite Hstage. split; intros; discriminate.
      * destruct (truthy (currentQuery st)); discriminate.
    + destruct (truthy (currentQuery st)); discriminate.
  - destruct (aiAnalysisData st); [|discriminate]. intros H. injection H as <- _.
    intros _. loading_ok.
  - destruct (aiAnalysisData st); [|discriminate]. intros H. injection H as <- _.
    intros _. loading_ok.
  - destruct (aiAnalysisData st); [|discriminate]. intros H. injection H as <- _.
    intros _. loading_ok.
Qed.

Lemma loadingOk_exec (e : Event) (s s' : Sys) :
  loadingOk (ui s) -> exec e s = Some s' -> loadingOk (ui s').
Proof.
  intros H Hexec. destruct e as [q|sid| |model| |i r|]; unfold exec in Hexec.
  - destruct (pageShown (ui s) && negb (searchFormDisabled (ui s))); [|discriminate Hexec].
    injection Hexec as <-. rewrite ui_commit. apply loadingOk_afterRender.
    unfold handleSubmit. destruct (truthy (trim q)); [|exact H].
    apply loadingOk_handleSearch. exact H.
  - destruct (pageShown (ui s) && existsb _ _); [|discriminate Hexec].
    injection Hexec as <-. rewrite ui_commit. apply loadingOk_afterRender.
    unfold handleSelectChat. destruct (user (ui s)); [|exact H].
    destruct (strictEq (Some sid) (currentSessionId (ui s))); [exact H|]. loading_ok.
  - destruct (pageShown (ui s) && negb (newChatDisabled (ui s))); [|discriminate Hexec].
    injection Hexec as <-. rewrite ui_commit. apply loadingOk_afterRender.
    unfold handleNewChat. destruct (user (ui s)); [|exact H]. loading_ok.
  - destruct (pageShown (ui s) && negb (modelSelectDisabled (ui s))); [|discriminate Hexec].
    injection Hexec as <-. rewrite ui_commit. apply loadingOk_afterRender. exact H.
  - injection Hexec as <-. rewrite ui_commit. apply loadingOk_afterRender. exact H.
  - destruct (nth_error (inflight s) i) as [[req task]|]; [|discriminate Hexec].
    destruct (perform req r (db s)) as [[d a]|]; [|discriminate Hexec].
    destruct (resume task a (clock s) (ui s)) as [o|] eqn:Hres; [|discriminate Hexec].
    injection Hexec as <-. rewrite ui_commit. apply loadingOk_afterRender.
    exact (loadingOk_resume task a (clock s) (ui s) o H Hres).
  - destruct (stageEffect (ui s)) as [|cb d|q l m] eqn:E; try discriminate Hexec.
    injection Hexec as <-. rewrite ui_commit. apply loadingOk_afterRender.
    exact (loadingOk_timerFired (ui s) cb d E H).
Qed.

(** X12.  In every execution of the page, orderly or not, the loading
    bubble has its own text: whenever the stage is [fetchingLinks] the
    loading message is "Fetching relevant links...", whenever it is
    [fetchingAiAnalysis] the message is "Preparing AI analysis...", and this
    is what the thinking display draws as its heading.  So the fallback
    "Processing..." is never drawn by the page, and neither is the message
    "No specific links found. Attempting general analysis...", which
    [handleSearch] sets just before [fetchAiAnalysis] replaces it. *)
Theorem loading_bubble_text :
  forall (u : User.t) (es : list Event) (s : Sys),
    execAll es (start u) = Some s ->
    (currentDisplayStage (ui s) = DisplayStage.fetchingLinks ->
     loadingMessage (ui s) = "Fetching relevant links..."
     /\ ThinkingProcessDisplay.renderContent (thinkingProps (ui s))
        = ThinkingProcessDisplay.Heading "Fetching relevant links...")
    /\ (currentDisplayStage (ui s) = DisplayStage.fetchingAiAnalysis ->
        loadingMessage (ui s) = "Preparing AI analysis..."
        /\ ThinkingProcessDisplay.renderContent (thinkingProps (ui s))
           = ThinkingProcessDisplay.Heading "Preparing AI analysis...").
Proof.
  intros u es s Hrun.
  assert (H : loadingOk (ui s)).
  { assert (Hgen : forall es s0 s, loadingOk (ui s0) -> execAll es s0 = Some s ->
                                   loadingOk (ui s)).
    { clear. induction es as [|e es IH]; intros s0 s H0 Hrun.
      - injection Hrun as <-. exact H0.
      - cbn [execAll] in Hrun. destruct (exec e s0) as [s1|] eqn:E; [|discriminate Hrun].
        exact (IH s1 s (loadingOk_exec e s0 s1 H0 E) Hrun). }
    apply (Hgen es (start u) s); [|exact Hrun].
    unfold loadingOk. cbn. split; intros; discriminate. }
  destruct H as [H1 H2]. split; intros Hstage.
  - specialize (H1 Hstage). split; [exact H1|].
    unfold ThinkingProcessDisplay.renderContent, ThinkingProcessDisplay.loadingHeading,
      thinkingProps.
    cbn [ThinkingProcessDisplay.displayStage ThinkingProcessDisplay.loadingMessage].
    rewrite Hstage, H1. reflexivity.
  - specialize (H2 Hstage). split; [exact H2|].
    unfold ThinkingProcessDisplay.renderContent, ThinkingProcessDisplay.loadingHeading,
      thinkingProps.
    cbn [ThinkingProcessDisplay.displayStage ThinkingProcessDisplay.loadingMessage].
    rewrite Hstage, H2. reflexivity.
Qed.

Lemma loading_bubble_text_witness :
  currentDisplayStage (ui noLinksArrived) = DisplayStage.fetchingAiAnalysis
  /\ loadingMessage (ui noLinksArrived) = "Preparing AI analysis...".
Proof.
  assert (Hstage : currentDisplayStage (ui noLinksArrived) = DisplayStage.fetchingAiAnalysis)
    by (vm_compute; reflexivity).
  destruct (loading_bubble_text u1 noLinksRun noLinksArrived) as [_ K];
    [vm_compute; reflexivity|].
  split; [exact Hstage|]. destruct (K Hstage) as [K1 _]. exact K1.
Defined.

(** * The final answer *)

(** ** The link of a source *)

Lemma prefix_empty (s : string) : prefix EmptyString s = true.
Proof. destruct s; reflexivity. Qed.

Lemma indexOf_after (a rest : string) :
  FinalAnswerDisplay.lacks "]" a = true ->
  FinalAnswerDisplay.indexOf "]:" (a ++ "]:" ++ rest) = Some (String.length a).
Proof.
  induction a as [|c a IH]; intros H.
  - cbn. rewrite prefix_empty. reflexivity.
  - cbn [FinalAnswerDisplay.lacks] in H. apply andb_true_iff in H. destruct H as [Hc Ha].
    change ((String c a ++ "]:" ++ rest)%string) with (String c (a ++ "]:" ++ rest))%string.
    cbn [FinalAnswerDisplay.indexOf prefix String.length].
    destruct (ascii_dec "]" c) as [E|_].
    + subst c. discriminate Hc.
    + rewrite (IH Ha). reflexivity.
Qed.

Lemma substringFrom_after (a rest : string) :
  FinalAnswerDisplay.substringFrom (String.length a + 2) (a ++ "]:" ++ rest) = rest.
Proof. induction a as [|c a IH]; [reflexivity | exact IH]. Qed.

(** X13.  The link of a source in the first version of the final answer.  A
    source written "[Source n]: url" (n without a closing bracket) links to
    [url] with the white space around it removed, so the [href] never begins
    or ends with white space; a source that does not begin with "[Source ",
    or has no "]:", is used as the [href] unchanged.  The text of the link is
    always the whole source, and there is one link per source. *)
Theorem sourceHref_of_labelled_source :
  forall (label url : string),
    FinalAnswerDisplay.lacks "]" label = true ->
    FinalAnswerDisplay.sourceHref ("[Source " ++ label ++ "]:" ++ url) = trim url
    /\ trim (FinalAnswerDisplay.sourceHref ("[Source " ++ label ++ "]:" ++ url))
       = FinalAnswerDisplay.sourceHref ("[Source " ++ label ++ "]:" ++ url)
    /\ (forall s, prefix "[Source " s = false -> FinalAnswerDisplay.sourceHref s = s)
    /\ (forall s, FinalAnswerDisplay.indexOf "]:" s = None ->
                  FinalAnswerDisplay.sourceHref s = s)
    /\ (forall ai,
          exists v, FinalAnswerDisplay.render (Some ai) = Some v
                    /\ FinalAnswerDisplay.answer v = AiResponse.final_answer ai
                    /\ map snd (FinalAnswerDisplay.sourceLinks v) = AiResponse.sources ai
                    /\ map fst (FinalAnswerDisplay.sourceLinks v)
                       = map FinalAnswerDisplay.sourceHref (AiResponse.sources ai)).
Proof.
  intros label url Hlabel.
  assert (H : FinalAnswerDisplay.sourceHref ("[Source " ++ label ++ "]:" ++ url) = trim url).
  { unfold FinalAnswerDisplay.sourceHref.
    replace (prefix "[Source " ("[Source " ++ label ++ "]:" ++ url)) with true
      by (cbn; rewrite prefix_empty; reflexivity).
    change ("[Source " ++ label ++ "]:" ++ url)%string
      with (String "[" (String "S" (String "o" (String "u" (String "r" (String "c"
              (String "e" (String " " (label ++ "]:" ++ url)))))))))%string.
    change (String "[" (String "S" (String "o" (String "u" (String "r" (String "c"
              (String "e" (String " " (label ++ "]:" ++ url)))))))))%string
      with (("[Source " ++ label) ++ "]:" ++ url)%string.
    rewrite indexOf_after by (cbn; exact Hlabel).
    rewrite substringFrom_after. reflexivity. }
  split; [exact H|]. split; [rewrite H; apply trim_idem|].
  split; [|split].
  - intros s Hs. unfold FinalAnswerDisplay.sourceHref. rewrite Hs. reflexivity.
  - intros s Hs. unfold FinalAnswerDisplay.sourceHref. rewrite Hs.
    destruct (prefix "[Source " s); reflexivity.
  - intros ai. eexists. split; [reflexivity|]. cbn.
    split; [reflexivity|]. rewrite !map_map. cbn. split; [apply map_id | reflexivity].
Qed.

Lemma sourceHref_of_labelled_source_witness :
  FinalAnswerDisplay.sourceHref "[Source 1]: https://example.org/a " = "https://example.org/a".
Proof.
  destruct (sourceHref_of_labelled_source "1" " https://example.org/a ") as [K _];
    [reflexivity|].
  exact K.
Defined.

(** No-break spaces around the URL are removed as well. *)
Example sourceHref_no_break_space :
  FinalAnswerDisplay.sourceHref
    ("[Source 1]:" ++ String (ascii_of_nat 160) "https://example.org/a"
     ++ String (ascii_of_nat 160) EmptyString)
  = "https://example.org/a".
Proof. reflexivity. Qed.

(** ** The citations of the answer *)

Lemma append_snoc (a b : string) (c : ascii) :
  ((a ++ String c EmptyString) ++ b)%string = (a ++ String c b)%string.
Proof. induction a as [|x a IH]; [reflexivity|]. cbn [append]. rewrite IH. reflexivity. Qed.

Lemma append_empty (a : string) : (a ++ EmptyString)%string = a.
Proof. induction a as [|x a IH]; [reflexivity|]. cbn [append]. rewrite IH. reflexivity. Qed.

Lemma digitRunsFrom_uint (d : Decimal.uint) :
  forall current rest,
    FinalAnswerDisplay.digitRunsFrom current (NilEmpty.string_of_uint d ++ rest)
    = FinalAnswerDisplay.digitRunsFrom (current ++ NilEmpty.string_of_uint d) rest.
Proof.
  induction d as [|d IH|d IH|d IH|d IH|d IH|d IH|d IH|d IH|d IH|d IH]; intros current rest;
    [cbn [NilEmpty.string_of_uint append]; rewrite append_empty; reflexivity | ..];
    cbn [NilEmpty.string_of_uint append FinalAnswerDisplay.digitRunsFrom];
    (replace (FinalAnswerDisplay.isDigit _) with true by reflexivity);
    rewrite IH, append_snoc; reflexivity.
Qed.

Lemma parseDigits_uint (d : Decimal.uint) :
  forall acc, FinalAnswerDisplay.parseDigits acc (NilEmpty.string_of_uint d)
              = Nat.of_uint_acc d acc.
Proof.
  induction d as [|d IH|d IH|d IH|d IH|d IH|d IH|d IH|d IH|d IH|d IH]; intros acc;
    [reflexivity | ..];
    cbn [NilEmpty.string_of_uint FinalAnswerDisplay.parseDigits Nat.of_uint_acc];
    (replace (FinalAnswerDisplay.isDigit _) with true by reflexivity);
    rewrite IH, Nat.tail_mul_spec; f_equal;
    unfold FinalAnswerDisplay.digitValue; cbn [nat_of_ascii]; simpl; lia.
Qed.

Lemma to_uint_nonnil (n : nat) : Nat.to_uint n <> Decimal.Nil.
Proof.
  intros H. pose proof (Unsigned.of_to n) as E. rewrite H in E. cbn in E. subst n.
  vm_compute in H. discriminate H.
Qed.

Lemma numberToString_digits (n : nat) :
  numberToString n = NilEmpty.string_of_uint (Nat.to_uint n)
  /\ truthy (numberToString n) = true.
Proof.
  unfold numberToString, NilZero.string_of_uint.
  pose proof (to_uint_nonnil n) as H.
  destruct (Nat.to_uint n); try (split; reflexivity). contradiction.
Qed.

Lemma parseInt_numberToString (n : nat) :
  FinalAnswerDisplay.parseInt (numberToString n) = n.
Proof.
  destruct (numberToString_digits n) as [-> _]. unfold FinalAnswerDisplay.parseInt.
  rewrite parseDigits_uint. exact (Unsigned.of_to n).
Qed.

Lemma digitRuns_source_block (n : nat) :
  FinalAnswerDisplay.digitRuns ("[Source " ++ numberToString n ++ "]") = [numberToString n].
Proof.
  destruct (numberToString_digits n) as [E T]. unfold FinalAnswerDisplay.digitRuns.
  cbn [append FinalAnswerDisplay.digitRunsFrom].
  repeat (replace (FinalAnswerDisplay.isDigit _) with false by reflexivity).
  cbn [truthy String.eqb negb app].
  rewrite E at 1. rewrite digitRunsFrom_uint. cbn [append]. rewrite <- E.
  cbn [FinalAnswerDisplay.digitRunsFrom].
  replace (FinalAnswerDisplay.isDigit "]") with false by reflexivity.
  rewrite T. reflexivity.
Qed.

Lemma citation_truthy (parseSourceUrl : string -> string) (allSources : list string)
    (num : nat) :
  truthy (FinalAnswerDisplay.citation parseSourceUrl allSources num) = true.
Proof.
  unfold FinalAnswerDisplay.citation.
  destruct (truthy (parseSourceUrl (nth (num - 1) allSources EmptyString))); reflexivity.
Qed.

Lemma concat_empty_iff (l : list string) :
  (forall x, In x l -> truthy x = true) ->
  (String.concat EmptyString l = EmptyString <-> l = []).
Proof.
  intros H. destruct l as [|x l]; [split; reflexivity|].
  split; [|discriminate]. intros E. exfalso.
  assert (Hx : truthy x = true) by (apply H; left; reflexivity).
  destruct x as [|c x]; [discriminate Hx|].
  destruct l; cbn in E; discriminate E.
Qed.

(** X14.  What becomes of a citation block of the answer.  The block is
    replaced by one piece per number in it that names a provided source
    (1 <= n <= number of sources), in the order of the block: a link to the
    URL found in that source, or the bare "[n]" if none is found.  Numbers
    that name no source leave nothing, so the block vanishes from the answer
    exactly when none of its numbers names a source (in particular when it
    has no number).  For a block "[Source n]" the result is the piece of n,
    or nothing. *)
Theorem citation_block_links :
  forall (parseSourceUrl : string -> string) (allSources : list string),
    (forall matchedBlock,
        FinalAnswerDisplay.linkedSources parseSourceUrl allSources matchedBlock = EmptyString
        <-> forall numStr,
              In numStr (FinalAnswerDisplay.digitRuns matchedBlock) ->
              FinalAnswerDisplay.validSource allSources (FinalAnswerDisplay.parseInt numStr)
              = false)
    /\ (forall n,
          FinalAnswerDisplay.linkedSources parseSourceUrl allSources
            ("[Source " ++ numberToString n ++ "]")
          = if (0 <? n)%nat && (n <=? List.length allSources)%nat
            then FinalAnswerDisplay.citation parseSourceUrl allSources n
            else EmptyString)
    /\ (forall n,
          truthy (FinalAnswerDisplay.citation parseSourceUrl allSources n) = true).
Proof.
  intros f srcs. split; [|split].
  - intros block. unfold FinalAnswerDisplay.linkedSources.
    rewrite concat_empty_iff.
    + split.
      * intros E d Hd.
        destruct (FinalAnswerDisplay.validSource srcs (FinalAnswerDisplay.parseInt d)) eqn:V;
          [|reflexivity].
        exfalso.
        assert (Hin : In (FinalAnswerDisplay.parseInt d)
                        (filter (FinalAnswerDisplay.validSource srcs)
                           (map FinalAnswerDisplay.parseInt
                              (FinalAnswerDisplay.digitRuns block))))
          by (apply filter_In; split; [apply in_map; exact Hd | exact V]).
        apply (in_map (FinalAnswerDisplay.citation f srcs)) in Hin.
        rewrite E in Hin. exact Hin.
      * intros H.
        replace (filter (FinalAnswerDisplay.validSource srcs)
                   (map FinalAnswerDisplay.parseInt (FinalAnswerDisplay.digitRuns block)))
          with (@nil nat); [reflexivity|].
        symmetry.
        induction (FinalAnswerDisplay.digitRuns block) as [|d l IH]; [reflexivity|].
        cbn [map filter]. rewrite (H d) by (left; reflexivity).
        apply IH. intros d' Hd'. apply H. right. exact Hd'.
    + intros x Hx. apply in_map_iff in Hx. destruct Hx as [n [<- _]].
      apply citation_truthy.
  - intros n.
    unfold FinalAnswerDisplay.linkedSources. rewrite digitRuns_source_block.
    cbn [map filter]. rewrite parseInt_numberToString.
    unfold FinalAnswerDisplay.validSource.
    destruct ((0 <? n)%nat && (n <=? List.length srcs)%nat); reflexivity.
  - intros n. apply citation_truthy.
Qed.

(** ** The citations in the other version of the component *)

Lemma splitFrom_uint (d : Decimal.uint) :
  forall current,
    FinalAnswerDisplay.splitFrom "," current (NilEmpty.string_of_uint d)
    = [(current ++ NilEmpty.string_of_uint d)%string].
Proof.
  induction d as [|d IH|d IH|d IH|d IH|d IH|d IH|d IH|d IH|d IH|d IH]; intros current;
    [cbn; rewrite append_empty; reflexivity | ..];
    cbn [NilEmpty.string_of_uint FinalAnswerDisplay.splitFrom];
    (replace (Ascii.eqb _ ",") with false by reflexivity);
    rewrite IH, append_snoc; reflexivity.
Qed.

Lemma trimEnd_uint (d : Decimal.uint) :
  trimEnd (NilEmpty.string_of_uint d) = NilEmpty.string_of_uint d.
Proof.
  induction d as [|d IH|d IH|d IH|d IH|d IH|d IH|d IH|d IH|d IH|d IH];
    [reflexivity | ..];
    cbn [NilEmpty.string_of_uint trimEnd]; rewrite IH;
    (replace (isWhiteSpace _) with false by reflexivity); reflexivity.
Qed.

Lemma trim_numberToString (n : nat) : trim (numberToString n) = numberToString n.
Proof.
  destruct (numberToString_digits n) as [E _]. rewrite E. unfold trim.
  pose proof (to_uint_nonnil n) as H.
  destruct (Nat.to_uint n) as [|d|d|d|d|d|d|d|d|d|d]; [contradiction | ..];
    cbn [NilEmpty.string_of_uint trimStart];
    (replace (isWhiteSpace _) with false by reflexivity);
    match goal with
    | |- trimEnd (String ?c (NilEmpty.string_of_uint ?d)) = _ =>
        cbn [trimEnd]; rewrite trimEnd_uint;
        (replace (isWhiteSpace c) with false by reflexivity); reflexivity
    end.
Qed.

Lemma parseDigitsN_nat (s : string) :
  forall acc,
    FinalAnswerDisplay.parseDigitsN acc s
    = N.of_nat (FinalAnswerDisplay.parseDigits (N.to_nat acc) s).
Proof.
  induction s as [|c r IH]; intros acc;
    cbn [FinalAnswerDisplay.parseDigitsN FinalAnswerDisplay.parseDigits].
  - symmetry. apply N2Nat.id.
  - destruct (FinalAnswerDisplay.isDigit c); [|symmetry; apply N2Nat.id].
    rewrite IH. f_equal. f_equal.
    rewrite N2Nat.inj_add, N2Nat.inj_mul, Nat2N.id. reflexivity.
Qed.

Lemma leadingDigits_uint (d : Decimal.uint) :
  FinalAnswerDisplay.leadingDigits (NilEmpty.string_of_uint d) = NilEmpty.string_of_uint d.
Proof.
  induction d as [|d IH|d IH|d IH|d IH|d IH|d IH|d IH|d IH|d IH|d IH];
    [reflexivity | ..];
    cbn [NilEmpty.string_of_uint FinalAnswerDisplay.leadingDigits];
    (replace (FinalAnswerDisplay.isDigit _) with true by reflexivity);
    rewrite IH; reflexivity.
Qed.

(** What [parseInt] makes of the decimal digits of [n]. *)
Lemma parseIntOrNaN_numberToString (n : nat) :
  FinalAnswerDisplay.parseIntOrNaN (numberToString n)
  = if (N.of_nat n <? 2 ^ 53)%N then FinalAnswerDisplay.Exact n
    else FinalAnswerDisplay.Rounded (numberToString n).
Proof.
  assert (V : FinalAnswerDisplay.parseDigitsN 0 (numberToString n) = N.of_nat n).
  { rewrite parseDigitsN_nat. f_equal. exact (parseInt_numberToString n). }
  assert (L : FinalAnswerDisplay.leadingDigits (numberToString n) = numberToString n).
  { destruct (numberToString_digits n) as [E _]. rewrite E. apply leadingDigits_uint. }
  unfold FinalAnswerDisplay.parseIntOrNaN.
  destruct (numberToString n) as [|c r] eqn:E.
  - destruct (numberToString_digits n) as [_ T]. rewrite E in T. discriminate T.
  - assert (D : FinalAnswerDisplay.isDigit c = true).
    { destruct (numberToString_digits n) as [E' _]. rewrite E' in E.
      pose proof (to_uint_nonnil n) as H.
      destruct (Nat.to_uint n); [contradiction | ..];
        cbn [NilEmpty.string_of_uint] in E; injection E as <- _; reflexivity. }
    rewrite D, V, L.
    destruct (N.of_nat n <? 2 ^ 53)%N; [rewrite Nat2N.id|]; reflexivity.
Qed.

Lemma citationOrText_truthy (parseSourceUrl printRounded : string -> string)
    (allSources : list string) (num : FinalAnswerDisplay.ParsedNumber) :
  truthy (FinalAnswerDisplay.citationOrText parseSourceUrl printRounded allSources num)
  = true.
Proof.
  unfold FinalAnswerDisplay.citationOrText. destruct num as [|n|digits]; try reflexivity.
  destruct ((0 <? n)%nat && (n <=? List.length allSources)%nat); [|reflexivity].
  destruct (truthy (parseSourceUrl (nth (n - 1) allSources EmptyString))); reflexivity.
Qed.

Lemma splitFrom_nonempty (sep : ascii) (s : string) :
  forall current, FinalAnswerDisplay.splitFrom sep current s <> [].
Proof.
  induction s as [|c s IH]; intros current; cbn [FinalAnswerDisplay.splitFrom].
  - discriminate.
  - destruct (Ascii.eqb c sep); [discriminate | apply IH].
Qed.

Lemma concat_truthy (sep x : string) (l : list string) :
  truthy x = true -> truthy (String.concat sep (x :: l)) = true.
Proof.
  intros H. destruct x as [|c x]; [discriminate H|]. destruct l; reflexivity.
Qed.

(** A block that holds the decimal digits of one number. *)
Lemma joinedLinks_numberToString (parseSourceUrl printRounded : string -> string)
    (allSources : list string) (n : nat) :
  FinalAnswerDisplay.joinedLinks parseSourceUrl printRounded allSources (numberToString n)
  = FinalAnswerDisplay.citationOrText parseSourceUrl printRounded allSources
      (FinalAnswerDisplay.parseIntOrNaN (numberToString n)).
Proof.
  unfold FinalAnswerDisplay.joinedLinks, FinalAnswerDisplay.split.
  destruct (numberToString_digits n) as [E _].
  rewrite E at 1. rewrite splitFrom_uint. cbn [append map]. rewrite <- E.
  rewrite trim_numberToString. reflexivity.
Qed.

(** X22.  In the other version of the final answer a citation is never
    dropped.  The text that replaces a "[Source ...]" block is never empty,
    so the fallback to the matched text is never taken.  For a block with the
    single number n below 2^53: if n names a source in which a URL is found
    the result is the link to it; otherwise (no URL, n = 0, or n beyond the
    sources) the citation stays as the text "[Source n]".  A number of 2^53
    or more names no source: the citation stays as "[Source ...]" around the
    text JavaScript prints for that number.  A blank piece between commas
    becomes "[Source NaN]". *)
Theorem citation_is_kept_as_text :
  forall (parseSourceUrl printRounded : string -> string) (allSources : list string)
         (matched : string),
    (forall sourceNumbersStr,
        truthy (FinalAnswerDisplay.joinedLinks parseSourceUrl printRounded allSources
                  sourceNumbersStr) = true
        /\ FinalAnswerDisplay.linkedSourcesOrText parseSourceUrl printRounded allSources
             matched sourceNumbersStr
           = FinalAnswerDisplay.joinedLinks parseSourceUrl printRounded allSources
               sourceNumbersStr)
    /\ (forall n,
          (N.of_nat n < 2 ^ 53)%N ->
          FinalAnswerDisplay.linkedSourcesOrText parseSourceUrl printRounded allSources
            matched (numberToString n)
          = if (0 <? n)%nat && (n <=? List.length allSources)%nat
               && truthy (parseSourceUrl (nth (n - 1) allSources EmptyString))
            then FinalAnswerDisplay.sourceLink
                   (parseSourceUrl (nth (n - 1) allSources EmptyString))
                   (nth (n - 1) allSources EmptyString) n
            else ("[Source " ++ numberToString n ++ "]")%string)
    /\ (forall n,
          (2 ^ 53 <= N.of_nat n)%N ->
          FinalAnswerDisplay.linkedSourcesOrText parseSourceUrl printRounded allSources
            matched (numberToString n)
          = ("[Source " ++ printRounded (numberToString n) ++ "]")%string)
    /\ FinalAnswerDisplay.linkedSourcesOrText parseSourceUrl printRounded allSources
         matched ","
       = "[Source NaN] [Source NaN]".
Proof.
  intros f pr srcs matched.
  assert (Hne : forall str,
            truthy (FinalAnswerDisplay.joinedLinks f pr srcs str) = true).
  { intros str. unfold FinalAnswerDisplay.joinedLinks, FinalAnswerDisplay.split.
    pose proof (splitFrom_nonempty "," str EmptyString) as H.
    destruct (FinalAnswerDisplay.splitFrom "," EmptyString str) as [|x l]; [contradiction|].
    cbn [map]. apply concat_truthy. apply citationOrText_truthy. }
  split; [|split; [|split]].
  - intros str. split; [apply Hne|].
    unfold FinalAnswerDisplay.linkedSourcesOrText. rewrite Hne. reflexivity.
  - intros n Hn. unfold FinalAnswerDisplay.linkedSourcesOrText. rewrite Hne.
    rewrite joinedLinks_numberToString, parseIntOrNaN_numberToString.
    apply N.ltb_lt in Hn. rewrite Hn.
    unfold FinalAnswerDisplay.citationOrText. cbn [FinalAnswerDisplay.numberText].
    destruct ((0 <? n)%nat && (n <=? List.length srcs)%nat); [|reflexivity].
    cbn [andb]. destruct (truthy (f (nth (n - 1) srcs EmptyString))); reflexivity.
  - intros n Hn. unfold FinalAnswerDisplay.linkedSourcesOrText. rewrite Hne.
    rewrite joinedLinks_numberToString, parseIntOrNaN_numberToString.
    apply N.ltb_ge in Hn. rewrite Hn. reflexivity.
  - reflexivity.
Qed.

Lemma citation_is_kept_as_text_witness :
  let parse := fun s : string => if prefix "http" s then s else EmptyString in
  (N.of_nat 7 < 2 ^ 53)%N
  /\ FinalAnswerDisplay.linkedSourcesOrText parse (fun digits => digits)
       ["no link"; "http://b"] "[Source 7]" "7"
     = "[Source 7]".
Proof.
  intros parse. split; [reflexivity|].
  destruct (citation_is_kept_as_text parse (fun digits => digits) ["no link"; "http://b"]
              "[Source 7]") as [_ [K _]].
  exact (K 7 eq_refl).
Defined.

(** ** The list of all sources *)

Lemma in_additionalSourcesFrom (parseSourceUrl : string -> string) (sources : list string) :
  forall idx i source,
    nth_error sources i = Some source ->
    truthy (parseSourceUrl source) = true ->
    In (parseSourceUrl source, FinalAnswerDisplay.sourceLabel (idx + i) source)
      (FinalAnswerDisplay.additionalSourcesFrom parseSourceUrl idx sources).
Proof.
  induction sources as [|x l IH]; intros idx [|i] source Hn Ht; try discriminate Hn.
  - injection Hn as ->. cbn [FinalAnswerDisplay.additionalSourcesFrom].
    rewrite Ht, Nat.add_0_r. left. reflexivity.
  - cbn [FinalAnswerDisplay.additionalSourcesFrom]. apply in_or_app. right.
    replace (idx + S i) with (S idx + i) by lia. exact (IH (S idx) i source Hn Ht).
Qed.

Lemma additionalSourcesFrom_origin (parseSourceUrl : string -> string)
    (sources : list string) :
  forall idx href text,
    In (href, text) (FinalAnswerDisplay.additionalSourcesFrom parseSourceUrl idx sources) ->
    exists i source,
      nth_error sources i = Some source
      /\ href = parseSourceUrl source /\ truthy href = true
      /\ text = FinalAnswerDisplay.sourceLabel (idx + i) source.
Proof.
  induction sources as [|x l IH]; intros idx href text H; [contradiction|].
  cbn [FinalAnswerDisplay.additionalSourcesFrom] in H. apply in_app_or in H.
  destruct H as [H|H].
  - destruct (truthy (parseSourceUrl x)) eqn:T; [|contradiction].
    destruct H as [H|[]]. injection H as <- <-.
    exists 0, x. rewrite Nat.add_0_r. repeat split; reflexivity || assumption.
  - destruct (IH (S idx) href text H) as [i [source [Hn [Hh [Ht Hl]]]]].
    exists (S i), source. replace (idx + S i) with (S idx + i) by lia.
    repeat split; assumption.
Qed.

Lemma additionalSourcesFrom_length (parseSourceUrl : string -> string)
    (sources : list string) :
  forall idx,
    List.length (FinalAnswerDisplay.additionalSourcesFrom parseSourceUrl idx sources)
    <= List.length sources.
Proof.
  induction sources as [|x l IH]; intros idx; [apply Nat.le_refl|].
  cbn [FinalAnswerDisplay.additionalSourcesFrom]. rewrite length_app.
  specialize (IH (S idx)). destruct (truthy (parseSourceUrl x)); simpl; lia.
Qed.

(** X15.  The list of all sources agrees with the citations.  A source in
    which a URL is found appears in the list under its position among all
    sources (counted from 1, also when sources before it are left out for
    having no URL), and the citation of that number in the answer links to the
    same URL.  Every entry of the list comes from such a source, the list is
    never longer than the sources, and the source text shown after the number
    is at most 70 characters long (67 characters and "..." for a longer
    source). *)
Theorem source_list_matches_citations :
  forall (parseSourceUrl : string -> string) (sources : list string) (i : nat)
         (source : string),
    nth_error sources i = Some source ->
    truthy (parseSourceUrl source) = true ->
    In (parseSourceUrl source,
        ("[" ++ numberToString (i + 1) ++ "] " ++ FinalAnswerDisplay.shortSource source)%string)
      (FinalAnswerDisplay.additionalSources parseSourceUrl sources)
    /\ FinalAnswerDisplay.linkedSources parseSourceUrl sources
         ("[Source " ++ numberToString (i + 1) ++ "]")
       = FinalAnswerDisplay.sourceLink (parseSourceUrl source) source (i + 1)
    /\ String.length (FinalAnswerDisplay.shortSource source) <= 70
    /\ (70 < String.length source ->
        FinalAnswerDisplay.shortSource source = (substring 0 67 source ++ "...")%string)
    /\ (forall href text,
          In (href, text) (FinalAnswerDisplay.additionalSources parseSourceUrl sources) ->
          exists j src,
            nth_error sources j = Some src /\ href = parseSourceUrl src
            /\ truthy href = true /\ text = FinalAnswerDisplay.sourceLabel j src)
    /\ List.length (FinalAnswerDisplay.additionalSources parseSourceUrl sources)
       <= List.length sources.
Proof.
  intros f sources i source Hn Ht.
  assert (Hlt : i < List.length sources) by (apply nth_error_Some; rewrite Hn; discriminate).
  split; [|split; [|split; [|split; [|split]]]].
  - exact (in_additionalSourcesFrom f sources 0 i source Hn Ht).
  - unfold FinalAnswerDisplay.linkedSources. rewrite digitRuns_source_block.
    cbn [map filter]. rewrite parseInt_numberToString.
    unfold FinalAnswerDisplay.validSource.
    replace (0 <? i + 1)%nat with true by (symmetry; apply Nat.ltb_lt; lia).
    replace (i + 1 <=? List.length sources)%nat with true
      by (symmetry; apply Nat.leb_le; lia).
    cbn [andb map String.concat]. unfold FinalAnswerDisplay.citation.
    rewrite Nat.add_sub, (nth_error_nth sources i EmptyString Hn), Ht. reflexivity.
  - unfold FinalAnswerDisplay.shortSource.
    destruct (70 <? String.length source)%nat eqn:E.
    + apply Nat.ltb_lt in E. rewrite length_append, length_substring_prefix by lia.
      simpl. lia.
    + apply Nat.ltb_ge in E. exact E.
  - intros H. unfold FinalAnswerDisplay.shortSource.
    replace (70 <? String.length source)%nat with true by (symmetry; apply Nat.ltb_lt; lia).
    reflexivity.
  - intros href text H.
    exact (additionalSourcesFrom_origin f sources 0 href text H).
  - apply additionalSourcesFrom_length.
Qed.

Lemma source_list_matches_citations_witness :
  let parse := fun s : string => if prefix "http" s then s else EmptyString in
  In ("http://b", "[2] http://b")
    (FinalAnswerDisplay.additionalSources parse ["no link"; "http://b"]).
Proof.
  intros parse.
  destruct (source_list_matches_citations parse ["no link"; "http://b"] 1 "http://b")
    as [K _]; [reflexivity | reflexivity |].
  exact K.
Defined.

(** * The page as drawn *)

(** X16.  In a state reached by an orderly execution the page draws at most
    one thinking display, under the item the pending marker names, and a
    history item never shows two things at once: an item under which the
    thinking display is drawn has neither a final answer nor an error line,
    and no item has both a final answer and an error line. *)
Theorem one_thinking_display :
  forall (u : User.t) (es : list Event) (s : Sys),
    execOrderly es (start u) = Some s ->
    List.length (filter (showsThinking (ui s)) (chatHistory (ui s))) <= 1
    /\ (forall m, In m (chatHistory (ui s)) ->
          showsThinking (ui s) m = true ->
          ChatMessage.id m = currentPendingMessageId (ui s)
          /\ shownFinalAnswer m = None /\ shownError m = None)
    /\ (forall m, shownFinalAnswer m <> None -> shownError m = None).
Proof.
  intros u es s Hrun.
  destruct (execOrderly_invariant es (start u) s) as [Hwm _];
    [constructor | exact I | exact Hrun |].
  unfold wellMarked in Hwm.
  split; [|split].
  - destruct (currentPendingMessageId (ui s)) as [p|] eqn:Hp.
    + destruct Hwm as [pre [m [Hh [Hid [_ Hpre]]]]]. rewrite Hh, filter_app, length_app.
      replace (filter (showsThinking (ui s)) pre) with (@nil ChatMessage.t).
      * cbn [filter]. destruct (showsThinking (ui s) m); simpl; lia.
      * symmetry. clear Hh. induction Hpre as [|x l [_ Hx] _ IH]; [reflexivity|].
        cbn [filter]. unfold showsThinking at 1. rewrite Hp.
        replace (strictEq (ChatMessage.id x) (Some p)) with false
          by (symmetry; apply strictEq_false_iff; exact Hx).
        cbn [andb]. exact IH.
    + replace (filter (showsThinking (ui s)) (chatHistory (ui s))) with (@nil ChatMessage.t);
        [simpl; lia|].
      symmetry. clear Hwm. induction (chatHistory (ui s)) as [|x l IH]; [reflexivity|].
      cbn [filter]. rewrite (showsThinking_no_marker (ui s) x Hp). exact IH.
  - intros m Hin Hshow.
    destruct (currentPendingMessageId (ui s)) as [p|] eqn:Hp.
    + destruct Hwm as [pre [m0 [Hh [Hid [Hstage Hpre]]]]].
      unfold showsThinking in Hshow. rewrite Hp in Hshow.
      apply andb_true_iff in Hshow. destruct Hshow as [Heq _].
      rewrite Hh in Hin. apply in_app_or in Hin. destruct Hin as [Hin|[<-|[]]].
      * rewrite Forall_forall in Hpre. destruct (Hpre m Hin) as [_ Hne].
        apply strictEq_false_iff in Hne. rewrite Hne in Heq. discriminate Heq.
      * split; [exact Hid|]. unfold shownFinalAnswer, shownError.
        destruct (ChatMessage.stage m0); try discriminate Hstage;
          destruct (ChatMessage.response m0); destruct (ChatMessage.error m0);
          split; reflexivity.
    + rewrite (showsThinking_no_marker (ui s) m Hp) in Hshow. discriminate Hshow.
  - intros m H. unfold shownFinalAnswer in H. unfold shownError.
    destruct (ChatMessage.stage m); destruct (ChatMessage.response m);
      destruct (ChatMessage.error m); try reflexivity; exfalso; apply H; reflexivity.
Qed.

Lemma one_thinking_display_witness :
  map (showsThinking (ui linksArrived)) (chatHistory (ui linksArrived)) = [true]
  /\ List.length (filter (showsThinking (ui linksArrived)) (chatHistory (ui linksArrived)))
     <= 1.
Proof.
  split; [vm_compute; reflexivity|].
  destruct (one_thinking_display u1 linksArrivedRun linksArrived) as [K _];
    [vm_compute; reflexivity|].
  exact K.
Defined.

(** X17.  The page never draws its [error] cell.  What is drawn does not
    depend on it, so the failures that are only reported there leave no
    trace on the screen: a failed new chat, a failed load of the messages of
    a chat, a failed creation of the session of a search, and the two
    refusals of [handleSearch] look exactly like the page without the
    failure.  The only errors drawn are those of history items.  Also, the
    "Redirecting to login..." return is never reached. *)
Theorem global_error_is_never_drawn :
  forall (pathname : string) (st : State),
    (forall e, renderHomePage pathname (setError e st) = renderHomePage pathname st)
    /\ renderHomePage pathname (handleNewChat_inserted None st) = renderHomePage pathname st
    /\ renderHomePage pathname (handleSelectChat_loaded None st)
       = renderHomePage pathname (setIsLoadingMessages false st)
    /\ (forall snap u q now,
          renderHomePage pathname (fst (handleSearch_sessionCreated snap u q None now st))
          = renderHomePage pathname (setIsLoading false st))
    /\ (forall snap q now,
          user snap = None \/ truthy (trim q) = false ->
          snd (handleSearch snap q now st) = None
          /\ renderHomePage pathname (fst (handleSearch snap q now st))
             = renderHomePage pathname st)
    /\ renderHomePage pathname st <> RedirectingToLogin
    /\ (pageShown st = true -> pathname <> "/login" ->
        renderHomePage pathname st = Chat (chatView st)).
Proof.
  intros pathname st.
  split; [reflexivity|]. split; [reflexivity|]. split; [reflexivity|].
  split; [reflexivity|]. split; [|split].
  - intros snap q now H. unfold handleSearch. destruct (user snap) as [u|].
    + destruct H as [H|H]; [discriminate H|]. rewrite H. split; reflexivity.
    + split; reflexivity.
  - unfold renderHomePage.
    destruct (isLoadingAuth st); [discriminate|]. cbn [orb].
    destruct (user st); cbn [andb].
    + destruct (pathname =? "/login"); discriminate.
    + destruct (pathname =? "/login"); discriminate.
  - intros Hshown Hpath. destruct (pageShown_user st Hshown) as [Hauth [u Hu]].
    unfold renderHomePage. rewrite Hauth, Hu. cbn [orb andb].
    apply String.eqb_neq in Hpath. rewrite Hpath. reflexivity.
Qed.

(** ** Signing out *)

(** X18.  A sign-out reported by the authentication listener always goes
    through.  It empties the history, the list of sessions, the active
    session and the pending marker, so the chat view is no longer drawn, no
    stage timer stays set, and the search form, the sidebar, the new-chat
    button and the model selector accept nothing.  The store and the calls in
    flight are left as they are: the calls are not cancelled, and a
    continuation that still holds the signed-in user in its closure goes on
    writing, e.g. the analysis that arrives after the sign-out is still sent
    to the store as an update of its message. *)
Theorem sign_out_clears_the_page :
  forall (s : Sys),
    exists s',
      exec SignedOut s = Some s'
      /\ ui s' = signedOut (ui s)
      /\ (user (ui s') = None /\ chatHistory (ui s') = [] /\ chatSessionsList (ui s') = []
          /\ currentSessionId (ui s') = None /\ currentPendingMessageId (ui s') = None)
      /\ db s' = db s
      /\ inflight s' = inflight s
      /\ (forall pathname v, renderHomePage pathname (ui s') <> Chat v)
      /\ exec TimerFires s' = None
      /\ (forall q, exec (Submit q) s' = None)
      /\ (forall sid, exec (SelectChat sid) s' = None)
      /\ exec NewChat s' = None
      /\ (forall model, exec (ChooseModel model) s' = None)
      /\ (forall snap u sid mid r,
            user snap = Some u -> currentSessionId snap = Some sid ->
            truthy sid = true -> truthy mid = true ->
            snd (fetchAiAnalysis_fetched snap (Some mid) (FetchOk r) (ui s'))
            = Some (UpdateMessage mid r, AwaitAiSave (Some mid) r)).
Proof.
  intros s.
  assert (Hq : stageEffect (signedOut (ui s)) = NoAction)
    by (apply stageEffect_no_marker; reflexivity).
  exists {| ui := signedOut (ui s); db := db s; inflight := inflight s;
            clock := S (clock s) |}.
  split.
  { unfold exec. rewrite (commit_quiet s (db s) (inflight s) (signedOut (ui s), None) Hq).
    reflexivity. }
  cbn [ui db inflight].
  split; [reflexivity|]. split; [repeat split; reflexivity|].
  split; [reflexivity|]. split; [reflexivity|].
  split; [|split; [|split; [|split; [|split; [|split]]]]].
  - intros pathname v. unfold renderHomePage. cbn [user signedOut setUser setChatHistory
      setChatSessionsList setCurrentSessionId setCurrentPendingMessageId isLoadingAuth].
    destruct (isLoadingAuth (ui s)); [discriminate|]. cbn [orb andb].
    destruct (pathname =? "/login"); discriminate.
  - unfold exec. cbn [ui]. rewrite Hq. reflexivity.
  - intros q. unfold exec, pageShown. cbn. rewrite andb_false_r. reflexivity.
  - intros sid. unfold exec, pageShown. cbn. rewrite andb_false_r. reflexivity.
  - unfold exec, pageShown. cbn. rewrite andb_false_r. reflexivity.
  - intros model. unfold exec, pageShown. cbn. rewrite andb_false_r. reflexivity.
  - intros snap u sid mid r Hu Hs Hsid Hmid. unfold fetchAiAnalysis_fetched.
    rewrite (saveChatMessage_response snap u sid mid r Hu Hs Hsid Hmid). reflexivity.
Qed.

(** * The earlier page *)

Lemma earlier_commit_plain (calls : list (Earlier.Request * Earlier.Task))
    (o : Earlier.Outcome) :
  (forall q l, Earlier.stageEffect (fst o) <> Earlier.CallFetchAiAnalysis q l) ->
  Earlier.commit calls o
  = {| Earlier.ui := fst o; Earlier.inflight := Earlier.addCall (snd o) calls |}.
Proof.
  intros H. unfold Earlier.commit, Earlier.afterRender.
  destruct (Earlier.stageEffect (fst o)) as [|cb d|q l]; try reflexivity.
  exfalso. exact (H q l eq_refl).
Qed.

Lemma earlier_revealing_effect (links : FetchedLinksResponse.t) (st : Earlier.State) :
  Earlier.revealing links st ->
  Earlier.stageEffect st
  = if (0 <? List.length (FetchedLinksResponse.results links))%nat
       && (Earlier.currentLinkIndex st
           <? List.length (FetchedLinksResponse.results links) - 1)%nat
    then Earlier.SetTimeout Earlier.IncrementLinkIndex Earlier.LINK_DISPLAY_DELAY
    else Earlier.CallFetchAiAnalysis (Earlier.currentQuery st) links.
Proof.
  intros [Hstage [Hlinks Hq]]. unfold Earlier.stageEffect. rewrite Hstage, Hlinks, Hq.
  destruct (0 <? List.length (FetchedLinksResponse.results links))%nat;
    [destruct (Earlier.currentLinkIndex st
               <? List.length (FetchedLinksResponse.results links) - 1)%nat|];
    reflexivity.
Qed.

Lemma earlier_commit_reveal (links : FetchedLinksResponse.t) :
  forall (k : nat) (o : Earlier.Outcome),
    Earlier.revealing links (fst o) ->
    snd o = None ->
    Earlier.currentLinkIndex (fst o) + S k
    = List.length (FetchedLinksResponse.results links) ->
    exists s',
      Earlier.execAll (repeat Earlier.TimerFires k) (Earlier.commit [] o) = Some s'
      /\ Earlier.inflight s'
         = [(Earlier.PostAiAnalysis (Earlier.currentQuery (fst o)) links, Earlier.AwaitAi)]
      /\ Earlier.currentDisplayStage (Earlier.ui s') = DisplayStage.fetchingAiAnalysis
      /\ Earlier.loadingMessage (Earlier.ui s') = "Preparing AI analysis..."
      /\ Earlier.error (Earlier.ui s') = Earlier.error (fst o)
      /\ Earlier.isLoading (Earlier.ui s') = Earlier.isLoading (fst o).
Proof.
  induction k as [|k IH]; intros o Hrev Hsnd Hleft;
    pose proof (earlier_revealing_effect links (fst o) Hrev) as E.
  - replace (Earlier.currentLinkIndex (fst o)
             <? List.length (FetchedLinksResponse.results links) - 1)%nat
      with false in E by (symmetry; apply Nat.ltb_ge; lia).
    rewrite andb_false_r in E.
    eexists. split.
    + cbn [repeat Earlier.execAll]. unfold Earlier.commit, Earlier.afterRender.
      rewrite Hsnd, E. reflexivity.
    + cbn. repeat split; reflexivity.
  - replace (0 <? List.length (FetchedLinksResponse.results links))%nat
      with true in E by (symmetry; apply Nat.ltb_lt; lia).
    replace (Earlier.currentLinkIndex (fst o)
             <? List.length (FetchedLinksResponse.results links) - 1)%nat
      with true in E by (symmetry; apply Nat.ltb_lt; lia).
    cbn [andb] in E.
    destruct (IH (Earlier.timerFired Earlier.IncrementLinkIndex (fst o), None))
      as [s' [Hrun Hrest]].
    + destruct Hrev as [H1 [H2 H3]]. repeat split; assumption.
    + reflexivity.
    + cbn. lia.
    + exists s'. split; [|exact Hrest].
      cbn [repeat Earlier.execAll].
      rewrite earlier_commit_plain by (intros q l H; rewrite E in H; discriminate H).
      rewrite Hsnd. cbn [Earlier.addCall]. unfold Earlier.exec.
      cbn [Earlier.ui Earlier.inflight]. rewrite E. exact Hrun.
Qed.

Lemma earlier_dwell (s : Earlier.Sys) (r : AiResponse.t) :
  Earlier.currentDisplayStage (Earlier.ui s) = DisplayStage.subquestions ->
  Earlier.aiAnalysisData (Earlier.ui s) = Some r ->
  Earlier.execAll [Earlier.TimerFires; Earlier.TimerFires; Earlier.TimerFires] s
  = Some {| Earlier.ui := Earlier.setCurrentDisplayStage DisplayStage.final (Earlier.ui s);
            Earlier.inflight := Earlier.inflight s |}.
Proof.
  intros Hstage Hai. cbn [Earlier.execAll].
  assert (E0 : Earlier.stageEffect (Earlier.ui s)
               = Earlier.SetTimeout (Earlier.AdvanceTo DisplayStage.analysis)
                   Earlier.STAGE_DELAY)
    by (unfold Earlier.stageEffect; rewrite Hstage, Hai; reflexivity).
  unfold Earlier.exec at 1. rewrite E0.
  rewrite earlier_commit_plain
    by (intros q l H; unfold Earlier.stageEffect in H; cbn in H; rewrite Hai in H;
        discriminate H).
  cbn [fst snd Earlier.addCall].
  unfold Earlier.exec at 1. cbn [Earlier.ui Earlier.inflight].
  assert (E1 : Earlier.stageEffect
                 (Earlier.timerFired (Earlier.AdvanceTo DisplayStage.analysis) (Earlier.ui s))
               = Earlier.SetTimeout (Earlier.AdvanceTo DisplayStage.synthesis)
                   Earlier.STAGE_DELAY)
    by (unfold Earlier.stageEffect; cbn; rewrite Hai; reflexivity).
  rewrite E1.
  rewrite earlier_commit_plain
    by (intros q l H; unfold Earlier.stageEffect in H; cbn in H; rewrite Hai in H;
        discriminate H).
  cbn [fst snd Earlier.addCall].
  unfold Earlier.exec at 1. cbn [Earlier.ui Earlier.inflight].
  assert (E2 : Earlier.stageEffect
                 (Earlier.timerFired (Earlier.AdvanceTo DisplayStage.synthesis)
                    (Earlier.timerFired (Earlier.AdvanceTo DisplayStage.analysis)
                       (Earlier.ui s)))
               = Earlier.SetTimeout (Earlier.AdvanceTo DisplayStage.final)
                   Earlier.STAGE_DELAY)
    by (unfold Earlier.stageEffect; cbn; rewrite Hai; reflexivity).
  rewrite E2.
  rewrite earlier_commit_plain by (intros q l H; discriminate H).
  reflexivity.
Qed.

(** X19.  In the earlier page every query runs to its final answer.  From
    any state in which the search form is enabled and no call is in flight, a
    non-blank submission whose link fetch returns N links (N >= 0) and whose
    analysis succeeds takes: the link fetch, N - 1 firings of the link timer
    (none for N <= 1), the analysis post with the trimmed query and the
    fetched links (with an empty result list made for the query when N = 0),
    and three firings of the stage timer.  It ends in stage [final] with the
    answer drawn from the analysis kept in the page; nothing else is drawn,
    the form is enabled again and no call or timer is left.  No marker
    guards the stage effect here, so the reveal cannot get stuck. *)
Theorem earlier_query_runs_to_final_answer :
  forall (s : Earlier.Sys) (q : string) (links : FetchedLinksResponse.t) (r : AiResponse.t),
    Earlier.formIsLoading (Earlier.ui s) = false ->
    Earlier.inflight s = [] ->
    truthy (trim q) = true ->
    let N := List.length (FetchedLinksResponse.results links) in
    let posted :=
      if (0 <? N)%nat then links
      else {| FetchedLinksResponse.query := trim q; FetchedLinksResponse.results := [];
              FetchedLinksResponse.total_results := Some 0 |} in
    exists s1 s2,
      Earlier.execAll ([Earlier.Submit q;
                        Earlier.Resolve 0 (Earlier.LinksReply (FetchOk links))]
                       ++ repeat Earlier.TimerFires (N - 1)) s = Some s1
      /\ Earlier.inflight s1 = [(Earlier.PostAiAnalysis (trim q) posted, Earlier.AwaitAi)]
      /\ Earlier.currentDisplayStage (Earlier.ui s1) = DisplayStage.fetchingAiAnalysis
      /\ Earlier.execAll [Earlier.Resolve 0 (Earlier.AiReply (FetchOk r));
                          Earlier.TimerFires; Earlier.TimerFires; Earlier.TimerFires] s1
         = Some s2
      /\ Earlier.currentDisplayStage (Earlier.ui s2) = DisplayStage.final
      /\ Earlier.finalAnswer (Earlier.ui s2) = Some r
      /\ Earlier.errorLine (Earlier.ui s2) = None
      /\ Earlier.thinking (Earlier.ui s2) = None
      /\ Earlier.formIsLoading (Earlier.ui s2) = false
      /\ Earlier.inflight s2 = []
      /\ Earlier.exec Earlier.TimerFires s2 = None.
Proof.
  intros s q links r Hform Hin Hq N posted.
  set (st1 := fst (Earlier.handleSearch (trim q) (Earlier.ui s))).
  set (sa := {| Earlier.ui := st1;
                Earlier.inflight := [(Earlier.PostFetchLinks (trim q),
                                      Earlier.AwaitLinks (trim q))] |}).
  assert (Ea : Earlier.exec (Earlier.Submit q) s = Some sa).
  { unfold Earlier.exec. rewrite Hform, Hin. unfold Earlier.handleSubmit. rewrite Hq.
    cbn [Earlier.handleSearch]. rewrite earlier_commit_plain by (intros a l H; discriminate H).
    reflexivity. }
  assert (Hmid : exists s1,
             Earlier.execAll (Earlier.Resolve 0 (Earlier.LinksReply (FetchOk links))
                              :: repeat Earlier.TimerFires (N - 1)) sa = Some s1
             /\ Earlier.inflight s1
                = [(Earlier.PostAiAnalysis (trim q) posted, Earlier.AwaitAi)]
             /\ Earlier.currentDisplayStage (Earlier.ui s1) = DisplayStage.fetchingAiAnalysis
             /\ Earlier.isLoading (Earlier.ui s1) = false).
  { cbn [Earlier.execAll]. unfold Earlier.exec. cbn [Earlier.inflight Earlier.ui sa nth_error
      Earlier.resume removeNth firstn skipn app].
    unfold Earlier.handleSearch_linksFetched. subst posted. fold N.
    destruct (0 <? N)%nat eqn:HN.
    - apply Nat.ltb_lt in HN.
      destruct (earlier_commit_reveal links (N - 1)
                  (Earlier.setIsLoading false
                     (Earlier.setCurrentDisplayStage DisplayStage.gatheringLinks
                        (Earlier.setFetchedLinksData (Some links) st1)), None))
        as [s1 [Hrun [Hfl [Hstage [_ [_ Hload]]]]]].
      + repeat split; try reflexivity. exact Hq.
      + reflexivity.
      + cbn. fold N. lia.
      + exists s1. split; [exact Hrun|]. split; [exact Hfl|]. split; [exact Hstage|].
        exact Hload.
    - apply Nat.ltb_ge in HN. replace (N - 1) with 0 by lia.
      cbn [repeat Earlier.execAll Earlier.fetchAiAnalysis fst snd].
      rewrite earlier_commit_plain by (intros a l H; discriminate H).
      eexists. split; [reflexivity|]. repeat split; reflexivity. }
  destruct Hmid as [s1 [E1 [Hfl [Hstage Hload]]]].
  set (st4 := Earlier.fetchAiAnalysis_fetched (FetchOk r) (Earlier.ui s1)).
  set (sb := {| Earlier.ui := st4; Earlier.inflight := [] |}).
  assert (Eb : Earlier.exec (Earlier.Resolve 0 (Earlier.AiReply (FetchOk r))) s1 = Some sb).
  { unfold Earlier.exec. rewrite Hfl. cbn [nth_error Earlier.resume removeNth firstn skipn app].
    rewrite earlier_commit_plain by (intros a l H; discriminate H). reflexivity. }
  pose proof (earlier_dwell sb r eq_refl eq_refl) as Ed.
  eexists. eexists.
  split; [cbn [app Earlier.execAll]; rewrite Ea; cbn [Earlier.execAll] in E1; exact E1|].
  split; [exact Hfl|]. split; [exact Hstage|].
  split; [cbn [Earlier.execAll] in Ed |- *; rewrite Eb; exact Ed|].
  cbn [Earlier.ui Earlier.inflight sb].
  split; [reflexivity|]. split; [reflexivity|]. split; [reflexivity|]. split; [reflexivity|].
  split; [|split; reflexivity].
  unfold Earlier.formIsLoading. cbn. rewrite Hload. reflexivity.
Qed.

Lemma earlier_query_runs_to_final_answer_witness :
  let s := {| Earlier.ui := Earlier.initialState; Earlier.inflight := [] |} in
  exists s2,
    Earlier.execAll [Earlier.Submit " q1 ";
                     Earlier.Resolve 0 (Earlier.LinksReply (FetchOk twoLinks));
                     Earlier.TimerFires;
                     Earlier.Resolve 0 (Earlier.AiReply (FetchOk answerOfQ1));
                     Earlier.TimerFires; Earlier.TimerFires; Earlier.TimerFires] s = Some s2
    /\ Earlier.finalAnswer (Earlier.ui s2) = Some answerOfQ1.
Proof.
  intros s.
  destruct (earlier_query_runs_to_final_answer s " q1 " twoLinks answerOfQ1)
    as [s1 [s2 [K1 [_ [_ [K2 [_ [K3 _]]]]]]]];
    [reflexivity | reflexivity | reflexivity |].
  exists s2. split; [|exact K3].
  cbn [app repeat List.length FetchedLinksResponse.results twoLinks Nat.sub Earlier.execAll]
    in K1.
  cbn [Earlier.execAll] in K2 |- *.
  destruct (Earlier.exec (Earlier.Submit " q1 ") s) as [sa|]; [|discriminate K1].
  destruct (Earlier.exec (Earlier.Resolve 0 (Earlier.LinksReply (FetchOk twoLinks))) sa)
    as [sb|]; [|discriminate K1].
  destruct (Earlier.exec Earlier.TimerFires sb) as [sc|]; [|discriminate K1].
  injection K1 as ->. exact K2.
Defined.

(** X20.  In the earlier page every failure is shown.  When the link fetch
    or the analysis fails (the fetch rejects, the status is not 2xx, or the
    body cannot be read) the stage becomes [error] and the error line is
    drawn with a message that is never empty; no call and no timer follows,
    neither the thinking display nor a final answer is drawn, and after a
    failed link fetch the search form is enabled again. *)
Theorem earlier_failure_is_shown :
  forall (st : Earlier.State) (q : string)
         (ol : FetchOutcome FetchedLinksResponse.t) (oa : FetchOutcome AiResponse.t),
    failed ol = true ->
    failed oa = true ->
    let rl := Earlier.handleSearch_linksFetched q ol st in
    let sa := Earlier.fetchAiAnalysis_fetched oa st in
    (snd rl = None
     /\ (exists m, Earlier.errorLine (fst rl) = Some m /\ truthy m = true)
     /\ Earlier.formIsLoading (fst rl) = false
     /\ Earlier.stageEffect (fst rl) = Earlier.NoAction
     /\ Earlier.thinking (fst rl) = None
     /\ Earlier.finalAnswer (fst rl) = None)
    /\ ((exists m, Earlier.errorLine sa = Some m /\ truthy m = true)
        /\ Earlier.stageEffect sa = Earlier.NoAction
        /\ Earlier.thinking sa = None
        /\ Earlier.finalAnswer sa = None).
Proof.
  intros st q ol oa Hl Ha rl sa.
  destruct (failed_thrown "Link fetch failed: " "Link fetch network response was not ok"
              ol Hl) as [ml Hml].
  destruct (failed_thrown "AI analysis failed: " "AI analysis network response was not ok"
              oa Ha) as [ma Hma].
  assert (Tl : truthy (messageOr ml "An unknown error occurred during search.") = true)
    by (apply messageOr_truthy; reflexivity).
  assert (Ta : truthy (messageOr ma "An error occurred while fetching AI analysis.") = true)
    by (apply messageOr_truthy; reflexivity).
  split.
  - assert (E : rl = (Earlier.setIsLoading false
                        (Earlier.setCurrentDisplayStage DisplayStage.error
                           (Earlier.setError
                              (Some (messageOr ml "An unknown error occurred during search."))
                              st)), None)).
    { subst rl. unfold Earlier.handleSearch_linksFetched.
      destruct ol as [m|s0 body|m|links]; try discriminate Hl; rewrite Hml; reflexivity. }
    rewrite E. cbn [fst snd]. split; [reflexivity|]. split.
    + exists (messageOr ml "An unknown error occurred during search.").
      split; [|exact Tl]. unfold Earlier.errorLine. cbn. rewrite Tl. reflexivity.
    + repeat split; reflexivity.
  - assert (E : sa = Earlier.setCurrentDisplayStage DisplayStage.error
                       (Earlier.setError
                          (Some (messageOr ma
                                   "An error occurred while fetching AI analysis.")) st)).
    { subst sa. unfold Earlier.fetchAiAnalysis_fetched.
      destruct oa as [m|s0 body|m|resp]; try discriminate Ha; rewrite Hma; reflexivity. }
    rewrite E. split.
    + exists (messageOr ma "An error occurred while fetching AI analysis.").
      split; [|exact Ta]. unfold Earlier.errorLine. cbn. rewrite Ta. reflexivity.
    + repeat split; reflexivity.
Qed.

Lemma earlier_failure_is_shown_witness :
  Earlier.errorLine
    (fst (Earlier.handleSearch_linksFetched "q1"
            (FetchNotOk "Internal Server Error" (Some None)) Earlier.initialState))
  = Some "Link fetch network response was not ok".
Proof.
  destruct (earlier_failure_is_shown Earlier.initialState "q1"
              (FetchNotOk "Internal Server Error" (Some None))
              (FetchRejected "Failed to fetch"))
    as [[_ [[m [K T]] _]] _]; [reflexivity | reflexivity |].
  rewrite K. vm_compute in K. exact (eq_sym K).
Defined.
